(** * fix_photo_dates: restoring photo timestamps from exported CSV metadata

    A shallow embedding of [fix_photo_dates.py] and the properties of its
    matching and update logic.

    Conventions of the embedding.
    - Python [str] values are Rocq [string]s (sequences of one-byte
      characters).  [str.lower], the regular-expression classes [\s] and
      [\d] and case-insensitive matching are modelled on ASCII; the
      non-ASCII digits and blanks that Python's [re] also accepts are
      outside the model.
    - [pandas.to_datetime] with a format and [Timestamp.strftime] follow
      [_strptime]: the format becomes a sequence of alternations that is
      matched with backtracking and the names are those of the C locale;
      [%Y] prints the year in plain decimal, as the C library of Linux
      does.
    - The folder is a list of entries in [os.listdir] order.  Every entry
      carries its two timestamps, its node (a directory, or a regular file
      with its contents) and two facts about the outside world that the
      script only observes: what [pandas.read_csv] returns for the file,
      and what the [filedate] library meets when asked to write.
    - A timestamp is the calendar reading of the local clock.  [filedate]
      gets a text and reads it with [dateutil], month first; module
      [Filedate] is that reading for the texts the script produces.
    - File names are the bytes the operating system gives.  The script
      proper is embedded with a console that takes every line and a
      directory that can be listed; module [Checked] is the script with
      [print] raising on a name that is not UTF-8 and with [os.listdir]
      raising when the directory refuses, and agrees with the script
      proper whenever neither happens.
    - Exceptions are values of type [exc]; code that may raise lives in the
      state-and-exception monad [M]. *)

From Stdlib Require Import String Ascii List Bool Arith PeanoNat Lia.
Import ListNotations.
Open Scope string_scope.
Open Scope nat_scope.
Open Scope list_scope.



(* ------------------------------------------------------------------ *)
(** ** Strings *)
(* ------------------------------------------------------------------ *)

Module Str.

(** [c.lower()] on one ASCII character. *)
Definition lower_ascii (c : ascii) : ascii :=
  let n := nat_of_ascii c in
  if (65 <=? n) && (n <=? 90) then ascii_of_nat (n + 32) else c.

(** [s.lower()]. *)
Fixpoint lower (s : string) : string :=
  match s with
  | EmptyString => EmptyString
  | String c s' => String (lower_ascii c) (lower s')
  end.

(** [s[n:]]. *)
Fixpoint drop (n : nat) (s : string) : string :=
  match n, s with
  | O, _ => s
  | S n', String _ s' => drop n' s'
  | S _, EmptyString => EmptyString
  end.

(** [s.endswith(suffix)]: the last [len(suffix)] characters of [s] are
    [suffix]. *)
Definition endswith (suffix s : string) : bool :=
  (String.length suffix <=? String.length s)
  && String.eqb (drop (String.length s - String.length suffix) s) suffix.

(** [s.lstrip(chars)] for a single character. *)
Fixpoint lstrip (c : ascii) (s : string) : string :=
  match s with
  | String a s' => if Ascii.eqb a c then lstrip c s' else s
  | EmptyString => EmptyString
  end.

(** Position of the last occurrence of [c] in [s] ([s.rfind(c)]),
    [None] for Python's [-1]. *)
Fixpoint rfind (c : ascii) (s : string) : option nat :=
  match s with
  | EmptyString => None
  | String a s' =>
      match rfind c s' with
      | Some i => Some (S i)
      | None => if Ascii.eqb a c then Some 0 else None
      end
  end.

(** [s[:n]]. *)
Fixpoint take (n : nat) (s : string) : string :=
  match n, s with
  | O, _ => EmptyString
  | S n', String a s' => String a (take n' s')
  | S _, EmptyString => EmptyString
  end.

(** Does [s[:n]] contain a character other than [c]? *)
Fixpoint has_other (c : ascii) (n : nat) (s : string) : bool :=
  match n, s with
  | S n', String a s' => negb (Ascii.eqb a c) || has_other c n' s'
  | _, _ => false
  end.

(** One decimal digit. *)
Definition digit (n : nat) : ascii := ascii_of_nat (48 + n mod 10).

(** [n] printed on two digits ([%02d]). *)
Definition pad2 (n : nat) : string :=
  String (digit (n / 10)) (String (digit n) EmptyString).

(** [n] printed on four digits ([%04d]). *)
Definition pad4 (n : nat) : string :=
  String (digit (n / 1000)) (String (digit (n / 100))
    (String (digit (n / 10)) (String (digit n) EmptyString))).

(** [n] in decimal without padding, [fuel] bounding the number of digits. *)
Fixpoint decimal_fuel (fuel n : nat) : string :=
  match fuel with
  | O => EmptyString
  | S fuel' =>
      if n <? 10 then String (digit n) EmptyString
      else (decimal_fuel fuel' (n / 10) ++ String (digit n) EmptyString)%string
  end.

(** [str(n)]. *)
Definition decimal (n : nat) : string := decimal_fuel (S n) n.

(** [\d]: an ASCII decimal digit, with its value. *)
Definition digit_val (c : ascii) : option nat :=
  let n := nat_of_ascii c in
  if (48 <=? n) && (n <=? 57) then Some (n - 48) else None.

(** [\s]: the ASCII characters for which [str.isspace] holds. *)
Definition is_space (c : ascii) : bool :=
  let n := nat_of_ascii c in
  ((9 <=? n) && (n <=? 13)) || ((28 <=? n) && (n <=? 32)).

(** The ranges of the bytes that have to follow the first byte [b] of a
    UTF-8 sequence; [None] when no sequence starts with [b]. *)
Definition utf8_tail (b : nat) : option (list (nat * nat)) :=
  if b <=? 127 then Some []
  else if (194 <=? b) && (b <=? 223) then Some [(128, 191)]
  else if b =? 224 then Some [(160, 191); (128, 191)]
  else if b =? 237 then Some [(128, 159); (128, 191)]
  else if (225 <=? b) && (b <=? 239) then Some [(128, 191); (128, 191)]
  else if b =? 240 then Some [(144, 191); (128, 191); (128, 191)]
  else if (241 <=? b) && (b <=? 243) then Some [(128, 191); (128, 191); (128, 191)]
  else if b =? 244 then Some [(128, 143); (128, 191); (128, 191)]
  else None.

(** Are the bytes of [s] well-formed UTF-8, once the bytes announced in
    [expect] have come? *)
Fixpoint utf8_from (expect : list (nat * nat)) (s : string) : bool :=
  match s with
  | EmptyString =>
      match expect with
      | [] => true
      | _ :: _ => false
      end
  | String c s' =>
      let b := nat_of_ascii c in
      match expect with
      | (lo, hi) :: expect' => (lo <=? b) && (b <=? hi) && utf8_from expect' s'
      | [] =>
          match utf8_tail b with
          | Some t => utf8_from t s'
          | None => false
          end
      end
  end.

(** Can the bytes of [s] be decoded as UTF-8? *)
Definition utf8 (s : string) : bool := utf8_from [] s.

End Str.

(* ------------------------------------------------------------------ *)
(** ** Exceptions and results *)
(* ------------------------------------------------------------------ *)

(** The exceptions the program meets.  All of them are subclasses of
    Python's [Exception]. *)
Inductive exc : Type :=
| NotADirectoryError            (* main: the target is not a directory *)
| FileNotFoundError             (* load_metadata: no CSV file in the folder *)
| IsADirectoryError             (* read_csv on a directory *)
| CsvError (msg : string)       (* read_csv: EmptyDataError, ParserError, ... *)
| KeyError (column : string)    (* DataFrame/Series lookup of an absent label *)
| ValueError (msg : string)     (* to_datetime / strftime / dateutil *)
| OSError (msg : string)        (* filedate: the timestamp cannot be written *)
| PermissionError               (* os.listdir: the directory cannot be read *)
| UnicodeEncodeError.           (* print: the console cannot encode the text *)

Inductive res (A : Type) : Type :=
| Ret (a : A)
| Raise (e : exc).
Arguments Ret {A} a.
Arguments Raise {A} e.

Definition res_bind {A B} (r : res A) (k : A -> res B) : res B :=
  match r with
  | Ret a => k a
  | Raise e => Raise e
  end.

(* ------------------------------------------------------------------ *)
(** ** Dates: [pandas.to_datetime(..., format=...)] and [strftime] *)
(* ------------------------------------------------------------------ *)

Module Date.

Record datetime : Type := mkDT {
  year : nat; month : nat; day : nat; hour : nat; minute : nat
}.

(** A pandas [Timestamp] value, or [NaT]. *)
Inductive Timestamp : Type :=
| NaT
| TS (dt : datetime).

Definition is_leap (y : nat) : bool :=
  ((y mod 4 =? 0) && negb (y mod 100 =? 0)) || (y mod 400 =? 0).

Definition days_in_month (y m : nat) : nat :=
  match m with
  | 2 => if is_leap y then 29 else 28
  | 4 | 6 | 9 | 11 => 30
  | _ => 31
  end.

(** *** The format language *)

Inductive token : Type :=
| Directive (c : ascii)     (* [%c] *)
| Blank                     (* a run of white space in the format *)
| Lit (c : ascii).          (* any other character *)

(** Splitting a format string into directives, white-space runs and
    literal characters. *)
Fixpoint tokenize (fmt : string) : list token :=
  match fmt with
  | EmptyString => []
  | String c rest =>
      if Ascii.eqb c "%" then
        match rest with
        | String d rest' => Directive d :: tokenize rest'
        | EmptyString => [Lit c]
        end
      else if Str.is_space c then
        match tokenize rest with
        | Blank :: ts => Blank :: ts
        | ts => Blank :: ts
        end
      else Lit c :: tokenize rest
  end.

(** *** Matching, after [_strptime.TimeRE]

    The format is compiled to a regular expression that is matched
    case-insensitively at the start of the text: every directive is an
    alternation tried from left to right, a run of white space in the
    format is [\s+], and the matcher backtracks into an earlier choice
    when the rest of the pattern fails. *)

(** A character class [[lo-hi]], by character codes. *)
Definition cls : Type := (nat * nat)%type.

Definition in_cls (k : cls) (c : ascii) : bool :=
  (fst k <=? nat_of_ascii c) && (nat_of_ascii c <=? snd k).

Definition c_digit : cls := (48, 57).
Definition c_range (lo hi : nat) : cls := (48 + lo, 48 + hi).
Definition c_char (n : nat) : cls := (48 + n, 48 + n).
Definition c_sp : cls := (32, 32).

(** One alternative: a sequence of classes; gives the matched text and
    the rest. *)
Fixpoint match_seq (p : list cls) (s : string) : option (string * string) :=
  match p with
  | [] => Some (EmptyString, s)
  | k :: p' =>
      match s with
      | String c s' =>
          if in_cls k c then
            match match_seq p' s' with
            | Some (t, r) => Some (String c t, r)
            | None => None
            end
          else None
      | EmptyString => None
      end
  end.

(** The alternatives [p1|p2|...] that match, in order. *)
Fixpoint match_alt (ps : list (list cls)) (s : string) : list (string * string) :=
  match ps with
  | [] => []
  | p :: ps' =>
      match match_seq p s with
      | Some tr => tr :: match_alt ps' s
      | None => match_alt ps' s
      end
  end.

(** [int(text)] for text made of blanks and digits. *)
Fixpoint int_of (acc : nat) (t : string) : nat :=
  match t with
  | EmptyString => acc
  | String c t' =>
      match Str.digit_val c with
      | Some v => int_of (10 * acc + v) t'
      | None => int_of acc t'
      end
  end.

Definition re_d : list (list cls) :=
  [[c_char 3; c_range 0 1]; [c_range 1 2; c_digit]; [c_char 0; c_range 1 9];
   [c_range 1 9]; [c_sp; c_range 1 9]].
Definition re_Y : list (list cls) := [[c_digit; c_digit; c_digit; c_digit]].
Definition re_I : list (list cls) :=
  [[c_char 1; c_range 0 2]; [c_char 0; c_range 1 9]; [c_range 1 9]].
Definition re_M : list (list cls) := [[c_range 0 5; c_digit]; [c_digit]].

(** [calendar.day_name], [calendar.month_name] (index 0 is the empty
    string) and the AM/PM markers, in the C locale. *)
Definition day_name : list string :=
  ["Monday"; "Tuesday"; "Wednesday"; "Thursday"; "Friday"; "Saturday"; "Sunday"].

Definition month_name : list string :=
  [""; "January"; "February"; "March"; "April"; "May"; "June"; "July";
   "August"; "September"; "October"; "November"; "December"].

(** [LocaleTime]: the lowercase tables the matcher works with. *)
Definition f_weekday : list string := map Str.lower day_name.
Definition f_month : list string := map Str.lower month_name.
Definition am_pm : list string := ["am"; "pm"].

(** Stable sort by decreasing length, as [__seqToRE] orders the names. *)
Fixpoint insert_by_len (x : string) (l : list string) : list string :=
  match l with
  | [] => [x]
  | y :: l' =>
      if String.length y <=? String.length x then x :: l
      else y :: insert_by_len x l'
  end.

Definition sort_by_len (l : list string) : list string :=
  fold_right insert_by_len [] l.

(** [l.index(x)]. *)
Fixpoint index_of (x : string) (l : list string) : option nat :=
  match l with
  | [] => None
  | y :: l' =>
      if String.eqb x y then Some 0
      else option_map S (index_of x l')
  end.

(** Case-insensitive match of a (lowercase) word at the start of [s]. *)
Fixpoint match_word (w s : string) : option string :=
  match w with
  | EmptyString => Some s
  | String a w' =>
      match s with
      | String b s' =>
          if Ascii.eqb a (Str.lower_ascii b) then match_word w' s' else None
      | EmptyString => None
      end
  end.

(** [__seqToRE]: the non-empty names, longest first, as an alternation;
    the group's value is the position of the name in the table. *)
Fixpoint match_names_in (table order : list string) (s : string)
  : list (nat * string) :=
  match order with
  | [] => []
  | w :: order' =>
      match match_word w s, index_of w table with
      | Some r, Some i => (i, r) :: match_names_in table order' s
      | _, _ => match_names_in table order' s
      end
  end.

Definition match_names (table : list string) (s : string) : list (nat * string) :=
  match_names_in table
    (sort_by_len (filter (fun w => negb (String.eqb w "")) table)) s.

(** [\s+], greedy: the longest run first, then shorter ones. *)
Fixpoint match_blanks (s : string) : list string :=
  match s with
  | String c s' => if Str.is_space c then match_blanks s' ++ [s'] else []
  | EmptyString => []
  end.

(** The named groups of a match ([found.groupdict()]). *)
Record found : Type := mkFound {
  g_A : option nat; g_B : option nat; g_d : option nat; g_Y : option nat;
  g_I : option nat; g_M : option nat; g_p : option nat
}.

Definition no_groups : found :=
  mkFound None None None None None None None.

Definition numbers (re : list (list cls)) (s : string) : list (nat * string) :=
  map (fun tr => (int_of 0 (fst tr), snd tr)) (match_alt re s).

Definition with_group (set : nat -> found) (l : list (nat * string))
  : list (found * string) :=
  map (fun vr => (set (fst vr), snd vr)) l.

Definition set_A (f : found) (v : nat) : found :=
  mkFound (Some v) (g_B f) (g_d f) (g_Y f) (g_I f) (g_M f) (g_p f).
Definition set_B (f : found) (v : nat) : found :=
  mkFound (g_A f) (Some v) (g_d f) (g_Y f) (g_I f) (g_M f) (g_p f).
Definition set_d (f : found) (v : nat) : found :=
  mkFound (g_A f) (g_B f) (Some v) (g_Y f) (g_I f) (g_M f) (g_p f).
Definition set_Y (f : found) (v : nat) : found :=
  mkFound (g_A f) (g_B f) (g_d f) (Some v) (g_I f) (g_M f) (g_p f).
Definition set_I (f : found) (v : nat) : found :=
  mkFound (g_A f) (g_B f) (g_d f) (g_Y f) (Some v) (g_M f) (g_p f).
Definition set_M (f : found) (v : nat) : found :=
  mkFound (g_A f) (g_B f) (g_d f) (g_Y f) (g_I f) (Some v) (g_p f).
Definition set_p (f : found) (v : nat) : found :=
  mkFound (g_A f) (g_B f) (g_d f) (g_Y f) (g_I f) (g_M f) (Some v).

(** The ways one token of the format can match at the start of [s]. *)
Definition step (t : token) (f : found) (s : string) : list (found * string) :=
  match t with
  | Blank => map (fun r => (f, r)) (match_blanks s)
  | Lit c =>
      match s with
      | String b s' =>
          if Ascii.eqb (Str.lower_ascii c) (Str.lower_ascii b) then [(f, s')] else []
      | EmptyString => []
      end
  | Directive c =>
      if Ascii.eqb c "A" then with_group (set_A f) (match_names f_weekday s)
      else if Ascii.eqb c "B" then with_group (set_B f) (match_names f_month s)
      else if Ascii.eqb c "d" then with_group (set_d f) (numbers re_d s)
      else if Ascii.eqb c "Y" then with_group (set_Y f) (numbers re_Y s)
      else if Ascii.eqb c "I" then with_group (set_I f) (numbers re_I s)
      else if Ascii.eqb c "M" then with_group (set_M f) (numbers re_M s)
      else if Ascii.eqb c "p" then with_group (set_p f) (match_names am_pm s)
      else []
  end.

(** The first of the candidates on which the continuation succeeds. *)
Fixpoint first_some {A B : Type} (k : A -> option B) (l : list A) : option B :=
  match l with
  | [] => None
  | a :: l' =>
      match k a with
      | Some b => Some b
      | None => first_some k l'
      end
  end.

(** [format_regex.match(text)]: groups and unconsumed rest of the first
    match in backtracking order. *)
Fixpoint re_match (ts : list token) (f : found) (s : string)
  : option (found * string) :=
  match ts with
  | [] => Some (f, s)
  | t :: ts' =>
      first_some (fun fr => re_match ts' (fst fr) (snd fr)) (step t f s)
  end.

Definition default (d : nat) (o : option nat) : nat :=
  match o with Some v => v | None => d end.

(** 12-hour clock to 24-hour clock, from groups [I] and [p]. *)
Definition hour24 (f : found) : nat :=
  match g_I f with
  | None => 0
  | Some h =>
      match g_p f with
      | None | Some 0 => if h =? 12 then 0 else h
      | Some _ => if h =? 12 then h else h + 12
      end
  end.

(** The fields of a match, with [strptime]'s defaults 1900-01-01 00:00. *)
Definition fields (f : found) : datetime :=
  mkDT (default 1900 (g_Y f)) (default 1 (g_B f)) (default 1 (g_d f))
       (hour24 f) (default 0 (g_M f)).

Definition valid_date (d : datetime) : bool :=
  (1 <=? year d) && (1 <=? month d) && (month d <=? 12)
  && (1 <=? day d) && (day d <=? days_in_month (year d) (month d)).

(** Parsing one text with a format ([exact=True]): the whole text has to
    be consumed and the date has to exist. *)
Definition strptime (fmt text : string) : res datetime :=
  match re_match (tokenize fmt) no_groups text with
  | None => Raise (ValueError "time data doesn't match format")
  | Some (f, rest) =>
      if String.eqb rest "" then
        let d := fields f in
        if valid_date d then Ret d
        else if year d =? 0 then Raise (ValueError "year 0 is out of range")
        else Raise (ValueError "day is out of range for month")
      else Raise (ValueError "unconverted data remains")
  end.

(** Texts that [to_datetime] reads as a missing value. *)
Definition nat_strings : list string :=
  [""; "NaT"; "nat"; "NAT"; "nan"; "NaN"; "NAN"].

(** [pd.to_datetime(text, format=fmt)] for a string. *)
Definition to_datetime_str (text fmt : string) : res Timestamp :=
  if existsb (String.eqb text) nat_strings then Ret NaT
  else res_bind (strptime fmt text) (fun d => Ret (TS d)).

(** *** Formatting *)

Definition directive_text (c : ascii) (d : datetime) : string :=
  if Ascii.eqb c "d" then Str.pad2 (day d)
  else if Ascii.eqb c "m" then Str.pad2 (month d)
  else if Ascii.eqb c "Y" then Str.decimal (year d)
  else if Ascii.eqb c "H" then Str.pad2 (hour d)
  else if Ascii.eqb c "M" then Str.pad2 (minute d)
  else String "%" (String c EmptyString).

Fixpoint format_dt (fmt : string) (d : datetime) : string :=
  match fmt with
  | EmptyString => EmptyString
  | String c rest =>
      match rest with
      | String e rest' =>
          if Ascii.eqb c "%" then (directive_text e d ++ format_dt rest' d)%string
          else String c (format_dt rest d)
      | EmptyString => String c EmptyString
      end
  end.

(** [ts.strftime(fmt)]; [NaT] does not support it. *)
Definition strftime (ts : Timestamp) (fmt : string) : res string :=
  match ts with
  | NaT => Raise (ValueError "NaTType does not support strftime")
  | TS d => Ret (format_dt fmt d)
  end.

End Date.

(** The two format constants of the script. *)
Definition DATE_FORMAT : string := "%A %B %d,%Y %I:%M %p GMT".
Definition OUTPUT_FORMAT : string := "%d.%m.%Y %H:%M".

(* ------------------------------------------------------------------ *)
(** ** Timestamps: how [filedate] reads the text it is given *)
(* ------------------------------------------------------------------ *)

Module Filedate.

(** The year of a date read from text.  A year written with three or more
    digits is that year; one written with one or two digits only fixes the
    year within a century, and [dateutil] takes the century that brings
    it nearest to the current date. *)
Inductive year_read : Type :=
| Exact (y : nat)
| Nearest (yy : nat).

(** A file time, as the calendar fields of the local clock. *)
Record stamp : Type := mkStamp {
  year : year_read; month : nat; day : nat; hour : nat; minute : nat
}.

(** The longest run of decimal digits at the start of a text, and the
    rest of the text. *)
Fixpoint digits (s : string) : string * string :=
  match s with
  | String c s' =>
      match Str.digit_val c with
      | Some _ => let (t, r) := digits s' in (String c t, r)
      | None => (EmptyString, s)
      end
  | EmptyString => (EmptyString, EmptyString)
  end.

(** A run of at least one and at most [width] digits followed by the
    character [sep]. *)
Definition number_then (width : nat) (sep : ascii) (s : string)
  : option (string * string) :=
  match digits s with
  | (EmptyString, _) => None
  | (t, String c r) =>
      if (String.length t <=? width) && Ascii.eqb c sep then Some (t, r) else None
  | (_, EmptyString) => None
  end.

(** The five numbers of a text of the shape [N.N.N N:N], the shape of
    the texts that [strftime(OUTPUT_FORMAT)] produces. *)
Definition split (s : string)
  : option (string * string * string * string * string) :=
  match number_then 2 "." s with
  | None => None
  | Some (a, s1) =>
  match number_then 2 "." s1 with
  | None => None
  | Some (b, s2) =>
  match number_then 4 " " s2 with
  | None => None
  | Some (c, s3) =>
  match number_then 2 ":" s3 with
  | None => None
  | Some (h, s4) =>
  match digits s4 with
  | (String x mi, EmptyString) =>
      if String.length (String x mi) <=? 2 then Some (a, b, c, h, String x mi)
      else None
  | _ => None
  end end end end end.

(** The year a number stands for: [long] tells that some number of the
    date was written with more than two digits. *)
Definition as_year (n : nat) (long : bool) : year_read :=
  if long || (100 <=? n) then Exact n else Nearest n.

(** [dateutil]'s reading of three numbers [a.b.c] with its defaults
    (neither day first nor year first): a first number above 31 is the
    year, a first number above 12 is the day, and otherwise the first
    number is the month.  The result is year, month, day. *)
Definition resolve (a b c : nat) (long : bool) : year_read * nat * nat :=
  if 31 <? a then (as_year a long, b, c)
  else if 12 <? a then (as_year c long, b, a)
  else (as_year c long, a, b).

(** February has 29 days in the year read? *)
Definition leap (y : year_read) : bool :=
  match y with
  | Exact y => Date.is_leap y
  | Nearest yy => yy mod 4 =? 0
  end.

Definition days_in_month (y : year_read) (m : nat) : nat :=
  match m with
  | 2 => if leap y then 29 else 28
  | 4 | 6 | 9 | 11 => 30
  | _ => 31
  end.

(** Does [datetime] accept the fields? *)
Definition valid (t : stamp) : bool :=
  match year t with
  | Exact y => (1 <=? y) && (y <? 100 * 100)
  | Nearest _ => true
  end
  && (1 <=? month t) && (month t <=? 12)
  && (1 <=? day t) && (day t <=? days_in_month (year t) (month t))
  && (hour t <? 24) && (minute t <? 60).

(** [dateutil.parser.parse(text)] on a text of the shape [N.N.N N:N]; a
    text of another shape is none that the script hands over, and is
    answered here with the exception of an unknown format. *)
Definition read (text : string) : res stamp :=
  match split text with
  | None => Raise (ValueError "Unknown string format")
  | Some (a, b, c, h, mi) =>
      let long := 2 <? String.length c in
      let '(y, m, d) :=
        resolve (Date.int_of 0 a) (Date.int_of 0 b) (Date.int_of 0 c) long in
      let t := mkStamp y m d (Date.int_of 0 h) (Date.int_of 0 mi) in
      if valid t then Ret t
      else Raise (ValueError "day is out of range for month")
  end.

End Filedate.

(* ------------------------------------------------------------------ *)
(** ** The metadata table ([pandas.DataFrame]) *)
(* ------------------------------------------------------------------ *)

Module Frame.

(** A cell as [read_csv] types it: text, a missing value, or a number. *)
Inductive cell : Type :=
| CStr (s : string)
| CNaN
| CNum (n : nat).

(** A row gives a cell to some column labels; the others are missing. *)
Definition row : Type := list (string * cell).

Record DataFrame : Type := mkFrame {
  columns : list string;
  rows : list row
}.

(** A column or a selection of it ([pandas.Series]). *)
Definition Series : Type := list cell.

Fixpoint row_get (col : string) (r : row) : cell :=
  match r with
  | [] => CNaN
  | (k, v) :: r' => if String.eqb k col then v else row_get col r'
  end.

Definition has_column (df : DataFrame) (col : string) : bool :=
  existsb (String.eqb col) (columns df).

(** [df[col]]: the column, [KeyError] when there is no such label. *)
Definition getitem (df : DataFrame) (col : string) : res Series :=
  if has_column df col then Ret (map (row_get col) (rows df))
  else Raise (KeyError col).

(** [cell == text], elementwise: only a text cell with the very same
    characters compares equal. *)
Definition cell_eq (text : string) (c : cell) : bool :=
  match c with
  | CStr s => String.eqb s text
  | CNaN | CNum _ => false
  end.

(** [series == text]: the boolean mask. *)
Definition series_eq (s : Series) (text : string) : list bool :=
  map (cell_eq text) s.

(** The elements of [l] at the positions where the mask is true. *)
Fixpoint select {A : Type} (mask : list bool) (l : list A) : list A :=
  match mask, l with
  | b :: mask', x :: l' => if b then x :: select mask' l' else select mask' l'
  | _, _ => []
  end.

(** [df[mask]]: the rows where the mask is true, in order. *)
Definition getitem_mask (df : DataFrame) (mask : list bool) : DataFrame :=
  mkFrame (columns df) (select mask (rows df)).

(** [len(df)]. *)
Definition len (df : DataFrame) : nat := List.length (rows df).

(** Labels of [l] that are not yet in [acc], appended in order. *)
Fixpoint union (acc l : list string) : list string :=
  match l with
  | [] => acc
  | x :: l' =>
      if existsb (String.eqb x) acc then union acc l'
      else union (acc ++ [x]) l'
  end.

(** [pd.concat(frames, ignore_index=True)]: the rows of the frames one
    after the other, over the union of their columns. *)
Definition concat (frames : list DataFrame) : DataFrame :=
  mkFrame (fold_left union (map columns frames) [])
          (flat_map rows frames).

End Frame.

Import Frame.

(** [pd.to_datetime(value, format=fmt)] for a cell of the table. *)
Definition to_datetime (value : cell) (fmt : string) : res Date.Timestamp :=
  match value with
  | CStr s => Date.to_datetime_str s fmt
  | CNaN => Ret Date.NaT
  | CNum _ =>
      (* the decimal text of a number starts with a digit *)
      Raise (ValueError "time data doesn't match format")
  end.

(* ------------------------------------------------------------------ *)
(** ** The folder, the console and the monad *)
(* ------------------------------------------------------------------ *)

(** What the [filedate] library meets when it writes the times of an
    entry: where it raises, if it does, or that the file has no creation
    time that can be set (every file off Windows), in which case the
    assignment to [created] succeeds and changes nothing. *)
Inductive write_fault : Type :=
| NoFault
| OpenFails          (* [filedate.File(path)] raises *)
| CreatedFails       (* [f.created = ...] raises *)
| ModifiedFails      (* [f.modified = ...] raises *)
| NoCreationTime.    (* [f.created = ...] writes nothing *)

(** What a name of the folder stands for: a directory, or a regular file
    with its contents and with what [pandas.read_csv] returns for it. *)
Inductive node : Type :=
| Directory
| Regular (content : string) (csv : res DataFrame).

(** An entry of the folder.  [created] and [modified] are the timestamps;
    [fault] tells what writing them meets. *)
Record entry : Type := mkEntry {
  name : string;
  kind : node;
  created : Filedate.stamp;
  modified : Filedate.stamp;
  fault : write_fault
}.

(** The direct entries of the target folder, in [os.listdir] order. *)
Definition folder : Type := list entry.

Inductive event : Type :=
| EvLoaded (records files : nat)                  (* [INFO] Loaded metadata ... *)
| EvMedia (count : nat) (extensions : list string)  (* [INFO] Found ... *)
| EvSkip (filename : string)                      (* [SKIP] *)
| EvDryRun (filename date_str : string)           (* [DRY-RUN] *)
| EvOk (filename date_str : string)               (* [OK] *)
| EvError (filename : string) (e : exc)           (* [ERROR] *)
| EvDone (success errors : nat).                  (* --- Done: ... --- *)

Record world : Type := mkWorld {
  fs : folder;
  out : list event
}.

(** Computations that read and write the world and may raise. *)
Definition M (A : Type) : Type := world -> res A * world.

Definition ret {A} (a : A) : M A := fun w => (Ret a, w).

Definition raise {A} (e : exc) : M A := fun w => (Raise e, w).

Definition bind {A B} (m : M A) (k : A -> M B) : M B :=
  fun w =>
    match m w with
    | (Ret a, w') => k a w'
    | (Raise e, w') => (Raise e, w')
    end.

(** [try: body  except Exception as exc: handler(exc)]. *)
Definition try_except {A} (body : M A) (handler : exc -> M A) : M A :=
  fun w =>
    match body w with
    | (Ret a, w') => (Ret a, w')
    | (Raise e, w') => handler e w'
    end.

(** A pure computation that may raise. *)
Definition lift {A} (r : res A) : M A := fun w => (r, w).

Declare Scope monad_scope.
Delimit Scope monad_scope with M.
Notation "x <- m ;; k" := (bind m (fun x => k))
  (at level 61, m at next level, right associativity) : monad_scope.
Notation "m ;;; k" := (bind m (fun _ => k))
  (at level 61, right associativity) : monad_scope.
Open Scope monad_scope.

Definition print (e : event) : M unit :=
  fun w => (Ret tt, mkWorld (fs w) (out w ++ [e])).

(** [os.listdir(folder)]. *)
Definition listdir : M (list string) :=
  fun w => (Ret (map name (fs w)), w).

Fixpoint find_entry (filename : string) (f : folder) : option entry :=
  match f with
  | [] => None
  | e :: f' => if String.eqb (name e) filename then Some e else find_entry filename f'
  end.

(** [pd.read_csv(os.path.join(folder, file))]. *)
Definition read_csv (file : string) : M DataFrame :=
  fun w =>
    match find_entry file (fs w) with
    | None => (Raise (CsvError "No such file or directory"), w)
    | Some e =>
        match kind e with
        | Directory => (Raise IsADirectoryError, w)
        | Regular _ csv => (csv, w)
        end
    end.

(** The entries named [filename], rewritten by [upd]. *)
Definition update (filename : string) (upd : entry -> entry) (f : folder) : folder :=
  map (fun e => if String.eqb (name e) filename then upd e else e) f.

Definition fault_of (filename : string) (f : folder) : option write_fault :=
  option_map fault (find_entry filename f).

(** [f = filedate.File(file_path)]. *)
Definition filedate_File (filename : string) : M unit :=
  fun w =>
    match fault_of filename (fs w) with
    | None => (Raise (OSError "file does not exist"), w)
    | Some OpenFails => (Raise (OSError "cannot open"), w)
    | Some _ => (Ret tt, w)
    end.

(** An entry with new timestamps: the time is what [filedate] reads from
    the text it is given. *)
Definition stamp_created (date_str : string) (e : entry) : entry :=
  match Filedate.read date_str with
  | Ret t => mkEntry (name e) (kind e) t (modified e) (fault e)
  | Raise _ => e
  end.

Definition stamp_modified (date_str : string) (e : entry) : entry :=
  match Filedate.read date_str with
  | Ret t => mkEntry (name e) (kind e) (created e) t (fault e)
  | Raise _ => e
  end.

Definition stamp_both (date_str : string) (e : entry) : entry :=
  match Filedate.read date_str with
  | Ret t => mkEntry (name e) (kind e) t t (fault e)
  | Raise _ => e
  end.

(** [f.created = value]: the text is read, then the time is written. *)
Definition set_created (filename value : string) : M unit :=
  fun w =>
    match Filedate.read value with
    | Raise x => (Raise x, w)
    | Ret _ =>
        match fault_of filename (fs w) with
        | Some CreatedFails => (Raise (OSError "cannot set created"), w)
        | Some NoCreationTime => (Ret tt, w)
        | _ =>
            (Ret tt,
             mkWorld (update filename (stamp_created value) (fs w)) (out w))
        end
    end.

(** [f.modified = value]. *)
Definition set_modified (filename value : string) : M unit :=
  fun w =>
    match Filedate.read value with
    | Raise x => (Raise x, w)
    | Ret _ =>
        match fault_of filename (fs w) with
        | Some ModifiedFails => (Raise (OSError "cannot set modified"), w)
        | _ =>
            (Ret tt,
             mkWorld (update filename (stamp_modified value) (fs w)) (out w))
        end
    end.

(** [for x in l: acc = body(x, acc)], the exceptions of the body
    propagating out of the loop. *)
Fixpoint for_each {A B} (l : list A) (body : A -> B -> M B) (acc : B) : M B :=
  match l with
  | [] => ret acc
  | x :: l' => acc' <- body x acc ;; for_each l' body acc'
  end.

(** [file.lower().endswith(".csv")]. *)
Definition is_csv (file : string) : bool :=
  Str.endswith ".csv" (Str.lower file).

(* ------------------------------------------------------------------ *)
(** ** Helpers of the script *)
(* ------------------------------------------------------------------ *)

(** One iteration of the loop of [load_metadata]. *)
Definition load_one (file : string) (frames : list DataFrame) : M (list DataFrame) :=
  if is_csv file then
    frame <- read_csv file ;;
    ret (frames ++ [frame])
  else ret frames.

(** [load_metadata(folder)]. *)
Definition load_metadata : M DataFrame :=
  files <- listdir ;;
  frames <- for_each files load_one [] ;;
  match frames with
  | [] => raise FileNotFoundError
  | _ =>
      let df := concat frames in
      print (EvLoaded (len df) (List.length frames)) ;;;
      ret df
  end.

(** [os.path.splitext(file)[1]] for a name without directory part. *)
Definition splitext_ext (file : string) : string :=
  match Str.rfind "." file with
  | Some i => if Str.has_other "." i file then Str.drop i file else EmptyString
  | None => EmptyString
  end.

(** [set.add]. *)
Definition set_add (x : string) (s : list string) : list string :=
  if existsb (String.eqb x) s then s else s ++ [x].

(** [set.discard]. *)
Definition set_discard (x : string) (s : list string) : list string :=
  filter (fun y => negb (String.eqb x y)) s.

(** One iteration of the loop of [get_non_csv_extensions]. *)
Definition add_extension (file : string) (extensions : list string) : list string :=
  let ext := splitext_ext file in
  if String.eqb ext "" then extensions
  else set_add (Str.lower (Str.lstrip "." ext)) extensions.

(** [get_non_csv_extensions(folder)]. *)
Definition get_non_csv_extensions : M (list string) :=
  files <- listdir ;;
  extensions <- for_each files
                  (fun file extensions => ret (add_extension file extensions)) [] ;;
  ret (set_discard "csv" extensions).

(** [list_media_files(folder, extensions)]. *)
Definition list_media_files (extensions : list string) : M (list string) :=
  files <- listdir ;;
  let media :=
    filter (fun f => existsb (String.eqb (Str.lower (Str.lstrip "." (splitext_ext f))))
                             extensions) files in
  print (EvMedia (List.length media) extensions) ;;;
  ret media.

(* ------------------------------------------------------------------ *)
(** ** Core logic *)
(* ------------------------------------------------------------------ *)

Record counters : Type := mkCounters {
  success : nat;
  errors : nat
}.

(** [df[df["imgName"] == filename]["originalCreationDate"]]. *)
Definition lookup (df : DataFrame) (filename : string) : res Series :=
  res_bind (getitem df "imgName") (fun names =>
  getitem (getitem_mask df (series_eq names filename)) "originalCreationDate").

(** [pd.to_datetime(raw_date, format=DATE_FORMAT).strftime(OUTPUT_FORMAT)]. *)
Definition date_string (raw_date : cell) : res string :=
  res_bind (to_datetime raw_date DATE_FORMAT) (fun original_dt =>
  Date.strftime original_dt OUTPUT_FORMAT).

(** The statements under [try:] for one entry. *)
Definition try_body (df : DataFrame) (dry_run : bool) (filename : string)
    (c : counters) : M counters :=
  match_ <- lift (lookup df filename) ;;
  match match_ with
  | [] =>
      print (EvSkip filename) ;;;
      ret c                                   (* continue *)
  | raw_date :: _ =>
      date_str <- lift (date_string raw_date) ;;
      (if dry_run then
         print (EvDryRun filename date_str)
       else
         print (EvOk filename date_str) ;;;
         filedate_File filename ;;;
         set_created filename date_str ;;;
         set_modified filename date_str) ;;;
      ret (mkCounters (success c + 1) (errors c))
  end.

(** One iteration of the loop of [fix_dates]. *)
Definition process (df : DataFrame) (dry_run : bool) (filename : string)
    (c : counters) : M counters :=
  if is_csv filename then ret c               (* continue *)
  else
    try_except (try_body df dry_run filename c)
      (fun exc =>
         print (EvError filename exc) ;;;
         ret (mkCounters (success c) (errors c + 1))).

(** [fix_dates(folder, df, dry_run)]. *)
Definition fix_dates (df : DataFrame) (dry_run : bool) : M unit :=
  files <- listdir ;;
  c <- for_each files (process df dry_run) (mkCounters 0 0) ;;
  print (EvDone (success c) (errors c)).

(* ------------------------------------------------------------------ *)
(** ** Entry point *)
(* ------------------------------------------------------------------ *)

(** The statements of [main] once the folder is known to be a directory. *)
Definition script (dry_run : bool) : M unit :=
  df <- load_metadata ;;
  extensions <- get_non_csv_extensions ;;
  list_media_files extensions ;;;   (* just for informational output *)
  fix_dates df dry_run.

(** [main()] with the parsed arguments: [target] is the content of the
    path given by [--folder] when that path is a directory, [None] when
    [os.path.isdir] says it is not.  The result is what the run raised, the
    folder afterwards and the console output. *)
Definition main (target : option folder) (dry_run : bool)
  : res unit * option folder * list event :=
  match target with
  | None => (Raise NotADirectoryError, None, [])
  | Some f =>
      let rw := script dry_run (mkWorld f []) in
      (fst rw, Some (fs (snd rw)), out (snd rw))
  end.

(* ------------------------------------------------------------------ *)
(** ** The script on a console and a directory that can refuse *)
(* ------------------------------------------------------------------ *)

(** The definitions above take [print] and [os.listdir] as calls that
    always succeed.  Both can raise: [print] when standard output cannot
    encode the line, [os.listdir] when the directory cannot be read.  The
    definitions of this module are those of the script with the two calls
    as they are; the loop of [load_metadata] and the [filedate] statements
    are the ones above. *)
Module Checked.

(** Can standard output, which encodes UTF-8, take the line?  A file name
    whose bytes are not UTF-8 reaches the script with surrogate characters
    in it, and the encoder refuses those.  The other parts of a line are
    fixed text, numbers, a date string, the message of an exception, or the
    [repr] of the set of extensions, which escapes such characters. *)
Definition encodable (e : event) : bool :=
  match e with
  | EvSkip n | EvDryRun n _ | EvOk n _ | EvError n _ => Str.utf8 n
  | EvLoaded _ _ | EvMedia _ _ | EvDone _ _ => true
  end.

(** [print(line)]. *)
Definition print (e : event) : M unit :=
  fun w =>
    if encodable e then (Ret tt, mkWorld (fs w) (out w ++ [e]))
    else (Raise UnicodeEncodeError, w).

(** The statements under [try:] for one entry. *)
Definition try_body (df : DataFrame) (dry_run : bool) (filename : string)
    (c : counters) : M counters :=
  match_ <- lift (lookup df filename) ;;
  match match_ with
  | [] =>
      print (EvSkip filename) ;;;
      ret c                                   (* continue *)
  | raw_date :: _ =>
      date_str <- lift (date_string raw_date) ;;
      (if dry_run then
         print (EvDryRun filename date_str)
       else
         print (EvOk filename date_str) ;;;
         filedate_File filename ;;;
         set_created filename date_str ;;;
         set_modified filename date_str) ;;;
      ret (mkCounters (success c + 1) (errors c))
  end.

(** One iteration of the loop of [fix_dates]: the [print] of the handler
    is not under [try:]. *)
Definition process (df : DataFrame) (dry_run : bool) (filename : string)
    (c : counters) : M counters :=
  if is_csv filename then ret c               (* continue *)
  else
    try_except (try_body df dry_run filename c)
      (fun exc =>
         print (EvError filename exc) ;;;
         ret (mkCounters (success c) (errors c + 1))).

Section Listing.

(** The exception [os.listdir] raises for the target folder, if it does
    (a directory that the user may not read, for example). *)
Variable refusal : option exc.

(** [os.listdir(folder)]. *)
Definition listdir : M (list string) :=
  fun w =>
    match refusal with
    | Some x => (Raise x, w)
    | None => (Ret (map name (fs w)), w)
    end.

(** [load_metadata(folder)]. *)
Definition load_metadata : M DataFrame :=
  files <- listdir ;;
  frames <- for_each files load_one [] ;;
  match frames with
  | [] => raise FileNotFoundError
  | _ =>
      let df := concat frames in
      print (EvLoaded (len df) (List.length frames)) ;;;
      ret df
  end.

(** [get_non_csv_extensions(folder)]. *)
Definition get_non_csv_extensions : M (list string) :=
  files <- listdir ;;
  extensions <- for_each files
                  (fun file extensions => ret (add_extension file extensions)) [] ;;
  ret (set_discard "csv" extensions).

(** [list_media_files(folder, extensions)]. *)
Definition list_media_files (extensions : list string) : M (list string) :=
  files <- listdir ;;
  let media :=
    filter (fun f => existsb (String.eqb (Str.lower (Str.lstrip "." (splitext_ext f))))
                             extensions) files in
  print (EvMedia (List.length media) extensions) ;;;
  ret media.

(** [fix_dates(folder, df, dry_run)]. *)
Definition fix_dates (df : DataFrame) (dry_run : bool) : M unit :=
  files <- listdir ;;
  c <- for_each files (process df dry_run) (mkCounters 0 0) ;;
  print (EvDone (success c) (errors c)).

(** The statements of [main] once the folder is known to be a directory. *)
Definition script (dry_run : bool) : M unit :=
  df <- load_metadata ;;
  extensions <- get_non_csv_extensions ;;
  list_media_files extensions ;;;   (* just for informational output *)
  fix_dates df dry_run.

End Listing.

(** What stands at the path given by [--folder]: something that is not a
    directory, or a directory with its entries and with the exception its
    listing raises, if any. *)
Inductive target : Type :=
| NotADirectory
| Folder (refusal : option exc) (f : folder).

(** The entries of the target. *)
Definition content (t : target) : option folder :=
  match t with
  | NotADirectory => None
  | Folder _ f => Some f
  end.

(** [main()] with the parsed arguments.  The result is what the run
    raised, the folder afterwards and the console output. *)
Definition main (t : target) (dry_run : bool)
  : res unit * option folder * list event :=
  match t with
  | NotADirectory => (Raise NotADirectoryError, None, [])
  | Folder refusal f =>
      let rw := script refusal dry_run (mkWorld f []) in
      (fst rw, Some (fs (snd rw)), out (snd rw))
  end.

End Checked.

(* ------------------------------------------------------------------ *)
(** ** Vocabulary of the statements *)
(* ------------------------------------------------------------------ *)

(** Names whose iteration prints nothing that the console could refuse:
    CSV names, for which nothing is printed, and names that are UTF-8. *)
Definition printable (filename : string) : bool :=
  is_csv filename || Str.utf8 filename.

(** The text iCloud writes for an instant: weekday name, month name,
    two-digit day, comma, four-digit year, 12-hour time, AM/PM, GMT. *)
Definition icloud_text (w m d y h mi : nat) (pm : bool) : string :=
  (nth w Date.day_name "" ++ " " ++ nth m Date.month_name "" ++ " "
   ++ Str.pad2 d ++ "," ++ Str.pad4 y ++ " "
   ++ Str.pad2 h ++ ":" ++ Str.pad2 mi ++ " "
   ++ (if pm then "PM" else "AM") ++ " GMT")%string.

(** The hour of the day of a 12-hour clock reading. *)
Definition hour_of_day (h : nat) (pm : bool) : nat :=
  h mod 12 + (if pm then 12 else 0).

(** Day.month.year hour:minute: day, month, hour and minute on two digits,
    the year in plain decimal. *)
Definition dotted (d : Date.datetime) : string :=
  (Str.pad2 (Date.day d) ++ "." ++ Str.pad2 (Date.month d) ++ "."
   ++ Str.decimal (Date.year d) ++ " "
   ++ Str.pad2 (Date.hour d) ++ ":" ++ Str.pad2 (Date.minute d))%string.

(** The year [filedate] reads from the plain decimal text of a year. *)
Definition year_read_of (y : nat) : Filedate.year_read :=
  if 100 <=? y then Filedate.Exact y else Filedate.Nearest y.

(** The time [filedate] reads from the date string of an instant: the
    first number of the string, the day, is taken for the month unless it
    is above 12. *)
Definition month_first (d : Date.datetime) : Filedate.stamp :=
  if 12 <? Date.day d then
    Filedate.mkStamp (year_read_of (Date.year d)) (Date.month d) (Date.day d)
                     (Date.hour d) (Date.minute d)
  else
    Filedate.mkStamp (year_read_of (Date.year d)) (Date.day d) (Date.month d)
                     (Date.hour d) (Date.minute d).

(** The time the claims expect: the instant itself. *)
Definition same_instant (d : Date.datetime) : Filedate.stamp :=
  Filedate.mkStamp (Filedate.Exact (Date.year d)) (Date.month d) (Date.day d)
                   (Date.hour d) (Date.minute d).

(** The claim's words for the output: day, month and year zero-padded
    (to two, two and four digits), then the zero-padded hour and minute. *)
Definition zero_padded (d : Date.datetime) : string :=
  (Str.pad2 (Date.day d) ++ "." ++ Str.pad2 (Date.month d) ++ "."
   ++ Str.pad4 (Date.year d) ++ " "
   ++ Str.pad2 (Date.hour d) ++ ":" ++ Str.pad2 (Date.minute d))%string.

(** Is the text made of decimal digits only? *)
Fixpoint all_digits (s : string) : bool :=
  match s with
  | EmptyString => true
  | String c s' =>
      match Str.digit_val c with
      | Some _ => all_digits s'
      | None => false
      end
  end.

(** The hour and minute groups of a match are clock readings, and the
    year group has four digits. *)
Definition clock_groups (f : Date.found) : Prop :=
  (forall h, Date.g_I f = Some h -> 1 <= h <= 12)
  /\ (forall mi, Date.g_M f = Some mi -> mi <= 59)
  /\ (forall y, Date.g_Y f = Some y -> y < 100 * 100).

(** What the statements under [try:] decide for a file name before any
    write: nothing for a CSV name, a skip, a date string, or an exception
    of the lookup or of the date conversion. *)
Inductive verdict : Type :=
| VCsv
| VSkip
| VDate (date_str : string)
| VFail (e : exc).

Definition verdict_of (df : DataFrame) (filename : string) : verdict :=
  if is_csv filename then VCsv
  else
    match lookup df filename with
    | Raise e => VFail e
    | Ret [] => VSkip
    | Ret (raw_date :: _) =>
        match date_string raw_date with
        | Ret date_str => VDate date_str
        | Raise e => VFail e
        end
    end.

Definition succeeded (c : counters) : counters :=
  mkCounters (success c + 1) (errors c).

Definition failed (c : counters) : counters :=
  mkCounters (success c) (errors c + 1).

(** The world after some more lines on the console. *)
Definition say (w : world) (evs : list event) : world :=
  mkWorld (fs w) (out w ++ evs).

(** The exception of the three [filedate] statements for a file. *)
Definition write_error (flt : option write_fault) : option exc :=
  match flt with
  | Some NoFault | Some NoCreationTime => None
  | Some OpenFails => Some (OSError "cannot open")
  | Some CreatedFails => Some (OSError "cannot set created")
  | Some ModifiedFails => Some (OSError "cannot set modified")
  | None => Some (OSError "file does not exist")
  end.

(** The folder after the three [filedate] statements for a file. *)
Definition written (filename date_str : string) (f : folder) : folder :=
  match fault_of filename f with
  | Some NoFault => update filename (stamp_both date_str) f
  | Some ModifiedFails => update filename (stamp_created date_str) f
  | Some NoCreationTime => update filename (stamp_modified date_str) f
  | _ => f
  end.

(** One iteration of the loop as a function of counters and world. *)
Definition effect (df : DataFrame) (dry_run : bool) (filename : string)
    (cw : counters * world) : counters * world :=
  let (c, w) := cw in
  match verdict_of df filename with
  | VCsv => (c, w)
  | VSkip => (c, say w [EvSkip filename])
  | VFail e => (failed c, say w [EvError filename e])
  | VDate date_str =>
      if dry_run then (succeeded c, say w [EvDryRun filename date_str])
      else
        match write_error (fault_of filename (fs w)) with
        | None =>
            (succeeded c,
             mkWorld (written filename date_str (fs w))
                     (out w ++ [EvOk filename date_str]))
        | Some e =>
            (failed c,
             mkWorld (written filename date_str (fs w))
                     (out w ++ [EvOk filename date_str; EvError filename e]))
        end
  end.


(** The file names the updater looks up. *)
Definition candidates (f : folder) : list string :=
  filter (fun n => negb (is_csv n)) (map name f).

(** The totals of the summary line that ends a console output. *)
Definition summary (evs : list event) : option (nat * nat) :=
  match rev evs with
  | EvDone s e :: _ => Some (s, e)
  | _ => None
  end.

(** Is this console line an error line? *)
Definition is_error (ev : event) : bool :=
  match ev with
  | EvError _ _ => true
  | _ => false
  end.

(** A complete run of [fix_dates] on a folder, from an empty console. *)
Definition run (df : DataFrame) (dry_run : bool) (f : folder) : res unit * world :=
  fix_dates df dry_run (mkWorld f []).

(** The loop of [fix_dates] over a list of names. *)
Definition sweep (df : DataFrame) (dry_run : bool) (files : list string)
    (cw : counters * world) : counters * world :=
  fold_left (fun cw n => effect df dry_run n cw) files cw.

(** An entry after a run that writes, in a folder that was [f] before. *)
Definition restored (df : DataFrame) (f : folder) (e : entry) : entry :=
  match verdict_of df (name e) with
  | VDate date_str =>
      match fault_of (name e) f with
      | Some NoFault => stamp_both date_str e
      | Some ModifiedFails => stamp_created date_str e
      | Some NoCreationTime => stamp_modified date_str e
      | _ => e
      end
  | _ => e
  end.

(** What [read_csv] gives for a name of the folder. *)
Definition csv_of (f : folder) (file : string) : res DataFrame :=
  fst (read_csv file (mkWorld f [])).

(** The number of error lines of a console output. *)
Definition count_errors (evs : list event) : nat :=
  List.length (filter is_error evs).

(** The entries named in [done] restored, the others as they were. *)
Definition partly_restored (df : DataFrame) (f : folder) (done : list string)
    (e : entry) : entry :=
  if existsb (String.eqb (name e)) done then restored df f e else e.




(** How many elements of a list satisfy a test. *)
Definition count {A : Type} (p : A -> bool) (l : list A) : nat :=
  List.length (filter p l).

(** The dates of the rows whose [imgName] is the file name, in row order. *)
Definition matching_dates (df : DataFrame) (filename : string) : Series :=
  map (row_get "originalCreationDate")
      (filter (fun r => cell_eq filename (row_get "imgName" r)) (rows df)).

(** The CSV names of a folder, in listing order. *)
Definition csv_names (f : folder) : list string :=
  filter is_csv (map name f).

(** The extensions and the media files the script prints for a folder. *)
Definition extensions_of (f : folder) : list string :=
  set_discard "csv"
    (fold_left (fun exts file => add_extension file exts) (map name f) []).

Definition media_of (f : folder) : list string :=
  filter (fun n => existsb (String.eqb (Str.lower (Str.lstrip "." (splitext_ext n))))
                           (extensions_of f))
         (map name f).

(** The two informational lines printed before the files are processed. *)
Definition preamble (f : folder) (frames : list DataFrame) : list event :=
  [EvLoaded (len (concat frames)) (List.length frames);
   EvMedia (List.length (media_of f)) (extensions_of f)].

(** The file a console line is about. *)
Definition about (ev : event) : option string :=
  match ev with
  | EvSkip n | EvDryRun n _ | EvOk n _ | EvError n _ => Some n
  | EvLoaded _ _ | EvMedia _ _ | EvDone _ _ => None
  end.

(* ------------------------------------------------------------------ *)
(** ** Sample folders *)
(* ------------------------------------------------------------------ *)

Module Sample.

Definition quote : string := String (ascii_of_nat 34) EmptyString.
Definition newline : string := String (ascii_of_nat 10) EmptyString.

(** The table of a sidecar file with the two columns of the export. *)
Definition table (records : list (string * string)) : DataFrame :=
  mkFrame ["imgName"; "originalCreationDate"]
          (map (fun r => [("imgName", CStr (fst r));
                          ("originalCreationDate", CStr (snd r))])
               records).

(** Its text: a header line, then one line per record, the date quoted
    because it holds a comma. *)
Definition csv_text (records : list (string * string)) : string :=
  ("imgName,originalCreationDate" ++ newline
   ++ String.concat ""
        (map (fun r => fst r ++ "," ++ quote ++ snd r ++ quote ++ newline)
             records))%string.

(** Noon of the first of January 2024. *)
Definition old_stamp : Filedate.stamp :=
  Filedate.mkStamp (Filedate.Exact 2024) 1 1 12 0.

(** A picture; [read_csv] cannot decode it. *)
Definition photo (n : string) (flt : write_fault) : entry :=
  mkEntry n (Regular "JFIF" (Raise (CsvError "cannot decode")))
          old_stamp old_stamp flt.

(** A sidecar file of the export. *)
Definition sidecar (n : string) (records : list (string * string)) : entry :=
  mkEntry n (Regular (csv_text records) (Ret (table records)))
          old_stamp old_stamp NoFault.

(** A sub-directory. *)
Definition subdir (n : string) : entry :=
  mkEntry n Directory old_stamp old_stamp NoFault.

Definition june : string := "Sunday June 11,2023 09:15 AM GMT".

(** One picture and its sidecar. *)
Definition one_photo : folder :=
  [photo "photo1.jpg" NoFault; sidecar "photo1.csv" [("photo1.jpg", june)]].

(** Three pictures, the second with a malformed date. *)
Definition malformed_records : list (string * string) :=
  [("photo1.jpg", june); ("photo2.jpg", "11/06/2023"); ("photo3.jpg", june)].

Definition malformed : folder :=
  [photo "photo1.jpg" NoFault; photo "photo2.jpg" NoFault;
   photo "photo3.jpg" NoFault; sidecar "export.csv" malformed_records].


(** A folder with a sidecar and a sub-directory whose name ends in
    [.csv]. *)
Definition album_dir : folder :=
  [photo "photo1.jpg" NoFault; sidecar "photo1.csv" [("photo1.jpg", june)];
   subdir "album.csv"].

(** Two sidecars naming the same picture with different dates. *)
Definition january : string := "Monday January 02,2023 03:04 PM GMT".

Definition twice : folder :=
  [sidecar "a.csv" [("photo1.jpg", june)]; photo "photo1.jpg" NoFault;
   sidecar "b.csv" [("photo1.jpg", january)]].

(** A table without the columns of the export. *)
Definition other_table : DataFrame :=
  mkFrame ["name"; "date"] [[("name", CStr "photo1.jpg"); ("date", CStr june)]].

(** A file name written in Latin-1: the byte [0xE9] (an e with acute
    accent) is not UTF-8 where it stands. *)
Definition latin1_name : string :=
  ("caf" ++ String (ascii_of_nat 233) ".jpg")%string.

(** That picture, another one, and a CSV file that is not a sidecar of the
    export. *)
Definition latin1 : folder :=
  [photo latin1_name NoFault; photo "photo1.jpg" NoFault;
   mkEntry "notes.csv" (Regular "name,date" (Ret other_table))
           old_stamp old_stamp NoFault].

End Sample.

(* ------------------------------------------------------------------ *)
(** ** Vocabulary of the further properties *)
(* ------------------------------------------------------------------ *)

(** The extension text the two listing helpers derive from a name:
    [os.path.splitext(file)[1].lstrip(".").lower()]. *)
Definition extension (file : string) : string :=
  Str.lower (Str.lstrip "." (splitext_ext file)).

(** Does the text hold the character? *)
Definition has_char (c : ascii) (s : string) : bool :=
  match Str.rfind c s with
  | Some _ => true
  | None => false
  end.


(* ================================================================== *)
(** * Properties *)
(* ================================================================== *)

(** ** Decimal digits *)

Lemma nat_of_digit (k : nat) : nat_of_ascii (Str.digit k) = 48 + k mod 10.
Proof.
  unfold Str.digit. apply nat_ascii_embedding.
  pose proof (Nat.mod_upper_bound k 10). lia.
Qed.

Lemma digit_val_digit (k : nat) : Str.digit_val (Str.digit k) = Some (k mod 10).
Proof.
  unfold Str.digit_val. rewrite nat_of_digit.
  pose proof (Nat.mod_upper_bound k 10 ltac:(lia)) as H.
  replace ((48 <=? 48 + k mod 10) && (48 + k mod 10 <=? 57)) with true.
  - f_equal. lia.
  - symmetry. apply andb_true_intro. split; apply Nat.leb_le; lia.
Qed.

Lemma in_cls_digit (k : nat) : Date.in_cls Date.c_digit (Str.digit k) = true.
Proof.
  unfold Date.in_cls, Date.c_digit. rewrite nat_of_digit. simpl fst. simpl snd.
  pose proof (Nat.mod_upper_bound k 10 ltac:(lia)) as H.
  apply andb_true_intro. split; apply Nat.leb_le; lia.
Qed.


Lemma int_of_pad4 (y : nat) : y < 100 * 100 -> Date.int_of 0 (Str.pad4 y) = y.
Proof.
  intros Hy. unfold Str.pad4. cbn [Date.int_of].
  rewrite !digit_val_digit.
  change 1000 with (10 * (10 * 10)). change (y / 100) with (y / (10 * 10)).
  rewrite <- !Nat.Div0.div_div.
  set (a := y / 10). set (b := a / 10). set (c := b / 10).
  pose proof (Nat.div_mod_eq y 10) as H1. fold a in H1.
  pose proof (Nat.div_mod_eq a 10) as H2. fold b in H2.
  pose proof (Nat.div_mod_eq b 10) as H3. fold c in H3.
  pose proof (Nat.mod_upper_bound y 10 ltac:(lia)).
  pose proof (Nat.mod_upper_bound a 10 ltac:(lia)).
  pose proof (Nat.mod_upper_bound b 10 ltac:(lia)).
  assert (c < 10) as Hc by lia.
  rewrite (Nat.mod_small c 10 Hc). lia.
Qed.

Lemma int_of_pad2 (n : nat) : n < 100 -> Date.int_of 0 (Str.pad2 n) = n.
Proof.
  intros Hn. unfold Str.pad2. cbn [Date.int_of].
  rewrite !digit_val_digit.
  pose proof (Nat.div_mod_eq n 10) as H1.
  pose proof (Nat.mod_upper_bound n 10 ltac:(lia)) as H2.
  assert (n / 10 < 10) as H3 by (apply Nat.Div0.div_lt_upper_bound; lia).
  rewrite (Nat.mod_small (n / 10) 10 H3). lia.
Qed.

(** *** Plain decimal *)

Lemma decimal_fuel_enough (f1 f2 n : nat) :
  n < f1 -> n < f2 -> Str.decimal_fuel f1 n = Str.decimal_fuel f2 n.
Proof.
  revert f2 n. induction f1 as [|f1 IH]; intros f2 n H1 H2; [lia|].
  destruct f2 as [|f2]; [lia|]. cbn [Str.decimal_fuel].
  destruct (Nat.ltb_spec n 10) as [Hlt|Hge]; [reflexivity|].
  assert (n / 10 < n) as Hdiv by (apply Nat.div_lt; lia).
  rewrite (IH f2 (n / 10)) by lia. reflexivity.
Qed.

(** The equation of [decimal]: the last digit after the decimal text of
    the tens. *)
Lemma decimal_eq (n : nat) :
  Str.decimal n
  = if n <? 10 then String (Str.digit n) EmptyString
    else (Str.decimal (n / 10) ++ String (Str.digit n) EmptyString)%string.
Proof.
  unfold Str.decimal at 1. cbn [Str.decimal_fuel].
  destruct (Nat.ltb_spec n 10) as [Hlt|Hge]; [reflexivity|].
  assert (n / 10 < n) as Hdiv by (apply Nat.div_lt; lia).
  unfold Str.decimal. rewrite (decimal_fuel_enough n (S (n / 10)) (n / 10)) by lia.
  reflexivity.
Qed.

Lemma decimal_small (n : nat) :
  n < 10 -> Str.decimal n = String (Str.digit n) EmptyString.
Proof.
  intros H. rewrite decimal_eq.
  destruct (Nat.ltb_spec n 10); [reflexivity|lia].
Qed.

Lemma decimal_large (n : nat) :
  10 <= n ->
  Str.decimal n = (Str.decimal (n / 10) ++ String (Str.digit n) EmptyString)%string.
Proof.
  intros H. rewrite decimal_eq.
  destruct (Nat.ltb_spec n 10); [lia|reflexivity].
Qed.

(** A property of every decimal text, by induction on the number of
    digits. *)
Lemma decimal_ind (P : nat -> Prop) :
  (forall n, n < 10 -> P n) ->
  (forall n, 10 <= n -> P (n / 10) -> P n) ->
  forall n, P n.
Proof.
  intros Hsmall Hlarge n.
  assert (forall k m, m < k -> P m) as H.
  { induction k as [|k IH]; intros m Hm; [lia|].
    destruct (Nat.lt_ge_cases m 10) as [Hlt|Hge]; [apply Hsmall; assumption|].
    apply Hlarge; [assumption|]. apply IH.
    assert (m / 10 < m) by (apply Nat.div_lt; lia). lia. }
  apply (H (S n)). lia.
Qed.

Lemma int_of_append (acc : nat) (s t : string) :
  Date.int_of acc (s ++ t) = Date.int_of (Date.int_of acc s) t.
Proof.
  revert acc. induction s as [|c s IH]; intros acc; [reflexivity|].
  cbn [String.append Date.int_of]. destruct (Str.digit_val c); apply IH.
Qed.

Lemma int_of_decimal (n : nat) : Date.int_of 0 (Str.decimal n) = n.
Proof.
  induction n as [n Hn|n Hn IH] using decimal_ind.
  - rewrite decimal_small by assumption. cbn [Date.int_of].
    rewrite digit_val_digit, Nat.mod_small by assumption. lia.
  - rewrite decimal_large by assumption. rewrite int_of_append, IH.
    cbn [Date.int_of]. rewrite digit_val_digit.
    pose proof (Nat.div_mod_eq n 10). lia.
Qed.

(** The number of digits tells the size. *)
Lemma decimal_length (n : nat) :
  1 <= String.length (Str.decimal n)
  /\ (n < 10 -> String.length (Str.decimal n) = 1)
  /\ (10 <= n < 100 -> String.length (Str.decimal n) = 2)
  /\ (100 <= n -> 3 <= String.length (Str.decimal n))
  /\ (n < 100 * 100 -> String.length (Str.decimal n) <= 4).
Proof.
  assert (forall a b, String.length (a ++ String b EmptyString)
                      = S (String.length a)) as Hlen.
  { intros a b. induction a as [|x a IH]; cbn; [reflexivity|rewrite IH; reflexivity]. }
  induction n as [n Hn|n Hn IH] using decimal_ind.
  - rewrite decimal_small by assumption. cbn. repeat split; intros; lia.
  - rewrite decimal_large by assumption. rewrite Hlen.
    destruct IH as (H1 & H2 & H3 & H4 & H5).
    assert (n / 10 < 10 <-> n < 100) as Ha.
    { pose proof (Nat.div_mod_eq n 10).
      pose proof (Nat.mod_upper_bound n 10 ltac:(lia)). lia. }
    assert (n / 10 < 100 <-> n < 1000) as Hb.
    { pose proof (Nat.div_mod_eq n 10).
      pose proof (Nat.mod_upper_bound n 10 ltac:(lia)). lia. }
    assert (n / 10 < 100 * 100 -> n / 10 < 1000 \/ 1000 <= n / 10) as Hc by lia.
    split; [lia|]. split; [lia|]. split; [|split].
    + intros Hr. rewrite H2 by lia. reflexivity.
    + intros Hr. assert (10 <= n / 10) by lia.
      destruct (Nat.lt_ge_cases (n / 10) 100) as [Hlt|Hge].
      * rewrite H3 by lia. lia.
      * specialize (H4 Hge). lia.
    + intros Hr.
      assert (n / 10 < 1000) as Hd.
      { pose proof (Nat.div_mod_eq n 10).
        pose proof (Nat.mod_upper_bound n 10 ltac:(lia)). lia. }
      destruct (Nat.lt_ge_cases (n / 10) 10) as [Hlt|Hge]; [rewrite H2 by lia; lia|].
      destruct (Nat.lt_ge_cases (n / 10) 100) as [Hlt'|Hge']; [rewrite H3 by lia; lia|].
      assert (n / 10 / 10 < 100) as He.
      { pose proof (Nat.div_mod_eq (n / 10) 10).
        pose proof (Nat.mod_upper_bound (n / 10) 10 ltac:(lia)). lia. }
      rewrite (decimal_large (n / 10)) by lia. rewrite Hlen.
      destruct (Nat.lt_ge_cases (n / 10 / 10) 10) as [Hx|Hx].
      * rewrite decimal_small by assumption. cbn. lia.
      * rewrite (decimal_large (n / 10 / 10)) by lia. rewrite Hlen.
        rewrite decimal_small; [cbn; lia|].
        pose proof (Nat.div_mod_eq (n / 10 / 10) 10).
        pose proof (Nat.mod_upper_bound (n / 10 / 10) 10 ltac:(lia)). lia.
Qed.

(** From the year 1000 on the plain year has its four digits. *)
Lemma decimal_pad4 (y : nat) :
  1000 <= y < 100 * 100 -> Str.decimal y = Str.pad4 y.
Proof.
  intros Hy.
  assert (forall k, k / 10 < 10 -> 1 <= k / 10 -> 10 <= k < 100) as Hk.
  { intros k H1 H2. pose proof (Nat.div_mod_eq k 10).
    pose proof (Nat.mod_upper_bound k 10 ltac:(lia)). lia. }
  pose proof (Nat.div_mod_eq y 10) as E1.
  pose proof (Nat.mod_upper_bound y 10 ltac:(lia)) as B1.
  pose proof (Nat.div_mod_eq (y / 10) 10) as E2.
  pose proof (Nat.mod_upper_bound (y / 10) 10 ltac:(lia)) as B2.
  pose proof (Nat.div_mod_eq (y / 10 / 10) 10) as E3.
  pose proof (Nat.mod_upper_bound (y / 10 / 10) 10 ltac:(lia)) as B3.
  rewrite (decimal_large y) by lia.
  rewrite (decimal_large (y / 10)) by lia.
  rewrite (decimal_large (y / 10 / 10)) by lia.
  rewrite (decimal_small (y / 10 / 10 / 10)) by lia.
  unfold Str.pad4. cbn [String.append].
  change 1000 with (10 * (10 * 10)). change (y / 100) with (y / (10 * 10)).
  rewrite <- !Nat.Div0.div_div. reflexivity.
Qed.

Lemma all_digits_append (s t : string) :
  all_digits (s ++ t) = all_digits s && all_digits t.
Proof.
  induction s as [|c s IH]; [reflexivity|].
  cbn [String.append all_digits]. destruct (Str.digit_val c); [apply IH|reflexivity].
Qed.

Lemma all_digits_decimal (n : nat) : all_digits (Str.decimal n) = true.
Proof.
  induction n as [n Hn|n Hn IH] using decimal_ind.
  - rewrite decimal_small by assumption. cbn [all_digits].
    rewrite digit_val_digit. reflexivity.
  - rewrite decimal_large by assumption. rewrite all_digits_append, IH.
    cbn [all_digits andb]. rewrite digit_val_digit. reflexivity.
Qed.

Lemma all_digits_pad2 (n : nat) : all_digits (Str.pad2 n) = true.
Proof. unfold Str.pad2. cbn [all_digits]. rewrite !digit_val_digit. reflexivity. Qed.

(** The lexer takes a run of digits up to the first other character. *)
Lemma digits_run (s r : string) :
  all_digits s = true ->
  match r with
  | EmptyString => True
  | String c _ => Str.digit_val c = None
  end ->
  Filedate.digits (s ++ r) = (s, r).
Proof.
  intros Hs Hr. induction s as [|c s IH].
  - cbn [String.append]. destruct r as [|c r]; [reflexivity|].
    cbn [Filedate.digits]. rewrite Hr. reflexivity.
  - cbn [String.append Filedate.digits]. cbn [all_digits] in Hs.
    destruct (Str.digit_val c); [|discriminate].
    rewrite (IH Hs). reflexivity.
Qed.


(** ** The matcher on the text iCloud writes *)

Section Matcher.
Import Date.
Variables (ts : list token) (f : found) (rest : string).

Lemma re_match_one (t : token) (s : string) (f' : found) (r : string) :
  step t f s = [(f', r)] ->
  re_match (t :: ts) f s = re_match ts f' r.
Proof.
  intros H. cbn [re_match]. rewrite H. cbn [first_some fst snd].
  destruct (re_match ts f' r); reflexivity.
Qed.

(** A second, shorter alternative on which the next token fails. *)
Lemma re_match_two (t t' : token) (s : string) (f1 f2 : found) (r1 r2 : string) :
  step t f s = [(f1, r1); (f2, r2)] ->
  step t' f2 r2 = [] ->
  re_match (t :: t' :: ts) f s = re_match (t' :: ts) f1 r1.
Proof.
  intros H H'. cbn [re_match]. rewrite H. cbn [first_some fst snd].
  rewrite H'. cbn [first_some].
  destruct (first_some _ (step t' f1 r1)); reflexivity.
Qed.

Lemma match_blank (c : ascii) :
  Str.is_space c = false ->
  re_match (Blank :: ts) f (String " " (String c rest))
  = re_match ts f (String c rest).
Proof.
  intros Hc. apply re_match_one.
  cbn [step match_blanks]. rewrite Hc.
  reflexivity.
Qed.

Lemma match_weekday (w : nat) :
  w < 7 ->
  re_match (Directive "A" :: ts) f (nth w day_name "" ++ rest)
  = re_match ts (set_A f w) rest.
Proof.
  intros Hw.
  do 7 (destruct w as [|w]; [apply re_match_one; vm_compute; reflexivity|]).
  lia.
Qed.

Lemma match_year (y : nat) :
  y < 100 * 100 ->
  re_match (Directive "Y" :: ts) f (Str.pad4 y ++ rest)
  = re_match ts (set_Y f y) rest.
Proof.
  intros Hy. apply re_match_one.
  change (step (Directive "Y") f (Str.pad4 y ++ rest))
    with (with_group (set_Y f) (numbers re_Y (Str.pad4 y ++ rest))).
  unfold numbers, re_Y.
  unfold Str.pad4 at 1. cbn [String.append match_alt match_seq].
  rewrite !in_cls_digit. cbn [map with_group fst snd].
  fold (Str.pad4 y). rewrite int_of_pad4 by assumption.
  reflexivity.
Qed.
End Matcher.

Section MatcherText.
Import Date.
Variables (ts : list token) (f : found) (rest : string).

Lemma match_blank_month (m : nat) :
  1 <= m <= 12 ->
  re_match (Blank :: Directive "B" :: ts) f
           (String " " (nth m month_name "" ++ rest))
  = re_match ts (set_B f m) rest.
Proof.
  intros Hm. destruct m as [|m]; [lia|].
  do 12 (destruct m as [|m];
         [cbn [nth month_name String.append];
          rewrite match_blank by reflexivity;
          apply re_match_one; vm_compute; reflexivity|]).
  lia.
Qed.

Ltac two_digits :=
  match goal with
  | |- context [Str.pad2 ?k] =>
      let s := eval vm_compute in (Str.pad2 k) in
      change (Str.pad2 k) with s
  end;
  cbn [String.append];
  rewrite match_blank by reflexivity.

Lemma match_blank_day (d : nat) :
  1 <= d <= 31 ->
  re_match (Blank :: Directive "d" :: Lit "," :: ts) f
           (String " " (Str.pad2 d ++ String "," rest))
  = re_match ts (set_d f d) rest.
Proof.
  intros Hd. destruct d as [|d]; [lia|].
  do 31 (destruct d as [|d];
         [ two_digits;
           first [ rewrite (@re_match_one (Lit "," :: ts) f (Directive "d") _
                              (set_d f _) (String "," rest))
                     by (vm_compute; reflexivity)
                 | erewrite (@re_match_two ts f (Directive "d") (Lit ","))
                     by (vm_compute; reflexivity) ];
           apply re_match_one; vm_compute; reflexivity |]).
  lia.
Qed.

Lemma match_blank_hour (h : nat) :
  1 <= h <= 12 ->
  re_match (Blank :: Directive "I" :: Lit ":" :: ts) f
           (String " " (Str.pad2 h ++ String ":" rest))
  = re_match ts (set_I f h) rest.
Proof.
  intros Hh. destruct h as [|h]; [lia|].
  do 12 (destruct h as [|h];
         [ two_digits;
           first [ rewrite (@re_match_one (Lit ":" :: ts) f (Directive "I") _
                              (set_I f _) (String ":" rest))
                     by (vm_compute; reflexivity)
                 | erewrite (@re_match_two ts f (Directive "I") (Lit ":"))
                     by (vm_compute; reflexivity) ];
           apply re_match_one; vm_compute; reflexivity |]).
  lia.
Qed.

Lemma match_minute (mi : nat) :
  mi < 60 ->
  re_match (Directive "M" :: Blank :: ts) f
           (Str.pad2 mi ++ String " " rest)
  = re_match (Blank :: ts) (set_M f mi) (String " " rest).
Proof.
  intros Hmi.
  do 60 (destruct mi as [|mi];
         [ erewrite (@re_match_two ts f (Directive "M") Blank)
             by (vm_compute; reflexivity);
           reflexivity |]).
  lia.
Qed.

Lemma match_tail (pm : bool) :
  re_match [Blank; Directive "p"; Blank; Lit "G"; Lit "M"; Lit "T"] f
           (String " " ((if pm then "PM" else "AM") ++ " GMT"))
  = Some (set_p f (if pm then 1 else 0), EmptyString).
Proof.
  destruct pm; vm_compute; reflexivity.
Qed.
End MatcherText.

(** The groups of the text iCloud writes. *)
Lemma re_match_icloud_text (w m d y h mi : nat) (pm : bool) :
  w < 7 -> 1 <= m <= 12 -> 1 <= d <= 31 -> y < 100 * 100 ->
  1 <= h <= 12 -> mi < 60 ->
  Date.re_match (Date.tokenize DATE_FORMAT) Date.no_groups
                (icloud_text w m d y h mi pm)
  = Some (Date.mkFound (Some w) (Some m) (Some d) (Some y) (Some h) (Some mi)
                       (Some (if pm then 1 else 0)),
          EmptyString).
Proof.
  intros Hw Hm Hd Hy Hh Hmi.
  change (Date.tokenize DATE_FORMAT)
    with [Date.Directive "A"; Date.Blank; Date.Directive "B"; Date.Blank;
          Date.Directive "d"; Date.Lit ","; Date.Directive "Y"; Date.Blank;
          Date.Directive "I"; Date.Lit ":"; Date.Directive "M"; Date.Blank;
          Date.Directive "p"; Date.Blank; Date.Lit "G"; Date.Lit "M"; Date.Lit "T"].
  unfold icloud_text. cbn [String.append].
  rewrite match_weekday by assumption.
  rewrite match_blank_month by assumption.
  rewrite match_blank_day by assumption.
  rewrite match_year by assumption.
  rewrite match_blank_hour by assumption.
  rewrite match_minute by assumption.
  rewrite match_tail.
  reflexivity.
Qed.


Lemma days_in_month_le (y m : nat) : Date.days_in_month y m <= 31.
Proof.
  unfold Date.days_in_month.
  do 12 (destruct m as [|m]; [try destruct (Date.is_leap y); lia|]).
  lia.
Qed.

Lemma hour24_of_day (f : Date.found) (h : nat) (pm : bool) :
  1 <= h <= 12 ->
  Date.g_I f = Some h -> Date.g_p f = Some (if pm then 1 else 0) ->
  Date.hour24 f = hour_of_day h pm.
Proof.
  intros Hh HI Hp. unfold Date.hour24, hour_of_day. rewrite HI, Hp.
  destruct (Nat.eqb_spec h 12) as [->|Hne].
  - destruct pm; reflexivity.
  - rewrite (Nat.mod_small h 12) by lia. destruct pm; lia.
Qed.

Lemma not_nat_string (w m d y h mi : nat) (pm : bool) :
  w < 7 ->
  existsb (String.eqb (icloud_text w m d y h mi pm)) Date.nat_strings = false.
Proof.
  intros Hw. unfold icloud_text.
  do 7 (destruct w as [|w]; [reflexivity|]).
  lia.
Qed.

(** The text iCloud writes for a valid instant with a four-digit year
    parses to that instant. *)
Lemma strptime_icloud_text (w m d y h mi : nat) (pm : bool) :
  w < 7 -> 1 <= m <= 12 -> 1 <= d <= Date.days_in_month y m ->
  1 <= y < 100 * 100 -> 1 <= h <= 12 -> mi < 60 ->
  Date.strptime DATE_FORMAT (icloud_text w m d y h mi pm)
  = Ret (Date.mkDT y m d (hour_of_day h pm) mi).
Proof.
  intros Hw Hm Hd Hy Hh Hmi.
  pose proof (days_in_month_le y m) as H31.
  unfold Date.strptime.
  rewrite re_match_icloud_text by lia.
  cbn [String.eqb].
  unfold Date.fields. cbn [Date.g_Y Date.g_B Date.g_d Date.g_M Date.default].
  rewrite (@hour24_of_day _ h pm) by (assumption || reflexivity).
  replace (Date.valid_date _) with true; [reflexivity|].
  symmetry. unfold Date.valid_date. cbn [Date.year Date.month Date.day].
  repeat (apply andb_true_intro; split); apply Nat.leb_le; lia.
Qed.

(** *** What any accepted text yields *)

Lemma in_cls_range (lo hi : nat) (c : ascii) :
  hi <= 9 ->
  Date.in_cls (Date.c_range lo hi) c = true ->
  exists v, Str.digit_val c = Some v /\ lo <= v <= hi.
Proof.
  intros Hhi H. unfold Date.in_cls, Date.c_range in H.
  cbn [fst snd] in H. apply andb_prop in H. destruct H as [H1 H2].
  apply Nat.leb_le in H1. apply Nat.leb_le in H2.
  exists (nat_of_ascii c - 48). split; [|lia].
  unfold Str.digit_val.
  replace ((48 <=? nat_of_ascii c) && (nat_of_ascii c <=? 57)) with true; [reflexivity|].
  symmetry. apply andb_true_intro. split; apply Nat.leb_le; lia.
Qed.

Lemma match_seq_cons (k : Date.cls) (p : list Date.cls) (s t r : string) :
  Date.match_seq (k :: p) s = Some (t, r) ->
  exists c s' t', s = String c s' /\ t = String c t'
                  /\ Date.in_cls k c = true /\ Date.match_seq p s' = Some (t', r).
Proof.
  cbn [Date.match_seq]. destruct s as [|c s']; [discriminate|].
  destruct (Date.in_cls k c) eqn:Hk; [|discriminate].
  destruct (Date.match_seq p s') as [[t' r']|] eqn:Hp; [|discriminate].
  intros H. injection H as <- <-. exists c, s', t'. auto.
Qed.

Lemma match_seq_nil (s t r : string) :
  Date.match_seq [] s = Some (t, r) -> t = EmptyString.
Proof. cbn. intros H. injection H as <- _. reflexivity. Qed.

Lemma match_alt_In (ps : list (list Date.cls)) (s : string) (tr : string * string) :
  In tr (Date.match_alt ps s) ->
  exists p, In p ps /\ Date.match_seq p s = Some tr.
Proof.
  induction ps as [|p ps IH]; cbn [Date.match_alt]; [intros []|].
  destruct (Date.match_seq p s) as [tr'|] eqn:Hp.
  - intros [<-|H].
    + exists p. split; [left; reflexivity|assumption].
    + destruct (IH H) as (q & Hq & Hm). exists q. split; [right|]; assumption.
  - intros H. destruct (IH H) as (q & Hq & Hm). exists q. split; [right|]; assumption.
Qed.

Lemma numbers_In (re : list (list Date.cls)) (s : string) (v : nat) (r : string) :
  In (v, r) (Date.numbers re s) ->
  exists p t, In p re /\ Date.match_seq p s = Some (t, r) /\ v = Date.int_of 0 t.
Proof.
  unfold Date.numbers. intros H. apply in_map_iff in H.
  destruct H as ([t r'] & Heq & Hin). cbn [fst snd] in Heq.
  injection Heq as <- <-.
  destruct (match_alt_In _ _ _ Hin) as (p & Hp & Hm).
  exists p, t. auto.
Qed.

(** Peel the classes of one alternative off a successful match. *)
Ltac peel H :=
  repeat match type of H with
         | Date.match_seq (_ :: _) _ = Some _ =>
             let c := fresh "c" in
             let Hc := fresh "Hc" in
             apply match_seq_cons in H;
             destruct H as (c & ? & ? & -> & -> & Hc & H);
             apply in_cls_range in Hc; [|lia];
             destruct Hc as (? & Hc & ?)
         | Date.match_seq [] _ = Some _ =>
             apply match_seq_nil in H; subst
         end.

Lemma hour_group_range (s : string) (v : nat) (r : string) :
  In (v, r) (Date.numbers Date.re_I s) -> 1 <= v <= 12.
Proof.
  intros H. apply numbers_In in H. destruct H as (p & t & Hp & Hm & ->).
  unfold Date.re_I in Hp. cbn [In] in Hp.
  destruct Hp as [<-|[<-|[<-|[]]]]; unfold Date.c_char in Hm; peel Hm;
    cbn [Date.int_of];
    repeat match goal with H : Str.digit_val _ = Some _ |- _ => rewrite H; clear H end;
    lia.
Qed.

Lemma minute_group_range (s : string) (v : nat) (r : string) :
  In (v, r) (Date.numbers Date.re_M s) -> v <= 59.
Proof.
  intros H. apply numbers_In in H. destruct H as (p & t & Hp & Hm & ->).
  unfold Date.re_M in Hp. cbn [In] in Hp.
  destruct Hp as [<-|[<-|[]]];
    change Date.c_digit with (Date.c_range 0 9) in Hm; peel Hm;
    cbn [Date.int_of];
    repeat match goal with H : Str.digit_val _ = Some _ |- _ => rewrite H; clear H end;
    lia.
Qed.

Lemma year_group_range (s : string) (v : nat) (r : string) :
  In (v, r) (Date.numbers Date.re_Y s) -> v < 100 * 100.
Proof.
  intros H. apply numbers_In in H. destruct H as (p & t & Hp & Hm & ->).
  unfold Date.re_Y in Hp. cbn [In] in Hp.
  destruct Hp as [<-|[]].
  change Date.c_digit with (Date.c_range 0 9) in Hm. peel Hm.
  cbn [Date.int_of].
  repeat match goal with H : Str.digit_val _ = Some _ |- _ => rewrite H; clear H end.
  lia.
Qed.

Lemma step_clock_groups (t : Date.token) (f f' : Date.found) (s r : string) :
  In (f', r) (Date.step t f s) -> clock_groups f -> clock_groups f'.
Proof.
  intros Hin (HI & HM & HY). destruct t as [c| |c]; cbn [Date.step] in Hin.
  - unfold Date.with_group in Hin.
    repeat match type of Hin with
           | In _ (if ?b then _ else _) => destruct b
           end;
      try (apply in_map_iff in Hin; destruct Hin as ([v r'] & Heq & Hin);
           cbn [fst snd] in Heq; injection Heq as <- <-);
      try (destruct Hin; fail);
      (split; [|split]); cbn; intros x Hx;
      try (apply HI; assumption); try (apply HM; assumption);
      try (apply HY; assumption).
    + injection Hx as <-. eapply year_group_range; eassumption.
    + injection Hx as <-. eapply hour_group_range; eassumption.
    + injection Hx as <-. eapply minute_group_range; eassumption.
  - apply in_map_iff in Hin. destruct Hin as (r' & Heq & _).
    injection Heq as <- <-. split; [|split]; assumption.
  - destruct s as [|b s']; [destruct Hin|].
    destruct (Ascii.eqb _ _); [|destruct Hin].
    destruct Hin as [Heq|[]]. injection Heq as <- <-. split; [|split]; assumption.
Qed.

Lemma first_some_In {A B : Type} (k : A -> option B) (l : list A) (b : B) :
  Date.first_some k l = Some b -> exists a, In a l /\ k a = Some b.
Proof.
  induction l as [|a l IH]; cbn [Date.first_some]; [discriminate|].
  destruct (k a) as [b'|] eqn:Hk.
  - intros H. injection H as <-. exists a. split; [left; reflexivity|assumption].
  - intros H. destruct (IH H) as (a' & Hin & Ha'). exists a'. split; [right|]; assumption.
Qed.

Lemma re_match_clock_groups (ts : list Date.token) (f f' : Date.found) (s r : string) :
  Date.re_match ts f s = Some (f', r) -> clock_groups f -> clock_groups f'.
Proof.
  revert f s. induction ts as [|t ts IH]; intros f s; cbn [Date.re_match].
  - intros H. injection H as <- _. auto.
  - intros H Hf. apply first_some_In in H. destruct H as ([f1 r1] & Hin & Hm).
    cbn [fst snd] in Hm. eapply IH; [eassumption|].
    eapply step_clock_groups; eassumption.
Qed.

(** Whatever text [strptime] accepts, the instant is a real one of the
    years 1 to 9999. *)
Lemma strptime_sound (fmt text : string) (d : Date.datetime) :
  Date.strptime fmt text = Ret d ->
  1 <= Date.year d < 100 * 100
  /\ 1 <= Date.month d <= 12
  /\ 1 <= Date.day d <= Date.days_in_month (Date.year d) (Date.month d)
  /\ Date.hour d < 24 /\ Date.minute d < 60.
Proof.
  unfold Date.strptime.
  destruct (Date.re_match (Date.tokenize fmt) Date.no_groups text) as [[f rest]|] eqn:Hm;
    [|discriminate].
  destruct (String.eqb rest ""); [|discriminate].
  destruct (Date.valid_date (Date.fields f)) eqn:Hv;
    [|destruct (Date.year (Date.fields f) =? 0); discriminate].
  intros H. injection H as <-.
  assert (clock_groups f) as (HI & HM & HY).
  { eapply re_match_clock_groups; [eassumption|].
    split; [|split]; cbn; discriminate. }
  unfold Date.valid_date in Hv.
  repeat (apply andb_prop in Hv; destruct Hv as [Hv ?]).
  repeat match goal with H : (_ <=? _) = true |- _ => apply Nat.leb_le in H end.
  repeat split; try assumption.
  - cbn [Date.fields Date.year].
    destruct (Date.g_Y f) as [y|]; cbn [Date.default]; [|lia].
    exact (HY y eq_refl).
  - cbn [Date.fields Date.hour]. unfold Date.hour24.
    destruct (Date.g_I f) as [h|]; [|lia].
    specialize (HI h eq_refl).
    destruct (Date.g_p f) as [[|p]|]; destruct (Nat.eqb_spec h 12); lia.
  - cbn [Date.fields Date.minute].
    destruct (Date.g_M f) as [mi|]; cbn [Date.default]; [|lia].
    specialize (HM mi eq_refl). lia.
Qed.

(** The date string of a cell, when there is one, is the parsed instant
    in the output format. *)
Lemma date_string_sound (raw : cell) (date_str : string) :
  date_string raw = Ret date_str ->
  exists text d,
    raw = CStr text /\ Date.strptime DATE_FORMAT text = Ret d
    /\ date_str = dotted d.
Proof.
  unfold date_string, to_datetime, Date.to_datetime_str.
  destruct raw as [text| |n]; cbn [res_bind Date.strftime]; try discriminate.
  destruct (existsb _ _); cbn [res_bind Date.strftime]; [discriminate|].
  destruct (Date.strptime DATE_FORMAT text) as [d|e] eqn:Hp;
    cbn [res_bind Date.strftime]; [|discriminate].
  intros H. injection H as <-. exists text, d. auto.
Qed.

Lemma date_string_icloud_text (w m d y h mi : nat) (pm : bool) :
  w < 7 -> 1 <= m <= 12 -> 1 <= d <= Date.days_in_month y m ->
  1 <= y < 100 * 100 -> 1 <= h <= 12 -> mi < 60 ->
  date_string (CStr (icloud_text w m d y h mi pm))
  = Ret (dotted (Date.mkDT y m d (hour_of_day h pm) mi)).
Proof.
  intros Hw Hm Hd Hy Hh Hmi.
  unfold date_string, to_datetime, Date.to_datetime_str.
  rewrite not_nat_string by assumption.
  rewrite strptime_icloud_text by assumption.
  reflexivity.
Qed.

(** ** What [filedate] reads from a date string *)

Lemma number_then_run (width : nat) (sep : ascii) (s r : string) :
  all_digits s = true -> 1 <= String.length s <= width ->
  Str.digit_val sep = None ->
  Filedate.number_then width sep (s ++ String sep r) = Some (s, r).
Proof.
  intros Hs Hlen Hsep. unfold Filedate.number_then.
  rewrite digits_run by (assumption || exact Hsep).
  destruct s as [|c s]; [cbn in Hlen; lia|].
  replace (String.length (String c s) <=? width) with true
    by (symmetry; apply Nat.leb_le; lia).
  rewrite Ascii.eqb_refl. reflexivity.
Qed.

Lemma digits_pad2 (n : nat) :
  Filedate.digits (Str.pad2 n) = (Str.pad2 n, EmptyString).
Proof.
  unfold Str.pad2. cbn [Filedate.digits]. rewrite !digit_val_digit. reflexivity.
Qed.

Lemma split_dotted (d : Date.datetime) :
  Date.year d < 100 * 100 ->
  Filedate.split (dotted d)
  = Some (Str.pad2 (Date.day d), Str.pad2 (Date.month d),
          Str.decimal (Date.year d),
          Str.pad2 (Date.hour d), Str.pad2 (Date.minute d)).
Proof.
  intros Hy. unfold Filedate.split, dotted. cbn [String.append].
  destruct (decimal_length (Date.year d)) as (Hlen & _ & _ & _ & Hlen4).
  rewrite number_then_run
    by (apply all_digits_pad2 || reflexivity || (cbn; lia)).
  rewrite number_then_run
    by (apply all_digits_pad2 || reflexivity || (cbn; lia)).
  rewrite number_then_run
    by (apply all_digits_decimal || reflexivity || (split; [assumption|auto])).
  rewrite number_then_run
    by (apply all_digits_pad2 || reflexivity || (cbn; lia)).
  rewrite digits_pad2. reflexivity.
Qed.

Lemma is_leap_short_year (y : nat) :
  1 <= y < 100 -> Date.is_leap y = (y mod 4 =? 0).
Proof.
  intros Hy. unfold Date.is_leap.
  rewrite (Nat.mod_small y 100), (Nat.mod_small y 400) by lia.
  replace (y =? 0) with false by (symmetry; apply Nat.eqb_neq; lia).
  cbn [negb]. rewrite andb_true_r, orb_false_r. reflexivity.
Qed.

Lemma days_in_month_read (y m : nat) :
  1 <= y -> Filedate.days_in_month (year_read_of y) m = Date.days_in_month y m.
Proof.
  intros Hy. unfold Filedate.days_in_month, Date.days_in_month, year_read_of.
  destruct (Nat.leb_spec 100 y); cbn [Filedate.leap]; [reflexivity|].
  rewrite is_leap_short_year by lia. reflexivity.
Qed.

Lemma days_in_month_ge (y : Filedate.year_read) (m : nat) :
  28 <= Filedate.days_in_month y m.
Proof.
  unfold Filedate.days_in_month.
  do 12 (destruct m as [|m]; [try destruct (Filedate.leap y); lia|]).
  lia.
Qed.

Lemma valid_intro (y m d h mi : nat) :
  1 <= y < 100 * 100 -> 1 <= m <= 12 ->
  1 <= d <= Filedate.days_in_month (year_read_of y) m -> h < 24 -> mi < 60 ->
  Filedate.valid (Filedate.mkStamp (year_read_of y) m d h mi) = true.
Proof.
  intros Hy Hm Hd Hh Hmi. unfold Filedate.valid.
  cbn [Filedate.year Filedate.month Filedate.day Filedate.hour Filedate.minute].
  repeat (apply andb_true_intro; split);
    try (apply Nat.leb_le; lia); try (apply Nat.ltb_lt; lia).
  unfold year_read_of. destruct (Nat.leb_spec 100 y); [|reflexivity].
  apply andb_true_intro. split; [apply Nat.leb_le|apply Nat.ltb_lt]; lia.
Qed.

(** [filedate] reads the date string of an instant month first. *)
Lemma read_dotted (d : Date.datetime) :
  1 <= Date.year d < 100 * 100 -> 1 <= Date.month d <= 12 ->
  1 <= Date.day d <= Date.days_in_month (Date.year d) (Date.month d) ->
  Date.hour d < 24 -> Date.minute d < 60 ->
  Filedate.read (dotted d) = Ret (month_first d).
Proof.
  intros Hy Hm Hd Hh Hmi.
  pose proof (days_in_month_le (Date.year d) (Date.month d)) as H31.
  unfold Filedate.read. rewrite split_dotted by lia.
  rewrite !int_of_pad2 by lia. rewrite int_of_decimal.
  assert ((2 <? String.length (Str.decimal (Date.year d))) = (100 <=? Date.year d))
    as ->.
  { destruct (decimal_length (Date.year d)) as (_ & H1 & H2 & H3 & _).
    destruct (Nat.leb_spec 100 (Date.year d)) as [Hge|Hlt].
    - apply Nat.ltb_lt. specialize (H3 Hge). lia.
    - apply Nat.ltb_ge.
      destruct (Nat.lt_ge_cases (Date.year d) 10); [rewrite H1 by lia|rewrite H2 by lia];
        lia. }
  assert (Filedate.as_year (Date.year d) (100 <=? Date.year d)
          = year_read_of (Date.year d)) as Hyear.
  { unfold Filedate.as_year, year_read_of. rewrite orb_diag. reflexivity. }
  unfold Filedate.resolve, month_first.
  replace (31 <? Date.day d) with false by (symmetry; apply Nat.ltb_ge; lia).
  destruct (Nat.ltb_spec 12 (Date.day d)) as [H12|H12]; rewrite Hyear.
  - rewrite valid_intro; try lia; [reflexivity|].
    rewrite days_in_month_read by lia. lia.
  - rewrite valid_intro; try lia; [reflexivity|].
    pose proof (days_in_month_ge (year_read_of (Date.year d)) (Date.day d)). lia.
Qed.

(** Every date string the script computes is one [filedate] can read. *)
Lemma date_string_read (raw : cell) (date_str : string) :
  date_string raw = Ret date_str ->
  exists text d,
    raw = CStr text /\ Date.strptime DATE_FORMAT text = Ret d
    /\ date_str = dotted d
    /\ Filedate.read date_str = Ret (month_first d).
Proof.
  intros H. destruct (date_string_sound _ _ H) as (text & d & -> & Hp & ->).
  destruct (strptime_sound _ _ _ Hp) as (HY & HM & HD & Hh & Hmi).
  exists text, d. split; [reflexivity|]. split; [assumption|]. split; [reflexivity|].
  apply read_dotted; assumption.
Qed.

(** The three ways of stamping keep the name, the node and the fault. *)
Lemma stamp_keeps (date_str : string) (e : entry) :
  (name (stamp_created date_str e) = name e
   /\ kind (stamp_created date_str e) = kind e
   /\ fault (stamp_created date_str e) = fault e)
  /\ (name (stamp_modified date_str e) = name e
      /\ kind (stamp_modified date_str e) = kind e
      /\ fault (stamp_modified date_str e) = fault e)
  /\ (name (stamp_both date_str e) = name e
      /\ kind (stamp_both date_str e) = kind e
      /\ fault (stamp_both date_str e) = fault e).
Proof.
  unfold stamp_created, stamp_modified, stamp_both.
  destruct (Filedate.read date_str); cbn; auto 10.
Qed.

Lemma stamp_modified_created (date_str : string) (e : entry) :
  stamp_modified date_str (stamp_created date_str e) = stamp_both date_str e.
Proof.
  unfold stamp_created, stamp_modified, stamp_both.
  destruct (Filedate.read date_str); reflexivity.
Qed.

(** ** The loop body, statement by statement *)

Lemma fault_of_update (n n' : string) (upd : entry -> entry) (f : folder) :
  (forall e, name (upd e) = name e /\ fault (upd e) = fault e) ->
  fault_of n (update n' upd f) = fault_of n f.
Proof.
  intros Hupd. unfold fault_of, update.
  induction f as [|e f IH]; [reflexivity|].
  cbn [map find_entry].
  destruct (String.eqb (name e) n') eqn:He.
  - destruct (Hupd e) as [Hn Hf]. rewrite Hn.
    destruct (String.eqb (name e) n); [cbn; rewrite Hf; reflexivity|apply IH].
  - destruct (String.eqb (name e) n); [reflexivity|apply IH].
Qed.

Lemma update_update (n : string) (g h : entry -> entry) (f : folder) :
  (forall e, name (h e) = name e) ->
  update n g (update n h f) = update n (fun e => g (h e)) f.
Proof.
  intros Hh. unfold update. rewrite map_map. apply map_ext. intros e.
  destruct (String.eqb (name e) n) eqn:He.
  - rewrite Hh, He. reflexivity.
  - rewrite He. reflexivity.
Qed.

Lemma process_effect (df : DataFrame) (dry_run : bool) (filename : string)
    (c : counters) (w : world) :
  process df dry_run filename c w
  = (Ret (fst (effect df dry_run filename (c, w))),
     snd (effect df dry_run filename (c, w))).
Proof.
  unfold process, effect, verdict_of.
  destruct (is_csv filename); [reflexivity|].
  unfold try_except, try_body, bind, lift.
  destruct (lookup df filename) as [[|raw_date rest]|e]; [reflexivity| |reflexivity].
  destruct (date_string raw_date) as [date_str|e] eqn:Hd; [|reflexivity].
  destruct dry_run; [reflexivity|].
  destruct (date_string_read _ _ Hd) as (text & d & _ & _ & _ & Hread).
  unfold print, filedate_File, set_created, set_modified, ret, written, write_error, say.
  cbn [fs out]. rewrite Hread.
  destruct (fault_of filename (fs w)) as [[| | | |]|] eqn:Hf; cbn [fs out fst snd];
    rewrite ?Hf; cbn [fs out fst snd];
    rewrite ?fault_of_update by (intros x; split; apply (stamp_keeps date_str x));
    rewrite ?Hf; cbn [fs out fst snd];
    rewrite <- ?app_assoc; cbn [app]; try reflexivity.
  rewrite update_update by (intros x; apply (stamp_keeps date_str x)).
  unfold update. erewrite map_ext; [reflexivity|].
  intros x. cbn beta. rewrite stamp_modified_created. reflexivity.
Qed.

(** ** The loop *)

Lemma for_each_sweep (df : DataFrame) (dry_run : bool) (files : list string)
    (c : counters) (w : world) :
  for_each files (process df dry_run) c w
  = (Ret (fst (sweep df dry_run files (c, w))),
     snd (sweep df dry_run files (c, w))).
Proof.
  revert c w. induction files as [|n files IH]; intros c w.
  - reflexivity.
  - cbn [for_each]. unfold bind at 1. rewrite process_effect.
    rewrite IH. unfold sweep. cbn [fold_left].
    destruct (effect df dry_run n (c, w)); reflexivity.
Qed.


Lemma fix_dates_sweep (df : DataFrame) (dry_run : bool) (w : world) :
  fix_dates df dry_run w
  = let cw := sweep df dry_run (map name (fs w)) (mkCounters 0 0, w) in
    (Ret tt, say (snd cw) [EvDone (success (fst cw)) (errors (fst cw))]).
Proof.
  unfold fix_dates, listdir. unfold bind at 1. unfold bind at 1.
  rewrite for_each_sweep. reflexivity.
Qed.

(** The loop neither reads nor changes the fault of an entry. *)
Lemma fault_of_written (n n' date_str : string) (f : folder) :
  fault_of n (written n' date_str f) = fault_of n f.
Proof.
  unfold written.
  destruct (fault_of n' f) as [[| | | |]|]; try reflexivity;
    apply fault_of_update; intros x; split; apply (stamp_keeps date_str x).
Qed.

Lemma effect_fault_of (df : DataFrame) (dry_run : bool) (n n' : string)
    (cw : counters * world) :
  fault_of n (fs (snd (effect df dry_run n' cw))) = fault_of n (fs (snd cw)).
Proof.
  destruct cw as [c w]. unfold effect.
  destruct (verdict_of df n'); try reflexivity.
  destruct dry_run; [reflexivity|].
  destruct (write_error _); cbn [snd fs]; apply fault_of_written.
Qed.


(** A dry run leaves the folder as it is. *)
Lemma effect_dry_fs (df : DataFrame) (n : string) (cw : counters * world) :
  fs (snd (effect df true n cw)) = fs (snd cw).
Proof.
  destruct cw as [c w]. unfold effect.
  destruct (verdict_of df n); reflexivity.
Qed.

Lemma sweep_dry_fs (df : DataFrame) (files : list string) (cw : counters * world) :
  fs (snd (sweep df true files cw)) = fs (snd cw).
Proof.
  revert cw. induction files as [|n files IH]; intros cw; [reflexivity|].
  unfold sweep. cbn [fold_left]. fold (sweep df true files (effect df true n cw)).
  rewrite IH. apply effect_dry_fs.
Qed.

(** The console only grows. *)
Lemma effect_out (df : DataFrame) (dry_run : bool) (n : string)
    (cw : counters * world) :
  exists evs, out (snd (effect df dry_run n cw)) = out (snd cw) ++ evs.
Proof.
  destruct cw as [c w]. unfold effect.
  destruct (verdict_of df n); cbn [snd say out]; eauto.
  - exists []. rewrite app_nil_r. reflexivity.
  - destruct dry_run; [cbn; eauto|].
    destruct (write_error _); cbn; eauto.
Qed.

Lemma sweep_out (df : DataFrame) (dry_run : bool) (files : list string)
    (cw : counters * world) :
  exists evs, out (snd (sweep df dry_run files cw)) = out (snd cw) ++ evs.
Proof.
  revert cw. induction files as [|n files IH]; intros cw.
  - exists []. cbn. rewrite app_nil_r. reflexivity.
  - unfold sweep. cbn [fold_left]. fold (sweep df dry_run files (effect df dry_run n cw)).
    destruct (IH (effect df dry_run n cw)) as (evs & ->).
    destruct (effect_out df dry_run n cw) as (evs' & ->).
    exists (evs' ++ evs). rewrite app_assoc. reflexivity.
Qed.

(** *** The folder after a run that writes *)

Lemma restored_name (df : DataFrame) (f : folder) (e : entry) :
  name (restored df f e) = name e.
Proof.
  unfold restored. destruct (verdict_of df (name e)) as [| |date_str|]; try reflexivity.
  destruct (fault_of (name e) f) as [[| | | |]|]; try reflexivity;
    apply (stamp_keeps date_str e).
Qed.

Lemma restored_kind (df : DataFrame) (f : folder) (e : entry) :
  kind (restored df f e) = kind e.
Proof.
  unfold restored. destruct (verdict_of df (name e)) as [| |date_str|]; try reflexivity.
  destruct (fault_of (name e) f) as [[| | | |]|]; try reflexivity;
    apply (stamp_keeps date_str e).
Qed.

Lemma restored_fault (df : DataFrame) (f : folder) (e : entry) :
  fault (restored df f e) = fault e.
Proof.
  unfold restored. destruct (verdict_of df (name e)) as [| |date_str|]; try reflexivity.
  destruct (fault_of (name e) f) as [[| | | |]|]; try reflexivity;
    apply (stamp_keeps date_str e).
Qed.

Lemma fault_of_map (n : string) (g : entry -> entry) (f : folder) :
  (forall e, name (g e) = name e /\ fault (g e) = fault e) ->
  fault_of n (map g f) = fault_of n f.
Proof.
  intros Hg. unfold fault_of.
  induction f as [|e f IH]; [reflexivity|].
  cbn [map find_entry]. destruct (Hg e) as [-> Hf].
  destruct (String.eqb (name e) n); [cbn; rewrite Hf; reflexivity|apply IH].
Qed.

Lemma partly_restored_keeps (df : DataFrame) (f : folder) (done : list string)
    (e : entry) :
  name (partly_restored df f done e) = name e
  /\ fault (partly_restored df f done e) = fault e.
Proof.
  unfold partly_restored. destruct (existsb _ done).
  - split; [apply restored_name|apply restored_fault].
  - split; reflexivity.
Qed.

Lemma effect_wet_partly (df : DataFrame) (f0 : folder) (n : string)
    (done : list string) (c : counters) (w : world) :
  fs w = map (partly_restored df f0 done) f0 ->
  fs (snd (effect df false n (c, w)))
  = map (partly_restored df f0 (n :: done)) f0.
Proof.
  intros Hw.
  assert (fault_of n (fs w) = fault_of n f0) as Hf.
  { rewrite Hw. apply fault_of_map. apply partly_restored_keeps. }
  assert (forall g,
             (forall e, name e = n -> g (partly_restored df f0 done e) = restored df f0 e) ->
             update n g (fs w) = map (partly_restored df f0 (n :: done)) f0) as Hupd.
  { intros g Hg. rewrite Hw. unfold update. rewrite map_map.
    apply map_ext. intros e.
    destruct (partly_restored_keeps df f0 done e) as [-> _].
    unfold partly_restored at 3. cbn [existsb].
    destruct (String.eqb (name e) n) eqn:He; cbn [orb].
    - apply String.eqb_eq in He. apply Hg. assumption.
    - reflexivity. }
  assert (forall e, name e = n ->
                    restored df f0 e
                    = match verdict_of df n with
                      | VDate s =>
                          match fault_of n f0 with
                          | Some NoFault => stamp_both s e
                          | Some ModifiedFails => stamp_created s e
                          | Some NoCreationTime => stamp_modified s e
                          | _ => e
                          end
                      | _ => e
                      end) as Hres.
  { intros e <-. reflexivity. }
  assert ((forall e, name e = n -> restored df f0 e = e) ->
          fs w = map (partly_restored df f0 (n :: done)) f0) as Hsame.
  { intros Hid. rewrite Hw. apply map_ext. intros e.
    unfold partly_restored. cbn [existsb].
    destruct (String.eqb (name e) n) eqn:He; cbn [orb]; [|reflexivity].
    apply String.eqb_eq in He. rewrite (Hid e He).
    destruct (existsb _ done); reflexivity. }
  unfold effect.
  destruct (verdict_of df n) as [| |s|e0] eqn:Hv; cbn [snd say fs];
    try (apply Hsame; intros e He; rewrite (Hres e He); reflexivity).
  assert (fs (mkWorld (written n s (fs w)) (out w)) 
          = map (partly_restored df f0 (n :: done)) f0) as Hgoal.
  { cbn [fs]. unfold written. rewrite Hf.
    destruct (fault_of n f0) as [[| | | |]|] eqn:Hflt;
      try (apply Hsame; intros e He; rewrite (Hres e He); reflexivity);
      apply Hupd; intros e He; rewrite (Hres e He);
      unfold partly_restored; (destruct (existsb _ done); [|reflexivity]);
      rewrite (Hres e He);
      unfold stamp_both, stamp_created, stamp_modified;
      destruct (Filedate.read s) eqn:Hr; cbn [name kind created modified fault];
      rewrite ?Hr; reflexivity. }
  destruct (write_error _); exact Hgoal.
Qed.

Lemma sweep_wet_partly (df : DataFrame) (f0 : folder) (files done : list string)
    (cw : counters * world) :
  fs (snd cw) = map (partly_restored df f0 done) f0 ->
  fs (snd (sweep df false files cw))
  = map (partly_restored df f0 (rev files ++ done)) f0.
Proof.
  revert done cw. induction files as [|n files IH]; intros done [c w] Hw.
  - exact Hw.
  - unfold sweep. cbn [fold_left rev].
    fold (sweep df false files (effect df false n (c, w))).
    rewrite <- app_assoc. cbn [app].
    apply IH. apply effect_wet_partly. exact Hw.
Qed.

(** A run that writes restores every entry, and does nothing else. *)
Lemma sweep_wet_fs (df : DataFrame) (f : folder) (c : counters) (o : list event) :
  fs (snd (sweep df false (map name f) (c, mkWorld f o)))
  = map (restored df f) f.
Proof.
  rewrite (@sweep_wet_partly df f (map name f) []).
  - apply map_ext_in. intros e He. unfold partly_restored.
    replace (existsb _ _) with true; [reflexivity|].
    symmetry. apply existsb_exists. exists (name e). split.
    + apply in_or_app. left. apply in_rev. rewrite rev_involutive.
      apply in_map. assumption.
    + apply String.eqb_refl.
  - cbn [snd fs]. symmetry. erewrite map_ext; [apply map_id|].
    intros e. reflexivity.
Qed.

(** *** What the loop prints *)

Lemma verdict_date_iff (df : DataFrame) (n date_str : string) :
  verdict_of df n = VDate date_str
  <-> is_csv n = false
      /\ exists raw rest, lookup df n = Ret (raw :: rest)
                          /\ date_string raw = Ret date_str.
Proof.
  unfold verdict_of. split.
  - destruct (is_csv n); [discriminate|].
    destruct (lookup df n) as [[|raw rest]|e]; try discriminate.
    destruct (date_string raw) as [s|e] eqn:Hd; [|discriminate].
    intros H. injection H as <-. split; [reflexivity|]. exists raw, rest. auto.
  - intros (-> & raw & rest & -> & ->). reflexivity.
Qed.

Ltac in_events :=
  repeat match goal with
         | H : In _ (_ ++ _) |- _ => apply in_app_or in H; destruct H as [H|H]
         | H : In _ (_ :: _) |- _ => destruct H as [H|H]
         | H : In _ [] |- _ => destruct H
         | H : _ = _ |- _ => discriminate H
         | H : EvDryRun _ _ = EvDryRun _ _ |- _ => injection H as <- <-
         | H : EvOk _ _ = EvOk _ _ |- _ => injection H as <- <-
         | H : EvError _ _ = EvError _ _ |- _ => injection H as <- <-
         end.



Lemma sweep_keeps_events (df : DataFrame) (dry_run : bool) (files : list string)
    (cw : counters * world) (ev : event) :
  In ev (out (snd cw)) -> In ev (out (snd (sweep df dry_run files cw))).
Proof.
  intros H. destruct (sweep_out df dry_run files cw) as (evs & ->).
  apply in_or_app. left. assumption.
Qed.



(** *** What the loop counts *)

Lemma effect_counts_errors (df : DataFrame) (dry_run : bool) (n : string)
    (cw : counters * world) :
  errors (fst cw) = count_errors (out (snd cw)) ->
  errors (fst (effect df dry_run n cw))
  = count_errors (out (snd (effect df dry_run n cw))).
Proof.
  destruct cw as [c w]. cbn [fst snd]. intros H. unfold effect, count_errors in *.
  destruct (verdict_of df n); [assumption| | |];
    try destruct dry_run; try destruct (write_error _);
    cbn [fst snd say out failed succeeded errors];
    rewrite filter_app, length_app; cbn; lia.
Qed.

Lemma sweep_counts_errors (df : DataFrame) (dry_run : bool) (files : list string)
    (cw : counters * world) :
  errors (fst cw) = count_errors (out (snd cw)) ->
  errors (fst (sweep df dry_run files cw))
  = count_errors (out (snd (sweep df dry_run files cw))).
Proof.
  revert cw. induction files as [|n files IH]; intros cw H; [exact H|].
  unfold sweep. cbn [fold_left].
  apply (IH (effect df dry_run n cw)). apply effect_counts_errors. exact H.
Qed.




(** ** Lookup in the metadata table *)

Lemma select_mask {A : Type} (p : A -> bool) (l : list A) :
  select (map p l) l = filter p l.
Proof.
  induction l as [|x l IH]; [reflexivity|].
  cbn [map select filter]. rewrite IH. reflexivity.
Qed.

Lemma cell_eq_iff (text : string) (c : cell) :
  cell_eq text c = true <-> c = CStr text.
Proof.
  destruct c as [s| |k]; cbn [cell_eq]; split; intros H; try discriminate.
  - apply String.eqb_eq in H. subst. reflexivity.
  - injection H as ->. apply String.eqb_refl.
Qed.

Lemma lookup_columns (df : DataFrame) (filename : string) :
  has_column df "imgName" = true ->
  has_column df "originalCreationDate" = true ->
  lookup df filename = Ret (matching_dates df filename).
Proof.
  intros Hi Hd. unfold lookup, getitem. rewrite Hi. cbn [res_bind].
  unfold has_column in *. cbn [getitem_mask columns rows]. rewrite Hd.
  unfold series_eq. rewrite map_map. rewrite select_mask. reflexivity.
Qed.

Lemma lookup_without_imgName (df : DataFrame) (filename : string) :
  has_column df "imgName" = false ->
  lookup df filename = Raise (KeyError "imgName").
Proof.
  intros Hi. unfold lookup, getitem. rewrite Hi. reflexivity.
Qed.


Lemma filter_first {A : Type} (p : A -> bool) (pre post : list A) (r : A) :
  (forall x, In x pre -> p x = false) -> p r = true ->
  filter p (pre ++ r :: post) = r :: filter p post.
Proof.
  intros Hpre Hr. induction pre as [|x pre IH]; cbn [app filter].
  - rewrite Hr. reflexivity.
  - rewrite (Hpre x (or_introl eq_refl)). apply IH.
    intros y Hy. apply Hpre. right. assumption.
Qed.


(** ** Loading the metadata *)

Lemma read_csv_world (file : string) (w : world) :
  read_csv file w = (csv_of (fs w) file, w).
Proof.
  unfold csv_of, read_csv. cbn [fs].
  destruct (find_entry file (fs w)) as [e|]; [|reflexivity].
  destruct (kind e); reflexivity.
Qed.

Lemma load_one_world (file : string) (frames : list DataFrame) (w : world) :
  load_one file frames w
  = (if is_csv file then
       res_bind (csv_of (fs w) file) (fun frame => Ret (frames ++ [frame]))
     else Ret frames, w).
Proof.
  unfold load_one. destruct (is_csv file); [|reflexivity].
  unfold bind. rewrite read_csv_world.
  destruct (csv_of (fs w) file); reflexivity.
Qed.

(** The loading loop when every CSV name can be read: the tables, in
    listing order. *)
Lemma load_loop_ok (files : list string) (frames : list DataFrame) (w : world) :
  (forall n, In n files -> is_csv n = true -> exists df, csv_of (fs w) n = Ret df) ->
  exists more,
    for_each files load_one frames w = (Ret (frames ++ more), w)
    /\ Forall2 (fun n df => csv_of (fs w) n = Ret df) (filter is_csv files) more.
Proof.
  revert frames. induction files as [|n files IH]; intros frames Hall.
  - exists []. rewrite app_nil_r. split; [reflexivity|constructor].
  - cbn [for_each filter]. unfold bind at 1. rewrite load_one_world.
    destruct (is_csv n) eqn:Hn.
    + destruct (Hall n (or_introl eq_refl) Hn) as (df & Hdf). rewrite Hdf.
      cbn [res_bind].
      destruct (IH (frames ++ [df])) as (more & Hrun & Hmore).
      { intros m Hm. apply Hall. right. assumption. }
      exists (df :: more). rewrite Hrun, <- app_assoc. split; [reflexivity|].
      constructor; assumption.
    + apply IH. intros m Hm. apply Hall. right. assumption.
Qed.

(** The loading loop never changes the world, and when it raises, the
    exception is the one [read_csv] raised for a CSV name. *)
Lemma load_loop_raise (files : list string) (frames : list DataFrame) (w w' : world)
    (e : exc) :
  for_each files load_one frames w = (Raise e, w') ->
  w' = w /\ exists n, In n files /\ is_csv n = true /\ csv_of (fs w) n = Raise e.
Proof.
  revert frames. induction files as [|n files IH]; intros frames; [discriminate|].
  cbn [for_each]. unfold bind at 1. rewrite load_one_world.
  destruct (is_csv n) eqn:Hn.
  - destruct (csv_of (fs w) n) as [df|e'] eqn:Hdf; cbn [res_bind].
    + intros H. destruct (IH _ H) as (-> & m & Hm & Hcsv & He).
      split; [reflexivity|]. exists m. split; [right|]; auto.
    + intros H. injection H as <- <-. split; [reflexivity|].
      exists n. split; [left; reflexivity|]. auto.
  - intros H. destruct (IH _ H) as (-> & m & Hm & Hcsv & He).
    split; [reflexivity|]. exists m. split; [right|]; auto.
Qed.

Lemma load_loop_world (files : list string) (frames : list DataFrame) (w : world) :
  snd (for_each files load_one frames w) = w.
Proof.
  revert frames. induction files as [|n files IH]; intros frames; [reflexivity|].
  cbn [for_each]. unfold bind at 1. rewrite load_one_world.
  destruct (if is_csv n then _ else _); [apply IH|reflexivity].
Qed.

Lemma load_metadata_cases (w : world) :
  load_metadata w
  = match fst (for_each (map name (fs w)) load_one [] w) with
    | Raise e => (Raise e, w)
    | Ret [] => (Raise FileNotFoundError, w)
    | Ret frames =>
        (Ret (concat frames),
         say w [EvLoaded (len (concat frames)) (List.length frames)])
    end.
Proof.
  unfold load_metadata, listdir. unfold bind at 1. unfold bind at 1.
  pose proof (load_loop_world (map name (fs w)) [] w) as Hw.
  destruct (for_each (map name (fs w)) load_one [] w) as [[frames|e] w'];
    cbn [fst snd] in *; subst w'; [|reflexivity].
  destruct frames; reflexivity.
Qed.

(** ** The script *)

Lemma for_each_ret {A B : Type} (g : A -> B -> B) (l : list A) (b : B) (w : world) :
  for_each l (fun x acc => ret (g x acc)) b w
  = (Ret (fold_left (fun acc x => g x acc) l b), w).
Proof.
  revert b. induction l as [|x l IH]; intros b; [reflexivity|].
  cbn [for_each fold_left]. unfold bind, ret at 1. apply IH.
Qed.

Lemma get_non_csv_extensions_world (w : world) :
  get_non_csv_extensions w = (Ret (extensions_of (fs w)), w).
Proof.
  unfold get_non_csv_extensions, listdir. unfold bind at 1. unfold bind at 1.
  rewrite for_each_ret. reflexivity.
Qed.


(** The script after a directory check: it stops in [load_metadata] or
    runs [fix_dates] to its end. *)
Lemma script_cases (dry_run : bool) (f : folder) :
  script dry_run (mkWorld f [])
  = match fst (for_each (map name f) load_one [] (mkWorld f [])) with
    | Raise e => (Raise e, mkWorld f [])
    | Ret [] => (Raise FileNotFoundError, mkWorld f [])
    | Ret frames =>
        fix_dates (concat frames) dry_run (mkWorld f (preamble f frames))
    end.
Proof.
  unfold script. unfold bind at 1. rewrite load_metadata_cases. cbn [fs].
  destruct (fst (for_each (map name f) load_one [] (mkWorld f [])))
    as [[|df frames]|e]; try reflexivity.
  unfold bind at 1. rewrite get_non_csv_extensions_world.
  reflexivity.
Qed.

(** ** A complete run *)

Lemma run_sweep (df : DataFrame) (dry_run : bool) (f : folder) :
  run df dry_run f
  = (Ret tt,
     say (snd (sweep df dry_run (map name f) (mkCounters 0 0, mkWorld f [])))
         [EvDone (success (fst (sweep df dry_run (map name f)
                                      (mkCounters 0 0, mkWorld f []))))
                 (errors (fst (sweep df dry_run (map name f)
                                     (mkCounters 0 0, mkWorld f []))))]).
Proof. unfold run. rewrite fix_dates_sweep. reflexivity. Qed.

Lemma run_fs (df : DataFrame) (dry_run : bool) (f : folder) :
  fs (snd (run df dry_run f))
  = if dry_run then f else map (restored df f) f.
Proof.
  rewrite run_sweep. cbn [snd say fs]. destruct dry_run.
  - apply sweep_dry_fs.
  - apply sweep_wet_fs.
Qed.

Lemma run_out (df : DataFrame) (dry_run : bool) (f : folder) :
  out (snd (run df dry_run f))
  = out (snd (sweep df dry_run (map name f) (mkCounters 0 0, mkWorld f [])))
    ++ [EvDone (success (fst (sweep df dry_run (map name f)
                                     (mkCounters 0 0, mkWorld f []))))
               (errors (fst (sweep df dry_run (map name f)
                                    (mkCounters 0 0, mkWorld f []))))].
Proof. rewrite run_sweep. reflexivity. Qed.

Lemma in_before_done (ev : event) (evs : list event) (s e : nat) :
  ev <> EvDone s e -> (In ev (evs ++ [EvDone s e]) <-> In ev evs).
Proof.
  intros Hne. split; intros H.
  - apply in_app_or in H. destruct H as [H|[H|[]]]; [assumption|].
    symmetry in H. contradiction.
  - apply in_or_app. left. assumption.
Qed.

Lemma Forall2_map_r {A B : Type} (R : A -> B -> Prop) (g : A -> B) (l : list A) :
  (forall x, In x l -> R x (g x)) -> Forall2 R l (map g l).
Proof.
  induction l as [|x l IH]; intros H; cbn [map]; constructor.
  - apply H. left. reflexivity.
  - apply IH. intros y Hy. apply H. right. assumption.
Qed.

Lemma Forall2_same {A : Type} (R : A -> A -> Prop) (l : list A) :
  (forall x, In x l -> R x x) -> Forall2 R l l.
Proof.
  intros H. rewrite <- (map_id l) at 2. apply Forall2_map_r. exact H.
Qed.

Lemma verdict_csv (df : DataFrame) (n : string) :
  verdict_of df n = VCsv <-> is_csv n = true.
Proof.
  unfold verdict_of. destruct (is_csv n); split; intros H;
    try reflexivity; try discriminate.
  destruct (lookup df n) as [[|raw rest]|e]; try discriminate.
  destruct (date_string raw); discriminate.
Qed.

Lemma sweep_errors_named (df : DataFrame) (dry_run : bool) (files : list string)
    (cw : counters * world) (n : string) (x : exc) :
  In (EvError n x) (out (snd (sweep df dry_run files cw))) ->
  In (EvError n x) (out (snd cw)) \/ (In n files /\ is_csv n = false).
Proof.
  revert cw. induction files as [|m files IH]; intros cw H; [left; exact H|].
  unfold sweep in H. cbn [fold_left] in H.
  fold (sweep df dry_run files (effect df dry_run m cw)) in H.
  destruct (IH _ H) as [H'|[Hin Hcsv]]; [|right; split; [right|]; assumption].
  destruct cw as [c w]. unfold effect in H'.
  assert (verdict_of df m <> VCsv -> is_csv m = false) as Hm.
  { intros Hne. destruct (is_csv m) eqn:E; [|reflexivity].
    exfalso. apply Hne. apply verdict_csv. assumption. }
  destruct (verdict_of df m) eqn:Hv; try destruct dry_run;
    try destruct (write_error _);
    cbn [snd say out] in H'; in_events; try (left; assumption);
    right; (split; [left; reflexivity|apply Hm; discriminate]).
Qed.

Lemma sweep_touches (df : DataFrame) (dry_run : bool) (files : list string)
    (cw : counters * world) (n : string) :
  In n files -> is_csv n = false ->
  exists ev, In ev (out (snd (sweep df dry_run files cw))) /\ about ev = Some n.
Proof.
  revert cw. induction files as [|m files IH]; intros cw Hin Hcsv; [destruct Hin|].
  unfold sweep. cbn [fold_left]. fold (sweep df dry_run files (effect df dry_run m cw)).
  destruct Hin as [->|Hin]; [|apply IH; assumption].
  assert (exists ev, In ev (out (snd (effect df dry_run n cw))) /\ about ev = Some n)
    as (ev & Hev & Hab).
  { destruct cw as [c w]. unfold effect.
    destruct (verdict_of df n) eqn:Hv.
    - apply verdict_csv in Hv. congruence.
    - exists (EvSkip n). split; [|reflexivity]. cbn. apply in_or_app. right. left. reflexivity.
    - destruct dry_run; [|destruct (write_error _)].
      + exists (EvDryRun n date_str). split; [|reflexivity].
        cbn. apply in_or_app. right. left. reflexivity.
      + exists (EvOk n date_str). split; [|reflexivity].
        cbn. apply in_or_app. right. left. reflexivity.
      + exists (EvOk n date_str). split; [|reflexivity].
        cbn. apply in_or_app. right. left. reflexivity.
    - exists (EvError n e). split; [|reflexivity]. cbn. apply in_or_app. right. left. reflexivity. }
  exists ev. split; [|assumption]. apply sweep_keeps_events. assumption.
Qed.

Lemma candidates_In (f : folder) (n : string) :
  In n (candidates f) <-> In n (map name f) /\ is_csv n = false.
Proof.
  unfold candidates. rewrite filter_In. rewrite negb_true_iff. tauto.
Qed.

Lemma count_errors_done (evs : list event) (s e : nat) :
  count_errors (evs ++ [EvDone s e]) = count_errors evs.
Proof.
  unfold count_errors. rewrite filter_app, length_app. cbn. lia.
Qed.

Lemma Forall2_functional {A B : Type} (R : A -> B -> Prop) (l : list A)
    (a b : list B) :
  (forall x y z, R x y -> R x z -> y = z) ->
  Forall2 R l a -> Forall2 R l b -> a = b.
Proof.
  intros Hfun Ha. revert b. induction Ha as [|x y l a Hxy Ha IH]; intros b Hb.
  - inversion Hb. reflexivity.
  - inversion Hb as [|x' z l' b' Hxz Hb']; subst.
    f_equal; [eapply Hfun; eassumption|apply IH; assumption].
Qed.

Lemma Forall2_In_left {A B : Type} (R : A -> B -> Prop) (l : list A) (a : list B)
    (x : A) :
  Forall2 R l a -> In x l -> exists y, In y a /\ R x y.
Proof.
  intros H. induction H as [|x' y l a Hxy H IH]; intros Hin; [destruct Hin|].
  destruct Hin as [->|Hin].
  - exists y. split; [left; reflexivity|assumption].
  - destruct (IH Hin) as (z & Hz & Hr). exists z. split; [right|]; assumption.
Qed.

(** When every CSV name of the folder can be read, [load_metadata] returns
    the tables concatenated in listing order, whatever their columns. *)
Lemma load_metadata_ok (f : folder) (frames : list DataFrame) :
  Forall2 (fun n df => csv_of f n = Ret df) (csv_names f) frames ->
  frames <> [] ->
  load_metadata (mkWorld f [])
  = (Ret (concat frames),
     mkWorld f [EvLoaded (len (concat frames)) (List.length frames)])
  /\ fst (for_each (map name f) load_one [] (mkWorld f [])) = Ret frames.
Proof.
  intros Hall Hne.
  destruct (@load_loop_ok (map name f) [] (mkWorld f [])) as (more & Hrun & Hmore).
  { intros n Hin Hcsv. cbn [fs].
    destruct (@Forall2_In_left _ _ _ _ _ n Hall) as (df & _ & Hdf).
    - unfold csv_names. apply filter_In. auto.
    - exists df. assumption. }
  cbn [fs app] in *.
  assert (more = frames) as ->.
  { eapply Forall2_functional; [|exact Hmore|exact Hall].
    cbn. intros x y z Hy Hz. congruence. }
  rewrite load_metadata_cases. cbn [fs]. rewrite Hrun. cbn [fst].
  destruct frames; [contradiction|]. split; reflexivity.
Qed.


Lemma verdict_first_match (df : DataFrame) (filename date_str : string)
    (pre post : list row) (r : row) :
  is_csv filename = false ->
  has_column df "imgName" = true ->
  has_column df "originalCreationDate" = true ->
  rows df = pre ++ r :: post ->
  (forall r', In r' pre -> row_get "imgName" r' <> CStr filename) ->
  row_get "imgName" r = CStr filename ->
  date_string (row_get "originalCreationDate" r) = Ret date_str ->
  verdict_of df filename = VDate date_str.
Proof.
  intros Hcsv Hi Hd Hrows Hpre Hr Hdate. unfold verdict_of. rewrite Hcsv.
  rewrite lookup_columns by assumption. unfold matching_dates. rewrite Hrows.
  rewrite filter_first.
  - cbn [map]. rewrite Hdate. reflexivity.
  - intros r' Hr'.
    destruct (cell_eq filename (row_get "imgName" r')) eqn:E; [|reflexivity].
    apply cell_eq_iff in E. exfalso. exact (Hpre r' Hr' E).
  - apply cell_eq_iff. assumption.
Qed.

(** The loading loop stops at an unreadable CSV name. *)
Lemma load_loop_stops (files : list string) (frames : list DataFrame) (w : world)
    (n : string) (e : exc) :
  In n files -> is_csv n = true -> csv_of (fs w) n = Raise e ->
  exists e', for_each files load_one frames w = (Raise e', w).
Proof.
  revert frames. induction files as [|m files IH]; intros frames Hin Hcsv He;
    [destruct Hin|].
  cbn [for_each]. unfold bind at 1. rewrite load_one_world.
  destruct Hin as [->|Hin].
  - rewrite Hcsv, He. cbn [res_bind]. eauto.
  - destruct (is_csv m).
    + destruct (csv_of (fs w) m); cbn [res_bind]; [|eauto].
      apply IH; assumption.
    + apply IH; assumption.
Qed.

Lemma load_loop_ret (files : list string) (frames result : list DataFrame)
    (w w' : world) :
  for_each files load_one frames w = (Ret result, w') ->
  exists more,
    result = frames ++ more
    /\ Forall2 (fun n df => csv_of (fs w) n = Ret df) (filter is_csv files) more.
Proof.
  revert frames. induction files as [|n files IH]; intros frames.
  - cbn. intros H. injection H as <- _. exists []. rewrite app_nil_r.
    split; [reflexivity|constructor].
  - cbn [for_each filter]. unfold bind at 1. rewrite load_one_world.
    destruct (is_csv n).
    + destruct (csv_of (fs w) n) as [df|e] eqn:Hdf; cbn [res_bind]; [|discriminate].
      intros H. destruct (IH _ H) as (more & -> & Hmore).
      exists (df :: more). rewrite <- app_assoc. split; [reflexivity|].
      constructor; assumption.
    + apply IH.
Qed.

Lemma main_script (f : folder) (dry_run : bool) :
  main (Some f) dry_run
  = (fst (script dry_run (mkWorld f [])),
     Some (fs (snd (script dry_run (mkWorld f [])))),
     out (snd (script dry_run (mkWorld f [])))).
Proof. reflexivity. Qed.

Lemma find_entry_NoDup (f : folder) (e : entry) :
  NoDup (map name f) -> In e f -> find_entry (name e) f = Some e.
Proof.
  induction f as [|x f IH]; intros Hnd Hin; [destruct Hin|].
  cbn [map] in Hnd. inversion Hnd as [|? ? Hx Hnd']; subst.
  cbn [find_entry]. destruct Hin as [->|Hin].
  - rewrite String.eqb_refl. reflexivity.
  - destruct (String.eqb_spec (name x) (name e)) as [Heq|Hne].
    + exfalso. apply Hx. rewrite Heq. apply in_map. assumption.
    + apply IH; assumption.
Qed.

Lemma sweep_wet_reports (df : DataFrame) (f : folder) (files : list string)
    (cw : counters * world) (n date_str : string) :
  (forall m, fault_of m (fs (snd cw)) = fault_of m f) ->
  In n files -> verdict_of df n = VDate date_str ->
  In (EvOk n date_str) (out (snd (sweep df false files cw)))
  /\ forall x, write_error (fault_of n f) = Some x ->
               In (EvError n x) (out (snd (sweep df false files cw))).
Proof.
  revert cw. induction files as [|m files IH]; intros cw Hf Hin Hv; [destruct Hin|].
  unfold sweep. cbn [fold_left]. fold (sweep df false files (effect df false m cw)).
  destruct Hin as [->|Hin].
  - assert (In (EvOk n date_str) (out (snd (effect df false n cw)))
            /\ forall x, write_error (fault_of n f) = Some x ->
                         In (EvError n x) (out (snd (effect df false n cw)))) as [H1 H2].
    { destruct cw as [c w]. cbn [snd] in Hf. unfold effect. rewrite Hv, Hf.
      destruct (write_error (fault_of n f)) as [x|]; cbn [snd out]; split.
      - apply in_or_app. right. left. reflexivity.
      - intros y Hy. injection Hy as <-. apply in_or_app. right. right. left. reflexivity.
      - apply in_or_app. right. left. reflexivity.
      - discriminate. }
    split; [apply sweep_keeps_events; assumption|].
    intros x Hx. apply sweep_keeps_events. apply H2. assumption.
  - apply IH; try assumption.
    intros k. rewrite effect_fault_of. apply Hf.
Qed.

Lemma fault_of_NoDup (f : folder) (e : entry) :
  NoDup (map name f) -> In e f -> fault_of (name e) f = Some (fault e).
Proof.
  intros Hnd Hin. unfold fault_of. rewrite find_entry_NoDup by assumption.
  reflexivity.
Qed.

Lemma fix_dates_fs (df : DataFrame) (dry_run : bool) (f : folder) (o : list event) :
  fs (snd (fix_dates df dry_run (mkWorld f o)))
  = if dry_run then f else map (restored df f) f.
Proof.
  rewrite fix_dates_sweep. cbn [snd say fs]. destruct dry_run.
  - apply (sweep_dry_fs df (map name f) (mkCounters 0 0, mkWorld f o)).
  - apply sweep_wet_fs.
Qed.

(** ** Names ending in [.csv] *)

Lemma lower_length (s : string) : String.length (Str.lower s) = String.length s.
Proof. induction s as [|c s IH]; cbn; [reflexivity|rewrite IH; reflexivity]. Qed.

Lemma lower_append (a b : string) :
  Str.lower (a ++ b) = (Str.lower a ++ Str.lower b)%string.
Proof. induction a as [|c a IH]; cbn; [reflexivity|rewrite IH; reflexivity]. Qed.

Lemma lower_drop (k : nat) (s : string) :
  Str.lower (Str.drop k s) = Str.drop k (Str.lower s).
Proof.
  revert s. induction k as [|k IH]; intros s; [reflexivity|].
  destruct s as [|c s]; [reflexivity|]. cbn. apply IH.
Qed.

Lemma append_length (a b : string) :
  String.length (a ++ b) = String.length a + String.length b.
Proof. induction a as [|c a IH]; cbn; [reflexivity|rewrite IH; reflexivity]. Qed.

Lemma drop_append (a b : string) : Str.drop (String.length a) (a ++ b) = b.
Proof. induction a as [|c a IH]; cbn; [reflexivity|exact IH]. Qed.

Lemma take_drop (k : nat) (s : string) : (Str.take k s ++ Str.drop k s)%string = s.
Proof.
  revert s. induction k as [|k IH]; intros s; [reflexivity|].
  destruct s as [|c s]; [reflexivity|]. cbn. rewrite IH. reflexivity.
Qed.

Lemma is_csv_iff (filename : string) :
  is_csv filename = true
  <-> exists stem ext, filename = (stem ++ ext)%string /\ Str.lower ext = ".csv".
Proof.
  unfold is_csv, Str.endswith. split.
  - intros H. apply andb_prop in H. destruct H as [_ H].
    apply String.eqb_eq in H. rewrite lower_length in H.
    exists (Str.take (String.length filename - String.length ".csv") filename),
           (Str.drop (String.length filename - String.length ".csv") filename).
    split; [symmetry; apply take_drop|].
    rewrite lower_drop. exact H.
  - intros (stem & ext & -> & Hext).
    rewrite lower_append, Hext, append_length, lower_length.
    apply andb_true_intro. split.
    + apply Nat.leb_le. lia.
    + replace (String.length stem + String.length ".csv" - String.length ".csv")
        with (String.length (Str.lower stem)) by (rewrite lower_length; lia).
      rewrite drop_append. apply String.eqb_refl.
Qed.

(** ** A table without one of the two columns *)



(** ** The summary line *)





(** ** When the console or the directory refuses *)

Lemma checked_process_printable (df : DataFrame) (dry_run : bool)
    (filename : string) (c : counters) (w : world) :
  printable filename = true ->
  Checked.process df dry_run filename c w = process df dry_run filename c w.
Proof.
  unfold printable, Checked.process, process. intros H.
  destruct (is_csv filename); [reflexivity|]. cbn [orb] in H.
  unfold Checked.try_body, try_body, Checked.print, print.
  cbn [Checked.encodable]. rewrite H. reflexivity.
Qed.

(** For a name the console refuses, the statements under [try:] raise
    before anything is written, and so does the handler. *)
Lemma checked_process_unprintable (df : DataFrame) (dry_run : bool)
    (filename : string) (c : counters) (w : world) :
  printable filename = false ->
  (exists x, Checked.try_body df dry_run filename c w = (Raise x, w))
  /\ Checked.process df dry_run filename c w = (Raise UnicodeEncodeError, w).
Proof.
  unfold printable, Checked.process. intros H.
  apply orb_false_elim in H. destruct H as [Hcsv Hutf]. rewrite Hcsv.
  unfold try_except, Checked.try_body, bind, lift, Checked.print.
  cbn [Checked.encodable]. rewrite Hutf.
  destruct (lookup df filename) as [[|raw rest]|e]; [eauto|  |eauto].
  destruct (date_string raw) as [date_str|e]; [|eauto].
  destruct dry_run; eauto.
Qed.

Lemma checked_loop_printable (df : DataFrame) (dry_run : bool)
    (files : list string) (c : counters) (w : world) :
  (forall n, In n files -> printable n = true) ->
  for_each files (Checked.process df dry_run) c w
  = for_each files (process df dry_run) c w.
Proof.
  revert c w. induction files as [|n files IH]; intros c w H; [reflexivity|].
  cbn [for_each]. unfold bind.
  rewrite checked_process_printable by (apply H; left; reflexivity).
  destruct (process df dry_run n c w) as [[c'|x] w']; [|reflexivity].
  apply IH. intros m Hm. apply H. right. assumption.
Qed.

(** The loop stops at the first name the console refuses, after the
    iterations of the names before it. *)
Lemma checked_loop_stops (df : DataFrame) (dry_run : bool)
    (pre : list string) (n : string) (post : list string) (c : counters) (w : world) :
  (forall m, In m pre -> printable m = true) -> printable n = false ->
  for_each (pre ++ n :: post) (Checked.process df dry_run) c w
  = (Raise UnicodeEncodeError, snd (sweep df dry_run pre (c, w))).
Proof.
  intros Hpre Hn. revert c w. induction pre as [|m pre IH]; intros c w.
  - cbn [app for_each]. unfold bind at 1.
    destruct (checked_process_unprintable df dry_run n c w Hn) as [_ ->].
    reflexivity.
  - cbn [app for_each]. unfold bind at 1.
    rewrite checked_process_printable by (apply Hpre; left; reflexivity).
    rewrite process_effect.
    rewrite IH by (intros k Hk; apply Hpre; right; assumption).
    unfold sweep. cbn [fold_left].
    destruct (effect df dry_run m (c, w)); reflexivity.
Qed.

(** Either every name can be printed, or there is a first one that
    cannot. *)
Lemma first_unprintable (files : list string) :
  (forall n, In n files -> printable n = true)
  \/ exists pre n post,
       files = pre ++ n :: post
       /\ (forall m, In m pre -> printable m = true)
       /\ printable n = false.
Proof.
  induction files as [|n files IH]; [left; intros n []|].
  destruct (printable n) eqn:Hn.
  - destruct IH as [IH|(pre & k & post & -> & Hpre & Hk)].
    + left. intros m [<-|Hm]; [assumption|apply IH; assumption].
    + right. exists (n :: pre), k, post. split; [reflexivity|]. split; [|assumption].
      intros m [<-|Hm]; [assumption|apply Hpre; assumption].
  - right. exists [], n, files. split; [reflexivity|]. split; [intros m []|assumption].
Qed.

Lemma checked_fix_dates_printable (df : DataFrame) (dry_run : bool) (w : world) :
  (forall n, In n (map name (fs w)) -> printable n = true) ->
  Checked.fix_dates None df dry_run w = fix_dates df dry_run w.
Proof.
  intros H. unfold Checked.fix_dates, fix_dates, Checked.listdir, listdir.
  unfold bind. rewrite checked_loop_printable by assumption.
  destruct (for_each _ _ _ w) as [[c|x] w']; reflexivity.
Qed.

Lemma checked_fix_dates_stops (df : DataFrame) (dry_run : bool) (w : world)
    (pre : list string) (n : string) (post : list string) :
  map name (fs w) = pre ++ n :: post ->
  (forall m, In m pre -> printable m = true) -> printable n = false ->
  Checked.fix_dates None df dry_run w
  = (Raise UnicodeEncodeError, snd (sweep df dry_run pre (mkCounters 0 0, w))).
Proof.
  intros Hfiles Hpre Hn. unfold Checked.fix_dates, Checked.listdir.
  unfold bind at 1 2. rewrite Hfiles.
  rewrite checked_loop_stops by assumption. reflexivity.
Qed.

Lemma checked_load_metadata (w : world) :
  Checked.load_metadata None w = load_metadata w.
Proof. reflexivity. Qed.

(** The script after a successful listing: it stops in [load_metadata] or
    goes on to [fix_dates] with the two informational lines printed. *)
Lemma checked_script_cases (dry_run : bool) (f : folder) :
  Checked.script None dry_run (mkWorld f [])
  = match fst (for_each (map name f) load_one [] (mkWorld f [])) with
    | Raise e => (Raise e, mkWorld f [])
    | Ret [] => (Raise FileNotFoundError, mkWorld f [])
    | Ret frames =>
        Checked.fix_dates None (concat frames) dry_run
                          (mkWorld f (preamble f frames))
    end.
Proof.
  unfold Checked.script. unfold bind at 1.
  rewrite checked_load_metadata, load_metadata_cases. cbn [fs].
  destruct (fst (for_each (map name f) load_one [] (mkWorld f [])))
    as [[|df frames]|e]; try reflexivity.
  unfold bind at 1.
  change (Checked.get_non_csv_extensions None) with get_non_csv_extensions.
  rewrite get_non_csv_extensions_world.
  reflexivity.
Qed.

(** On a folder of printable names the script is the one above. *)
Lemma checked_main_printable (f : folder) (dry_run : bool) :
  (forall n, In n (map name f) -> printable n = true) ->
  Checked.main (Checked.Folder None f) dry_run = main (Some f) dry_run.
Proof.
  intros H. unfold Checked.main. rewrite main_script.
  rewrite checked_script_cases, script_cases.
  destruct (fst (for_each (map name f) load_one [] (mkWorld f [])))
    as [[|df frames]|e]; try reflexivity.
  rewrite checked_fix_dates_printable by exact H. reflexivity.
Qed.

(** What the loop prints is about the names it went through. *)
Lemma sweep_about (df : DataFrame) (dry_run : bool) (files : list string)
    (cw : counters * world) (ev : event) :
  In ev (out (snd (sweep df dry_run files cw))) ->
  In ev (out (snd cw))
  \/ exists n, In n files /\ is_csv n = false /\ about ev = Some n.
Proof.
  revert cw. induction files as [|m files IH]; intros cw H; [left; exact H|].
  unfold sweep in H. cbn [fold_left] in H.
  fold (sweep df dry_run files (effect df dry_run m cw)) in H.
  destruct (IH _ H) as [H'|(n & Hn & Hcsv & Hab)];
    [|right; exists n; split; [right; assumption|split; assumption]].
  destruct cw as [c w]. unfold effect in H'.
  assert (verdict_of df m <> VCsv -> is_csv m = false) as Hm.
  { intros Hne. destruct (is_csv m) eqn:E; [|reflexivity].
    exfalso. apply Hne. apply verdict_csv. assumption. }
  destruct (verdict_of df m) eqn:Hv; try destruct dry_run;
    try destruct (write_error _);
    cbn [snd say out] in H';
    try (left; exact H');
    (apply in_app_or in H'; destruct H' as [H'|H']; [left; assumption|]);
    right; exists m;
    (split; [left; reflexivity|split; [apply Hm; discriminate|]]);
    repeat (destruct H' as [<-|H']; [reflexivity|]); destruct H'.
Qed.

Lemma summary_none (evs : list event) :
  (forall ev, In ev evs -> exists n, about ev = Some n) -> summary evs = None.
Proof.
  intros H. unfold summary. destruct (rev evs) as [|ev rest] eqn:Hrev; [reflexivity|].
  destruct (H ev) as (n & Hn).
  { apply in_rev. rewrite Hrev. left. reflexivity. }
  destruct ev; try reflexivity. discriminate Hn.
Qed.

Lemma printable_names (f : folder) :
  (forall n, In n (candidates f) -> Str.utf8 n = true) ->
  forall n, In n (map name f) -> printable n = true.
Proof.
  intros H n Hn. unfold printable. destruct (is_csv n) eqn:Hcsv; [reflexivity|].
  apply H. apply candidates_In. auto.
Qed.

(* ================================================================== *)
(** * The claims *)
(* ================================================================== *)

(** C1, the claim as stated fails: the year is not padded.  A date of the
    year 0999, which the input format accepts as a four-digit year, comes
    out with a three-digit year. *)
Lemma year_is_not_padded :
  Date.strptime DATE_FORMAT "Tuesday January 01,0999 12:00 AM GMT"
  = Ret (Date.mkDT 999 1 1 0 0)
  /\ date_string (CStr "Tuesday January 01,0999 12:00 AM GMT")
     = Ret "01.01.999 00:00"
  /\ zero_padded (Date.mkDT 999 1 1 0 0) = "01.01.0999 00:00"
  /\ ~ (forall text d,
          Date.strptime DATE_FORMAT text = Ret d ->
          date_string (CStr text) = Ret (zero_padded d)).
Proof.
  split; [vm_compute; reflexivity|]. split; [vm_compute; reflexivity|].
  split; [vm_compute; reflexivity|].
  intros H.
  specialize (H "Tuesday January 01,0999 12:00 AM GMT" (Date.mkDT 999 1 1 0 0)).
  vm_compute in H. specialize (H eq_refl). discriminate H.
Qed.

(** C1, amended.  The date [Monday January 02,2023 03:04 PM GMT] becomes
    [02.01.2023 15:04].  Every date string the script computes is the
    parsed instant written as the day and the month on two digits, the
    year in plain decimal and the 24-hour hour and the minute on two
    digits; the instant is a real date of the years 1 to 9999, and from
    the year 1000 on the string is the zero-padded form.  The text made of
    a weekday name, a month name, the day, a comma, the four-digit year,
    the 12-hour time, AM or PM and GMT gives the same day, month, year and
    minute with the hour converted to the 24-hour clock. *)
Theorem date_round_trip :
  date_string (CStr "Monday January 02,2023 03:04 PM GMT") = Ret "02.01.2023 15:04"
  /\ (forall raw date_str,
        date_string raw = Ret date_str ->
        exists text d,
          raw = CStr text
          /\ Date.strptime DATE_FORMAT text = Ret d
          /\ date_str
             = (Str.pad2 (Date.day d) ++ "." ++ Str.pad2 (Date.month d) ++ "."
                ++ Str.decimal (Date.year d) ++ " "
                ++ Str.pad2 (Date.hour d) ++ ":" ++ Str.pad2 (Date.minute d))%string
          /\ 1 <= Date.year d < 100 * 100
          /\ 1 <= Date.month d <= 12
          /\ 1 <= Date.day d <= Date.days_in_month (Date.year d) (Date.month d)
          /\ Date.hour d < 24 /\ Date.minute d < 60
          /\ (1000 <= Date.year d -> date_str = zero_padded d))
  /\ (forall w m d y h mi pm,
        w < 7 -> 1 <= m <= 12 -> 1 <= d <= Date.days_in_month y m ->
        1 <= y < 100 * 100 -> 1 <= h <= 12 -> mi < 60 ->
        date_string (CStr (icloud_text w m d y h mi pm))
        = Ret (Str.pad2 d ++ "." ++ Str.pad2 m ++ "." ++ Str.decimal y ++ " "
               ++ Str.pad2 (hour_of_day h pm) ++ ":" ++ Str.pad2 mi)%string).
Proof.
  split; [vm_compute; reflexivity|]. split.
  - intros raw date_str H.
    destruct (date_string_sound _ _ H) as (text & d & -> & Hp & ->).
    destruct (strptime_sound _ _ _ Hp) as (HY & HM & HD & Hh & Hmi).
    exists text, d.
    split; [reflexivity|]. split; [assumption|]. split; [reflexivity|].
    split; [assumption|]. split; [assumption|]. split; [assumption|].
    split; [assumption|]. split; [assumption|].
    intros Hy. unfold dotted, zero_padded. rewrite decimal_pad4 by lia. reflexivity.
  - intros. apply date_string_icloud_text; assumption.
Qed.

Lemma date_round_trip_witness :
  date_string (CStr (icloud_text 6 6 11 2023 9 15 false)) = Ret "11.06.2023 09:15".
Proof.
  apply (proj2 (proj2 date_round_trip) 6 6 11 2023 9 15 false);
    try (cbn; lia).
Defined.



(** C3.  The exceptions of the statements under [try:] are caught, but the
    handler prints the file name itself, and its [print] is not under
    [try:].  For a file name the console can encode, an exception raised
    while the file is looked up, its date parsed or its timestamps written
    gives one error line for that file and the error counter one higher,
    and the loop goes on; in a folder of such names the run never raises
    and ends with the summary, whose error total is the number of error
    lines.  For a name the console cannot encode, the statements under
    [try:] raise, the handler raises in turn, and the run ends there with
    [UnicodeEncodeError]: the entries after it are not processed and no
    summary is printed.  With a malformed date for [photo2.jpg] the run
    reports that one error and handles the files before and after it.  In
    the folder with a picture named in Latin-1 and a table without
    [imgName], the lookup raises [KeyError] and the run ends at that
    picture, whereas the same [KeyError] for [photo1.jpg] alone is reported
    and counted. *)
Theorem unprintable_name_ends_the_run (df : DataFrame) (dry_run : bool) :
  (forall filename post c w x w1,
      is_csv filename = false -> Str.utf8 filename = true ->
      Checked.try_body df dry_run filename c w = (Raise x, w1) ->
      Checked.process df dry_run filename c w
      = (Ret (mkCounters (success c) (errors c + 1)),
         mkWorld (fs w1) (out w1 ++ [EvError filename x]))
      /\ for_each (filename :: post) (Checked.process df dry_run) c w
         = for_each post (Checked.process df dry_run)
                    (mkCounters (success c) (errors c + 1))
                    (mkWorld (fs w1) (out w1 ++ [EvError filename x])))
  /\ (forall f,
        (forall n, In n (candidates f) -> Str.utf8 n = true) ->
        exists w' evs s,
          Checked.fix_dates None df dry_run (mkWorld f []) = (Ret tt, w')
          /\ out w' = evs ++ [EvDone s (count_errors (out w'))]
          /\ (forall n, In n (candidates f) ->
                        exists ev, In ev (out w') /\ about ev = Some n)
          /\ (forall n x, In (EvError n x) (out w') -> In n (candidates f)))
  /\ (forall filename post c w,
        is_csv filename = false -> Str.utf8 filename = false ->
        (exists x, Checked.try_body df dry_run filename c w = (Raise x, w))
        /\ Checked.process df dry_run filename c w = (Raise UnicodeEncodeError, w)
        /\ for_each (filename :: post) (Checked.process df dry_run) c w
           = (Raise UnicodeEncodeError, w))
  /\ (forall pre e post,
        (forall n, In n (candidates pre) -> Str.utf8 n = true) ->
        is_csv (name e) = false -> Str.utf8 (name e) = false ->
        exists w',
          Checked.fix_dates None df dry_run (mkWorld (pre ++ e :: post) [])
          = (Raise UnicodeEncodeError, w')
          /\ summary (out w') = None
          /\ (forall ev, In ev (out w') ->
                         exists n, In n (candidates pre) /\ about ev = Some n))
  /\ Checked.fix_dates None (Sample.table Sample.malformed_records) true
                        (mkWorld Sample.malformed [])
     = (Ret tt,
        mkWorld Sample.malformed
                [EvDryRun "photo1.jpg" "11.06.2023 09:15";
                 EvError "photo2.jpg" (ValueError "time data doesn't match format");
                 EvDryRun "photo3.jpg" "11.06.2023 09:15";
                 EvDone 2 1])
  /\ lookup Sample.other_table Sample.latin1_name = Raise (KeyError "imgName")
  /\ Checked.main (Checked.Folder None Sample.latin1) dry_run
     = (Raise UnicodeEncodeError, Some Sample.latin1,
        [EvLoaded 1 1; EvMedia 2 ["jpg"]])
  /\ Checked.main (Checked.Folder None (tl Sample.latin1)) dry_run
     = (Ret tt, Some (tl Sample.latin1),
        [EvLoaded 1 1; EvMedia 1 ["jpg"];
         EvError "photo1.jpg" (KeyError "imgName"); EvDone 0 1]).
Proof.
  split; [|split; [|split; [|split; [|split; [|split; [|split]]]]]].
  - intros filename post c w x w1 Hcsv Hutf Hbody.
    assert (Checked.process df dry_run filename c w
            = (Ret (mkCounters (success c) (errors c + 1)),
               mkWorld (fs w1) (out w1 ++ [EvError filename x]))) as Hp.
    { unfold Checked.process. rewrite Hcsv. unfold try_except. rewrite Hbody.
      unfold bind, Checked.print. cbn [Checked.encodable]. rewrite Hutf.
      reflexivity. }
    split; [exact Hp|].
    cbn [for_each]. unfold bind at 1. rewrite Hp. reflexivity.
  - intros f Hall.
    rewrite checked_fix_dates_printable by (apply printable_names; exact Hall).
    fold (run df dry_run f). rewrite run_sweep.
    set (cw := sweep df dry_run (map name f) (mkCounters 0 0, mkWorld f [])).
    exists (say (snd cw) [EvDone (success (fst cw)) (errors (fst cw))]),
           (out (snd cw)), (success (fst cw)).
    split; [reflexivity|]. cbn [say out]. split; [|split].
    + rewrite count_errors_done. do 3 f_equal.
      apply sweep_counts_errors. reflexivity.
    + intros n Hn. apply candidates_In in Hn. destruct Hn as [Hin Hcsv].
      destruct (sweep_touches df dry_run (map name f)
                  (mkCounters 0 0, mkWorld f []) n Hin Hcsv) as (ev & Hev & Hab).
      exists ev. split; [|assumption]. apply in_or_app. left. assumption.
    + intros n x H. apply in_before_done in H; [|discriminate].
      apply sweep_errors_named in H. destruct H as [[]|H].
      apply candidates_In. assumption.
  - intros filename post c w Hcsv Hutf.
    assert (printable filename = false) as Hn.
    { unfold printable. rewrite Hcsv, Hutf. reflexivity. }
    destruct (checked_process_unprintable df dry_run filename c w Hn) as [Hbody Hp].
    split; [exact Hbody|]. split; [exact Hp|].
    cbn [for_each]. unfold bind at 1. rewrite Hp. reflexivity.
  - intros pre e post Hall Hcsv Hutf.
    assert (printable (name e) = false) as Hn.
    { unfold printable. rewrite Hcsv, Hutf. reflexivity. }
    rewrite (checked_fix_dates_stops df dry_run (mkWorld (pre ++ e :: post) [])
               (map name pre) (name e) (map name post));
      [|cbn [fs]; rewrite map_app; reflexivity
       |apply printable_names; exact Hall|exact Hn].
    eexists. split; [reflexivity|].
    assert (forall ev,
               In ev (out (snd (sweep df dry_run (map name pre)
                                      (mkCounters 0 0, mkWorld (pre ++ e :: post) [])))) ->
               exists n, In n (candidates pre) /\ about ev = Some n) as Hab.
    { intros ev Hev. apply sweep_about in Hev.
      destruct Hev as [[]|(n & Hin & Hc & Hab)].
      exists n. split; [apply candidates_In; auto|assumption]. }
    split; [|exact Hab].
    apply summary_none. intros ev Hev. destruct (Hab ev Hev) as (n & _ & Hn').
    exists n. assumption.
  - vm_compute. reflexivity.
  - reflexivity.
  - destruct dry_run; vm_compute; reflexivity.
  - destruct dry_run; vm_compute; reflexivity.
Qed.

Lemma unprintable_name_ends_the_run_witness :
  Checked.process Sample.other_table false Sample.latin1_name
                  (mkCounters 0 0) (mkWorld Sample.latin1 [])
  = (Raise UnicodeEncodeError, mkWorld Sample.latin1 []).
Proof.
  apply (proj1 (proj2 (proj1 (proj2 (proj2
           (unprintable_name_ends_the_run Sample.other_table false)))
           Sample.latin1_name [] (mkCounters 0 0) (mkWorld Sample.latin1 [])
           eq_refl eq_refl))).
Defined.




(** C5.  A row is selected for a file exactly when its [imgName] cell is the
    text of the file name, character for character; the lookup returns the
    dates of the selected rows in row order, so the date used is the one of
    the first row that names the file; the rows of the loaded table are the
    rows of the CSV files in listing order, each file's rows in their
    order.  A name that differs in letter case or carries a path prefix
    selects nothing, and of two sidecars naming the same picture the first
    one listed decides the date. *)
Theorem lookup_is_exact_and_first (filename : string) :
  (forall c, cell_eq filename c = true <-> c = CStr filename)
  /\ (forall df,
        has_column df "imgName" = true ->
        has_column df "originalCreationDate" = true ->
        lookup df filename
        = Ret (map (row_get "originalCreationDate")
                   (filter (fun r => cell_eq filename (row_get "imgName" r))
                           (rows df))))
  /\ (forall df pre r post date_str c w,
        is_csv filename = false ->
        has_column df "imgName" = true ->
        has_column df "originalCreationDate" = true ->
        rows df = pre ++ r :: post ->
        (forall r', In r' pre -> row_get "imgName" r' <> CStr filename) ->
        row_get "imgName" r = CStr filename ->
        date_string (row_get "originalCreationDate" r) = Ret date_str ->
        process df true filename c w
        = (Ret (mkCounters (success c + 1) (errors c)),
           mkWorld (fs w) (out w ++ [EvDryRun filename date_str]))
        /\ (fault_of filename (fs w) = Some NoFault ->
            process df false filename c w
            = (Ret (mkCounters (success c + 1) (errors c)),
               mkWorld (update filename (stamp_both date_str) (fs w))
                       (out w ++ [EvOk filename date_str]))))
  /\ (forall f frames,
        Forall2 (fun n df => csv_of f n = Ret df) (csv_names f) frames ->
        frames <> [] ->
        fst (load_metadata (mkWorld f [])) = Ret (concat frames)
        /\ rows (concat frames) = flat_map rows frames)
  /\ lookup (Sample.table [("IMG_1.JPG", Sample.june)]) "img_1.jpg" = Ret []
  /\ lookup (Sample.table [("photo1.jpg", Sample.june)]) "./photo1.jpg" = Ret []
  /\ snd (main (Some Sample.twice) false)
     = [EvLoaded 2 2; EvMedia 1 ["jpg"];
        EvOk "photo1.jpg" "11.06.2023 09:15"; EvDone 1 0].
Proof.
  split; [apply cell_eq_iff|]. split; [|split; [|split]].
  - intros df Hi Hd. apply lookup_columns; assumption.
  - intros df pre r post date_str c w Hcsv Hi Hd Hrows Hpre Hr Hdate.
    pose proof (verdict_first_match _ _ _ _ _ _ Hcsv Hi Hd Hrows Hpre Hr Hdate) as Hv.
    rewrite !process_effect. unfold effect. rewrite Hv. split; [reflexivity|].
    intros Hf. unfold written. rewrite Hf. reflexivity.
  - intros f frames Hall Hne.
    destruct (load_metadata_ok _ _ Hall Hne) as [-> _]. split; reflexivity.
  - repeat split; vm_compute; reflexivity.
Qed.

Lemma lookup_is_exact_and_first_witness :
  process (concat [Sample.table [("photo1.jpg", Sample.june)];
                   Sample.table [("photo1.jpg", Sample.january)]])
          true "photo1.jpg" (mkCounters 0 0) (mkWorld Sample.twice [])
  = (Ret (mkCounters 1 0),
     mkWorld Sample.twice [EvDryRun "photo1.jpg" "11.06.2023 09:15"]).
Proof.
  apply (proj1 (proj2 (proj2 (lookup_is_exact_and_first "photo1.jpg")))
           (concat [Sample.table [("photo1.jpg", Sample.june)];
                    Sample.table [("photo1.jpg", Sample.january)]])
           []
           [("imgName", CStr "photo1.jpg"); ("originalCreationDate", CStr Sample.june)]
           [[("imgName", CStr "photo1.jpg"); ("originalCreationDate", CStr Sample.january)]]
           "11.06.2023 09:15" (mkCounters 0 0) (mkWorld Sample.twice [])).
  - reflexivity.
  - reflexivity.
  - reflexivity.
  - reflexivity.
  - simpl. intros r' [].
  - reflexivity.
  - vm_compute. reflexivity.
Defined.

(** C6, the claim as stated fails: a folder that is a directory and holds a
    readable sidecar is still abandoned before any file is processed when
    one of its entries ending in [.csv] cannot be read (here a
    sub-directory), and so is a directory that cannot be listed. *)
Lemma abort_with_metadata_present :
  Checked.main (Checked.Folder None Sample.album_dir) false
  = (Raise IsADirectoryError, Some Sample.album_dir, [])
  /\ csv_names Sample.album_dir = ["photo1.csv"; "album.csv"]
  /\ Checked.main (Checked.Folder (Some PermissionError) Sample.one_photo) false
     = (Raise PermissionError, Some Sample.one_photo, [])
  /\ csv_names Sample.one_photo = ["photo1.csv"]
  /\ ~ (forall t dry_run e,
          fst (fst (Checked.main t dry_run)) = Raise e ->
          t = Checked.NotADirectory
          \/ exists refusal f, t = Checked.Folder refusal f /\ csv_names f = []).
Proof.
  split; [vm_compute; reflexivity|]. split; [vm_compute; reflexivity|].
  split; [vm_compute; reflexivity|]. split; [vm_compute; reflexivity|].
  intros H.
  destruct (H (Checked.Folder None Sample.album_dir) false IsADirectoryError)
    as [H'|(r & f & Hf & Hn)].
  - vm_compute. reflexivity.
  - discriminate.
  - injection Hf as _ <-. vm_compute in Hn. discriminate.
Qed.

(** C6, amended.  The run stops before any file is processed, with nothing
    printed and the folder untouched, in exactly four cases: the target is
    not a directory; [os.listdir] raises for it, and its exception is the
    one of the run; the folder has no entry ending in [.csv] (the "no
    metadata found" error); [read_csv] raises for an entry ending in
    [.csv], and that exception is the one of the run.  A run that raises
    in any other way has printed its first lines and stopped inside the
    loop, at a file whose name the console cannot encode. *)
Theorem abort_conditions (dry_run : bool) :
  Checked.main Checked.NotADirectory dry_run = (Raise NotADirectoryError, None, [])
  /\ (forall x f,
        Checked.main (Checked.Folder (Some x) f) dry_run = (Raise x, Some f, []))
  /\ (forall f,
        csv_names f = [] ->
        Checked.main (Checked.Folder None f) dry_run
        = (Raise FileNotFoundError, Some f, []))
  /\ (forall f n e,
        In n (csv_names f) -> csv_of f n = Raise e ->
        exists e', Checked.main (Checked.Folder None f) dry_run
                   = (Raise e', Some f, []))
  /\ (forall t e after evs,
        Checked.main t dry_run = (Raise e, after, evs) ->
        (evs = [] /\ after = Checked.content t
         /\ ((t = Checked.NotADirectory /\ e = NotADirectoryError)
             \/ (exists f, t = Checked.Folder (Some e) f)
             \/ (exists f, t = Checked.Folder None f
                           /\ csv_names f = [] /\ e = FileNotFoundError)
             \/ (exists f n, t = Checked.Folder None f
                             /\ In n (csv_names f) /\ csv_of f n = Raise e)))
        \/ (evs <> [] /\ e = UnicodeEncodeError
            /\ exists f n, t = Checked.Folder None f
                           /\ In n (candidates f) /\ Str.utf8 n = false)).
Proof.
  split; [reflexivity|]. split; [reflexivity|]. split; [|split].
  - intros f Hnone. unfold Checked.main. rewrite checked_script_cases.
    destruct (@load_loop_ok (map name f) [] (mkWorld f [])) as (more & Hrun & Hmore).
    { intros n Hin Hcsv. exfalso.
      assert (In n (csv_names f)) as Hn by (apply filter_In; auto).
      rewrite Hnone in Hn. destruct Hn. }
    fold (csv_names f) in Hmore. rewrite Hnone in Hmore. inversion Hmore; subst.
    rewrite Hrun. reflexivity.
  - intros f n e Hn He. apply filter_In in Hn. destruct Hn as [Hin Hcsv].
    destruct (@load_loop_stops (map name f) [] (mkWorld f []) n e Hin Hcsv He)
      as (e' & Hrun).
    exists e'. unfold Checked.main. rewrite checked_script_cases, Hrun. reflexivity.
  - intros t e after evs. destruct t as [|[x|] f].
    + cbn. intros H. injection H as <- <- <-. left.
      split; [reflexivity|]. split; [reflexivity|]. left. auto.
    + cbn. intros H. injection H as <- <- <-. left.
      split; [reflexivity|]. split; [reflexivity|]. right. left. eauto.
    + unfold Checked.main. rewrite checked_script_cases.
      destruct (for_each (map name f) load_one [] (mkWorld f [])) as [[frames|e'] w']
        eqn:Hrun; cbn [fst].
      * destruct (load_loop_ret _ _ _ _ _ Hrun) as (more & -> & Hmore).
        cbn [app fs] in *. fold (csv_names f) in Hmore.
        destruct more as [|df more].
        { cbn [fst snd fs out]. intros H. injection H as <- <- <-. left.
          split; [reflexivity|]. split; [reflexivity|]. right. right. left.
          exists f. split; [reflexivity|]. split; [|reflexivity].
          inversion Hmore. reflexivity. }
        destruct (first_unprintable (map name f))
          as [Hall|(pre & n & post & Hfiles & Hpre & Hn)].
        { rewrite checked_fix_dates_printable by exact Hall.
          rewrite fix_dates_sweep. cbn [fst]. discriminate. }
        rewrite (checked_fix_dates_stops (concat (df :: more)) dry_run
                   (mkWorld f (preamble f (df :: more))) pre n post Hfiles Hpre Hn).
        cbn [fst]. intros H. injection H as <- _ <-. right.
        split; [|split; [reflexivity|]].
        { destruct (sweep_out (concat (df :: more)) dry_run pre
                      (mkCounters 0 0, mkWorld f (preamble f (df :: more))))
            as (more_evs & ->).
          cbn [snd out preamble app]. discriminate. }
        exists f, n. split; [reflexivity|].
        unfold printable in Hn. apply orb_false_elim in Hn. destruct Hn as [Hcsv Hutf].
        split; [|assumption]. apply candidates_In. split; [|assumption].
        rewrite Hfiles. apply in_or_app. right. left. reflexivity.
      * cbn [fst snd fs out]. intros H. injection H as <- <- <-. left.
        split; [reflexivity|]. split; [reflexivity|]. right. right. right.
        destruct (load_loop_raise _ _ _ _ _ Hrun) as (_ & n & Hin & Hcsv & He).
        exists f, n. split; [reflexivity|]. split; [apply filter_In; auto|exact He].
Qed.

Lemma abort_conditions_witness :
  Checked.main (Checked.Folder None [Sample.photo "photo1.jpg" NoFault]) false
  = (Raise FileNotFoundError, Some [Sample.photo "photo1.jpg" NoFault], []).
Proof.
  apply (proj1 (proj2 (proj2 (abort_conditions false)))
           [Sample.photo "photo1.jpg" NoFault]).
  reflexivity.
Defined.

(** C7.  The script hands [filedate] the date string, which has the day
    first, and [filedate] reads the first number as the month whenever it
    is at most 12.  For [photo1.jpg] with the date
    [Sunday June 11,2023 09:15 AM GMT] the run announces
    [11.06.2023 09:15] and reports one success and no error, but both
    timestamps become 6 November 2023 09:15, not 11 June; on a file whose
    creation time cannot be set only the modification time changes.  In a
    folder with distinct names every matched entry with a parseable date
    gets the time read month first from its date string, the same for both
    timestamps when both are written, and that time is the parsed instant
    only when the day is above 12 or equals the month (and the year has
    three digits or more). *)
Theorem timestamps_are_read_month_first :
  main (Some Sample.one_photo) false
  = (Ret tt,
     Some [mkEntry "photo1.jpg" (Regular "JFIF" (Raise (CsvError "cannot decode")))
                   (Filedate.mkStamp (Filedate.Exact 2023) 11 6 9 15)
                   (Filedate.mkStamp (Filedate.Exact 2023) 11 6 9 15) NoFault;
           Sample.sidecar "photo1.csv" [("photo1.jpg", Sample.june)]],
     [EvLoaded 1 1; EvMedia 1 ["jpg"];
      EvOk "photo1.jpg" "11.06.2023 09:15"; EvDone 1 0])
  /\ Date.strptime DATE_FORMAT Sample.june = Ret (Date.mkDT 2023 6 11 9 15)
  /\ same_instant (Date.mkDT 2023 6 11 9 15)
     = Filedate.mkStamp (Filedate.Exact 2023) 6 11 9 15
  /\ fs (snd (run (Sample.table [("photo1.jpg", Sample.june)]) false
                  [Sample.photo "photo1.jpg" NoCreationTime]))
     = [mkEntry "photo1.jpg" (Regular "JFIF" (Raise (CsvError "cannot decode")))
                Sample.old_stamp
                (Filedate.mkStamp (Filedate.Exact 2023) 11 6 9 15) NoCreationTime]
  /\ (forall df f e raw rest date_str,
        NoDup (map name f) -> In e f -> is_csv (name e) = false ->
        lookup df (name e) = Ret (raw :: rest) ->
        date_string raw = Ret date_str ->
        exists text d,
          raw = CStr text
          /\ Date.strptime DATE_FORMAT text = Ret d
          /\ In (EvOk (name e) date_str) (out (snd (run df false f)))
          /\ (fault e = NoFault ->
              In (mkEntry (name e) (kind e) (month_first d) (month_first d) (fault e))
                 (fs (snd (run df false f))))
          /\ (fault e = NoCreationTime ->
              In (mkEntry (name e) (kind e) (created e) (month_first d) (fault e))
                 (fs (snd (run df false f))))
          /\ (month_first d = same_instant d
              <-> 100 <= Date.year d
                  /\ (12 < Date.day d \/ Date.day d = Date.month d))).
Proof.
  split; [vm_compute; reflexivity|]. split; [vm_compute; reflexivity|].
  split; [reflexivity|]. split; [vm_compute; reflexivity|].
  intros df f e raw rest date_str Hnd Hin Hcsv Hl Hd.
  destruct (date_string_read _ _ Hd) as (text & d & -> & Hp & -> & Hread).
  exists text, d. split; [reflexivity|]. split; [assumption|].
  assert (verdict_of df (name e) = VDate (dotted d)) as Hv.
  { apply verdict_date_iff. split; [assumption|]. exists (CStr text), rest. auto. }
  pose proof (fault_of_NoDup f e Hnd Hin) as Hf.
  assert (In (restored df f e) (fs (snd (run df false f)))) as Hres.
  { rewrite (run_fs df false f). apply in_map. assumption. }
  unfold restored in Hres. rewrite Hv, Hf in Hres.
  split; [|split; [|split]].
  - rewrite run_out. apply in_or_app. left.
    apply (sweep_wet_reports df f (map name f) (mkCounters 0 0, mkWorld f []));
      [reflexivity|apply in_map; assumption|assumption].
  - intros Hflt. rewrite Hflt in Hres. unfold stamp_both in Hres.
    rewrite Hread in Hres. exact Hres.
  - intros Hflt. rewrite Hflt in Hres. unfold stamp_modified in Hres.
    rewrite Hread in Hres. exact Hres.
  - unfold month_first, same_instant, year_read_of.
    destruct (Nat.ltb_spec 12 (Date.day d)) as [H12|H12];
      destruct (Nat.leb_spec 100 (Date.year d)) as [Hy|Hy]; split.
    + intros _. split; [assumption|left; assumption].
    + intros _. reflexivity.
    + intros H. discriminate H.
    + intros [H _]. lia.
    + intros H. injection H as H1 H2. split; [assumption|right; assumption].
    + intros [_ [H|H]]; [lia|rewrite H; reflexivity].
    + intros H. discriminate H.
    + intros [H _]. lia.
Qed.

Lemma timestamps_are_read_month_first_witness :
  exists text d,
    CStr Sample.june = CStr text
    /\ Date.strptime DATE_FORMAT text = Ret d
    /\ In (EvOk "photo1.jpg" "11.06.2023 09:15")
          (out (snd (run (Sample.table [("photo1.jpg", Sample.june)]) false
                         Sample.one_photo)))
    /\ (NoFault = NoFault ->
        In (mkEntry "photo1.jpg" (Regular "JFIF" (Raise (CsvError "cannot decode")))
                    (month_first d) (month_first d) NoFault)
           (fs (snd (run (Sample.table [("photo1.jpg", Sample.june)]) false
                         Sample.one_photo))))
    /\ (NoFault = NoCreationTime ->
        In (mkEntry "photo1.jpg" (Regular "JFIF" (Raise (CsvError "cannot decode")))
                    Sample.old_stamp (month_first d) NoFault)
           (fs (snd (run (Sample.table [("photo1.jpg", Sample.june)]) false
                         Sample.one_photo))))
    /\ (month_first d = same_instant d
        <-> 100 <= Date.year d /\ (12 < Date.day d \/ Date.day d = Date.month d)).
Proof.
  refine (proj2 (proj2 (proj2 (proj2 timestamps_are_read_month_first)))
            (Sample.table [("photo1.jpg", Sample.june)]) Sample.one_photo
            (Sample.photo "photo1.jpg" NoFault) (CStr Sample.june) []
            "11.06.2023 09:15" _ _ _ _ _).
  - simpl. repeat constructor; simpl; intuition discriminate.
  - simpl. left. reflexivity.
  - reflexivity.
  - reflexivity.
  - vm_compute. reflexivity.
Defined.

(** C8.  A name is a CSV name exactly when it ends in [.csv] in some
    letter case; for such a name an iteration does nothing at all, before
    any lookup.  After a run every entry keeps its name and its node, so
    its contents, an entry with a CSV name is the entry it was, and an
    entry that did change belongs to a run that writes, is not a CSV name,
    and has a matching row with a parseable date.  The same holds for the
    folder [main] leaves behind. *)
Theorem only_matched_timestamps_change (df : DataFrame) (dry_run : bool) :
  (forall filename,
      is_csv filename = true
      <-> exists stem ext,
            filename = (stem ++ ext)%string /\ Str.lower ext = ".csv")
  /\ (forall filename c w,
        is_csv filename = true -> process df dry_run filename c w = (Ret c, w))
  /\ (forall f,
        Forall2
          (fun e e' =>
             name e' = name e /\ kind e' = kind e /\ fault e' = fault e
             /\ (is_csv (name e) = true -> e' = e)
             /\ (e' <> e ->
                 dry_run = false /\ is_csv (name e) = false
                 /\ exists raw rest date_str,
                      lookup df (name e) = Ret (raw :: rest)
                      /\ date_string raw = Ret date_str))
          f (fs (snd (run df dry_run f))))
  /\ (forall f r f' evs,
        main (Some f) dry_run = (r, Some f', evs) ->
        Forall2
          (fun e e' =>
             name e' = name e /\ kind e' = kind e
             /\ (is_csv (name e) = true -> e' = e))
          f f').
Proof.
  assert (forall d f e,
             name (restored d f e) = name e /\ kind (restored d f e) = kind e
             /\ fault (restored d f e) = fault e
             /\ (is_csv (name e) = true -> restored d f e = e)
             /\ (restored d f e <> e ->
                 is_csv (name e) = false
                 /\ exists raw rest date_str,
                      lookup d (name e) = Ret (raw :: rest)
                      /\ date_string raw = Ret date_str)) as Hres.
  { intros d f e.
    split; [apply restored_name|]. split; [apply restored_kind|].
    split; [apply restored_fault|]. unfold restored. split.
    - intros Hcsv. apply (verdict_csv d) in Hcsv. rewrite Hcsv. reflexivity.
    - destruct (verdict_of d (name e)) as [| |s|x] eqn:Hv;
        try (intros Hne; exfalso; apply Hne; reflexivity).
      intros _. apply verdict_date_iff in Hv.
      destruct Hv as (Hcsv & raw & rest & Hl & Hd).
      split; [assumption|]. exists raw, rest, s. auto. }
  split; [apply is_csv_iff|]. split; [|split].
  - intros filename c w Hcsv. unfold process. rewrite Hcsv. reflexivity.
  - intros f. rewrite run_fs. destruct dry_run.
    + apply Forall2_same. intros e _.
      split; [reflexivity|]. split; [reflexivity|]. split; [reflexivity|].
      split; [reflexivity|]. intros Hne. exfalso. apply Hne. reflexivity.
    + apply Forall2_map_r. intros e _.
      destruct (Hres df f e) as (H1 & H2 & H3 & H4 & H5).
      split; [assumption|]. split; [assumption|]. split; [assumption|].
      split; [assumption|]. intros Hne. split; [reflexivity|]. apply H5. assumption.
  - intros f r f' evs. rewrite main_script, script_cases.
    destruct (fst (for_each (map name f) load_one [] (mkWorld f [])))
      as [[|d frames]|x].
    + cbn. intros H. injection H as _ <- _.
      apply Forall2_same. intros e _. auto.
    + intros H. injection H as _ <- _. rewrite fix_dates_fs. destruct dry_run.
      * apply Forall2_same. intros e _. auto.
      * apply Forall2_map_r. intros e _.
        destruct (Hres (concat (d :: frames)) f e) as (H1 & H2 & _ & H4 & _). auto.
    + cbn. intros H. injection H as _ <- _.
      apply Forall2_same. intros e _. auto.
Qed.

Lemma only_matched_timestamps_change_witness :
  process Sample.other_table false "EXPORT.CSV" (mkCounters 0 0)
          (mkWorld [Sample.photo "EXPORT.CSV" NoFault] [])
  = (Ret (mkCounters 0 0), mkWorld [Sample.photo "EXPORT.CSV" NoFault] []).
Proof.
  apply (proj1 (proj2 (only_matched_timestamps_change Sample.other_table false))).
  reflexivity.
Defined.







(* ================================================================== *)
(** * Further properties of the script *)
(* ================================================================== *)

(** ** Extensions *)

Lemma rfind_drop (c : ascii) (s : string) (i : nat) :
  Str.rfind c s = Some i ->
  exists rest, Str.drop i s = String c rest /\ Str.rfind c rest = None.
Proof.
  revert i. induction s as [|a s IH]; intros i; cbn [Str.rfind]; [discriminate|].
  destruct (Str.rfind c s) as [j|] eqn:Hr.
  - intros H. injection H as <-. cbn [Str.drop]. apply IH. reflexivity.
  - destruct (Ascii.eqb_spec a c) as [->|_]; [|discriminate].
    intros H. injection H as <-. exists s. split; [reflexivity|assumption].
Qed.

Lemma rfind_none_head (c a : ascii) (s : string) :
  Str.rfind c (String a s) = None -> Ascii.eqb a c = false /\ Str.rfind c s = None.
Proof.
  cbn [Str.rfind]. destruct (Str.rfind c s); [discriminate|].
  destruct (Ascii.eqb a c); [discriminate|]. auto.
Qed.

Lemma lstrip_without (c : ascii) (s : string) :
  Str.rfind c s = None -> Str.lstrip c s = s.
Proof.
  destruct s as [|a s]; [reflexivity|].
  intros H. apply rfind_none_head in H. destruct H as [H _].
  cbn [Str.lstrip]. rewrite H. reflexivity.
Qed.

(** The extension [splitext] gives is empty, or a dot followed by text
    without a dot. *)
Lemma splitext_ext_shape (file : string) :
  splitext_ext file = EmptyString
  \/ exists rest, splitext_ext file = String "." rest /\ Str.rfind "." rest = None.
Proof.
  unfold splitext_ext. destruct (Str.rfind "." file) as [i|] eqn:Hr; [|left; reflexivity].
  destruct (Str.has_other "." i file); [|left; reflexivity].
  right. apply rfind_drop. assumption.
Qed.

Lemma rfind_append (c : ascii) (stem t : string) :
  Str.rfind c t = None ->
  Str.rfind c (stem ++ String c t) = Some (String.length stem).
Proof.
  intros Ht. induction stem as [|a stem IH]; cbn [String.append String.length Str.rfind].
  - rewrite Ht, Ascii.eqb_refl. reflexivity.
  - rewrite IH. reflexivity.
Qed.

Lemma lower_dot (c : ascii) : Str.lower_ascii c = "."%char -> c = "."%char.
Proof.
  unfold Str.lower_ascii.
  destruct ((65 <=? nat_of_ascii c) && (nat_of_ascii c <=? 90)) eqn:Hup; [|auto].
  apply andb_prop in Hup. destruct Hup as [H1 H2].
  apply Nat.leb_le in H1. apply Nat.leb_le in H2.
  intros H. apply (f_equal nat_of_ascii) in H.
  rewrite nat_ascii_embedding in H by lia. cbn in H. lia.
Qed.

Lemma lower_no_dot (t : string) :
  Str.rfind "." (Str.lower t) = None -> Str.rfind "." t = None.
Proof.
  induction t as [|a t IH]; [reflexivity|].
  cbn [Str.lower]. intros H. apply rfind_none_head in H. destruct H as [Ha Ht].
  cbn [Str.rfind]. rewrite (IH Ht).
  destruct (Ascii.eqb_spec a ".") as [->|_]; [discriminate Ha|reflexivity].
Qed.

Lemma lower_string_head (c : ascii) (s t : string) :
  Str.lower s = String c t ->
  exists a s', s = String a s' /\ Str.lower_ascii a = c /\ Str.lower s' = t.
Proof.
  destruct s as [|a s']; cbn [Str.lower]; [discriminate|].
  intros H. injection H as <- <-. exists a, s'. auto.
Qed.

(** A name with an extension is a CSV name exactly when the extension
    text is [csv]. *)
Lemma is_csv_extension (file : string) :
  splitext_ext file <> EmptyString ->
  (is_csv file = true <-> extension file = "csv").
Proof.
  intros Hext. unfold extension.
  destruct (splitext_ext_shape file) as [H|(rest & Hrest & Hnd)]; [contradiction|].
  rewrite Hrest. cbn [Str.lstrip]. rewrite Ascii.eqb_refl.
  rewrite (lstrip_without _ _ Hnd).
  assert (exists stem, file = (stem ++ String "." rest)%string) as (stem & Hfile).
  { unfold splitext_ext in Hrest.
    destruct (Str.rfind "." file) as [i|]; [|discriminate].
    destruct (Str.has_other "." i file); [|discriminate].
    exists (Str.take i file). rewrite <- Hrest. symmetry. apply take_drop. }
  split.
  - intros Hcsv. apply is_csv_iff in Hcsv.
    destruct Hcsv as (stem' & ext & Hfile' & Hlow).
    apply lower_string_head in Hlow. destruct Hlow as (d & t & -> & Hd & Hlow).
    apply lower_dot in Hd. subst d.
    assert (Str.rfind "." t = None) as Ht.
    { apply lower_no_dot. rewrite Hlow. reflexivity. }
    assert (Str.drop (String.length stem) file = Str.drop (String.length stem') file) as Hsame.
    { f_equal.
      pose proof (rfind_append "." stem rest Hnd) as R1. rewrite <- Hfile in R1.
      pose proof (rfind_append "." stem' t Ht) as R2. rewrite <- Hfile' in R2.
      congruence. }
    rewrite Hfile in Hsame at 1. rewrite Hfile' in Hsame at 1.
    rewrite !drop_append in Hsame. injection Hsame as ->. exact Hlow.
  - intros Hlow. apply is_csv_iff. exists stem, (String "." rest).
    split; [assumption|]. cbn [Str.lower]. rewrite Hlow. reflexivity.
Qed.

Lemma existsb_eqb_In (x : string) (l : list string) :
  existsb (String.eqb x) l = true <-> In x l.
Proof.
  rewrite existsb_exists. split.
  - intros (y & Hy & Heq). apply String.eqb_eq in Heq. subst. assumption.
  - intros H. exists x. split; [assumption|apply String.eqb_refl].
Qed.

Lemma set_add_In (x y : string) (s : list string) :
  In y (set_add x s) <-> y = x \/ In y s.
Proof.
  unfold set_add. destruct (existsb (String.eqb x) s) eqn:E.
  - apply existsb_eqb_In in E. split; [auto|]. intros [->|H]; assumption.
  - rewrite in_app_iff. cbn [In]. split.
    + intros [H|[H|[]]]; auto.
    + intros [H|H]; auto.
Qed.

Lemma set_add_NoDup (x : string) (s : list string) :
  NoDup s -> NoDup (set_add x s).
Proof.
  intros Hs. unfold set_add. destruct (existsb (String.eqb x) s) eqn:E; [assumption|].
  assert (~ In x s) as Hx.
  { intros H. apply existsb_eqb_In in H. congruence. }
  clear E. induction Hs as [|a s Ha Hs IH]; cbn [app].
  - constructor; [intros []|constructor].
  - constructor.
    + rewrite in_app_iff. cbn [In]. intros [H|[H|[]]]; [contradiction|].
      apply Hx. left. symmetry. assumption.
    + apply IH. intros H. apply Hx. right. assumption.
Qed.

Lemma set_discard_In (x y : string) (s : list string) :
  In y (set_discard x s) <-> In y s /\ y <> x.
Proof.
  unfold set_discard. rewrite filter_In, negb_true_iff. split.
  - intros [H E]. split; [assumption|]. intros ->. rewrite String.eqb_refl in E. discriminate.
  - intros [H E]. split; [assumption|]. apply String.eqb_neq. congruence.
Qed.

Lemma add_extension_In (file x : string) (exts : list string) :
  In x (add_extension file exts)
  <-> In x exts \/ (splitext_ext file <> EmptyString /\ x = extension file).
Proof.
  unfold add_extension, extension.
  destruct (String.eqb_spec (splitext_ext file) "") as [E|E].
  - split; [auto|]. intros [H|[H _]]; [assumption|contradiction].
  - rewrite set_add_In. split.
    + intros [H|H]; auto.
    + intros [H|[_ H]]; auto.
Qed.

Lemma collected_In (files : list string) (acc : list string) (x : string) :
  In x (fold_left (fun exts file => add_extension file exts) files acc)
  <-> In x acc
      \/ exists file, In file files /\ splitext_ext file <> EmptyString
                      /\ x = extension file.
Proof.
  revert acc. induction files as [|file files IH]; intros acc; cbn [fold_left].
  - split; [auto|]. intros [H|(file & [] & _)]. assumption.
  - rewrite IH, add_extension_In. split.
    + intros [[H|[H1 H2]]|(g & Hg & H1 & H2)]; auto.
      * right. exists file. split; [left; reflexivity|]. auto.
      * right. exists g. split; [right; assumption|]. auto.
    + intros [H|(g & [<-|Hg] & H1 & H2)]; auto.
      right. exists g. auto.
Qed.

Lemma collected_NoDup (files : list string) (acc : list string) :
  NoDup acc ->
  NoDup (fold_left (fun exts file => add_extension file exts) files acc).
Proof.
  revert acc. induction files as [|file files IH]; intros acc Hacc; [assumption|].
  cbn [fold_left]. apply IH. unfold add_extension.
  destruct (String.eqb (splitext_ext file) ""); [assumption|].
  apply set_add_NoDup. assumption.
Qed.

Lemma extensions_of_In (f : folder) (x : string) :
  In x (extensions_of f)
  <-> x <> "csv"
      /\ exists file, In file (map name f) /\ splitext_ext file <> EmptyString
                      /\ x = extension file.
Proof.
  unfold extensions_of. rewrite set_discard_In, collected_In. cbn [In].
  split.
  - intros [[[]|H] Hne]. auto.
  - intros [Hne H]. auto.
Qed.

Lemma lower_ascii_twice (c : ascii) :
  Str.lower_ascii (Str.lower_ascii c) = Str.lower_ascii c.
Proof.
  destruct ((65 <=? nat_of_ascii c) && (nat_of_ascii c <=? 90)) eqn:Hup.
  - assert (Str.lower_ascii c = ascii_of_nat (nat_of_ascii c + 32)) as ->.
    { unfold Str.lower_ascii. rewrite Hup. reflexivity. }
    apply andb_prop in Hup. destruct Hup as [H1 H2].
    apply Nat.leb_le in H1. apply Nat.leb_le in H2.
    unfold Str.lower_ascii. rewrite nat_ascii_embedding by lia.
    replace (nat_of_ascii c + 32 <=? 90) with false; [rewrite andb_false_r; reflexivity|].
    symmetry. apply Nat.leb_gt. lia.
  - assert (Str.lower_ascii c = c) as Hc.
    { unfold Str.lower_ascii. rewrite Hup. reflexivity. }
    rewrite !Hc. reflexivity.
Qed.

Lemma lower_twice (s : string) : Str.lower (Str.lower s) = Str.lower s.
Proof.
  induction s as [|c s IH]; [reflexivity|].
  cbn [Str.lower]. rewrite lower_ascii_twice, IH. reflexivity.
Qed.

Lemma lower_keeps_no_dot (t : string) :
  Str.rfind "." t = None -> Str.rfind "." (Str.lower t) = None.
Proof.
  induction t as [|a t IH]; [reflexivity|].
  intros H. apply rfind_none_head in H. destruct H as [Ha Ht].
  cbn [Str.lower Str.rfind]. rewrite (IH Ht).
  destruct (Ascii.eqb_spec (Str.lower_ascii a) ".") as [E|_]; [|reflexivity].
  apply lower_dot in E. subst a. discriminate Ha.
Qed.

Lemma extension_text (file : string) :
  Str.lower (extension file) = extension file
  /\ has_char "." (extension file) = false
  /\ (extension file = EmptyString
      <-> splitext_ext file = EmptyString \/ splitext_ext file = ".").
Proof.
  unfold extension, has_char. split; [apply lower_twice|].
  destruct (splitext_ext_shape file) as [->|(rest & -> & Hnd)].
  - cbn. split; [reflexivity|]. split; auto.
  - cbn [Str.lstrip]. rewrite Ascii.eqb_refl, (lstrip_without _ _ Hnd).
    rewrite (lower_keeps_no_dot _ Hnd). split; [reflexivity|]. split.
    + intros H. right. destruct rest; [reflexivity|discriminate].
    + intros [H|H]; [discriminate|]. injection H as ->. reflexivity.
Qed.

(** X1.  [get_non_csv_extensions] leaves the world as it is and returns a
    list without repetition that holds exactly the extension texts of the
    names that have an extension, [csv] left out; as its docstring says,
    every text in it is lowercase and holds no dot. *)
Theorem extensions_are_a_lowercase_set (w : world) :
  exists exts,
    get_non_csv_extensions w = (Ret exts, w)
    /\ NoDup exts
    /\ (forall x,
          In x exts
          <-> x <> "csv"
              /\ exists file,
                   In file (map name (fs w))
                   /\ splitext_ext file <> EmptyString
                   /\ x = Str.lower (Str.lstrip "." (splitext_ext file)))
    /\ (forall x, In x exts -> Str.lower x = x /\ has_char "." x = false).
Proof.
  exists (extensions_of (fs w)). split; [apply get_non_csv_extensions_world|].
  split; [|split].
  - unfold extensions_of, set_discard. apply NoDup_filter.
    apply collected_NoDup. constructor.
  - intros x. apply extensions_of_In.
  - intros x Hx. apply extensions_of_In in Hx.
    destruct Hx as (_ & file & _ & _ & ->).
    destruct (extension_text file) as (H1 & H2 & _). auto.
Qed.

Lemma extensions_are_a_lowercase_set_witness :
  Str.lower "jpg" = "jpg" /\ has_char "." "jpg" = false.
Proof.
  destruct (extensions_are_a_lowercase_set (mkWorld Sample.malformed []))
    as (exts & _ & _ & Hin & Hlow).
  apply Hlow. apply Hin. split; [discriminate|].
  exists "photo1.jpg". split; [simpl; left; reflexivity|].
  split; [vm_compute; discriminate|vm_compute; reflexivity].
Defined.

(** ** The informational list and the files that are processed *)

Lemma list_media_files_run (w : world) :
  list_media_files (extensions_of (fs w)) w
  = (Ret (media_of (fs w)),
     mkWorld (fs w)
             (out w ++ [EvMedia (List.length (media_of (fs w))) (extensions_of (fs w))])).
Proof. reflexivity. Qed.

Lemma media_of_In (f : folder) (file : string) :
  In file (media_of f)
  <-> In file (map name f) /\ In (extension file) (extensions_of f).
Proof.
  unfold media_of. rewrite filter_In. fold (extension file).
  rewrite existsb_eqb_In. reflexivity.
Qed.

(** X2.  The informational list agrees with the updater on every name that
    has an extension: after [get_non_csv_extensions], [list_media_files]
    prints the number of names it returns, returns only names of the
    folder, and a name with an extension is returned exactly when
    [fix_dates] does not skip it as a CSV name. *)
Theorem media_are_the_processed_names (w : world) :
  exists exts media,
    get_non_csv_extensions w = (Ret exts, w)
    /\ list_media_files exts w
       = (Ret media, mkWorld (fs w) (out w ++ [EvMedia (List.length media) exts]))
    /\ (forall file, In file media -> In file (map name (fs w)))
    /\ (forall file,
          In file (map name (fs w)) -> splitext_ext file <> EmptyString ->
          (In file media <-> is_csv file = false)).
Proof.
  exists (extensions_of (fs w)), (media_of (fs w)).
  split; [apply get_non_csv_extensions_world|].
  split; [apply list_media_files_run|]. split.
  - intros file H. apply media_of_In in H. apply H.
  - intros file Hin Hext. rewrite media_of_In, extensions_of_In.
    pose proof (is_csv_extension file Hext) as Hcsv. split.
    + intros (_ & Hne & _). destruct (is_csv file); [|reflexivity].
      exfalso. apply Hne. apply Hcsv. reflexivity.
    + intros Hno. split; [assumption|]. split.
      * intros E. apply Hcsv in E. congruence.
      * exists file. auto.
Qed.

Lemma media_are_the_processed_names_witness :
  exists media,
    fst (list_media_files (extensions_of Sample.malformed) (mkWorld Sample.malformed []))
    = Ret media
    /\ (In "photo2.jpg" media <-> is_csv "photo2.jpg" = false).
Proof.
  destruct (media_are_the_processed_names (mkWorld Sample.malformed []))
    as (exts & media & Hext & Hrun & _ & Hagree).
  exists media. split.
  - rewrite get_non_csv_extensions_world in Hext. injection Hext as <-.
    rewrite Hrun. reflexivity.
  - apply Hagree; [simpl; auto|vm_compute; discriminate].
Defined.

(** X3.  A name without an extension is put on the informational list
    exactly when some name of the folder ends in a single trailing dot (its
    [splitext] extension is the bare dot), because that name adds the empty
    text to the set of extensions. *)
Theorem media_without_extension (w : world) (file : string) :
  In file (map name (fs w)) -> splitext_ext file = EmptyString ->
  exists exts media,
    get_non_csv_extensions w = (Ret exts, w)
    /\ fst (list_media_files exts w) = Ret media
    /\ (In file media
        <-> exists other, In other (map name (fs w)) /\ splitext_ext other = ".").
Proof.
  intros Hin Hext. exists (extensions_of (fs w)), (media_of (fs w)).
  split; [apply get_non_csv_extensions_world|]. split; [reflexivity|].
  rewrite media_of_In, extensions_of_In.
  assert (extension file = EmptyString) as Hfile.
  { apply extension_text. left. assumption. }
  rewrite Hfile. split.
  - intros (_ & _ & other & Ho & Hne & Heq).
    exists other. split; [assumption|].
    symmetry in Heq. apply extension_text in Heq. destruct Heq; [contradiction|assumption].
  - intros (other & Ho & Hdot). split; [assumption|]. split; [discriminate|].
    exists other. split; [assumption|]. split; [rewrite Hdot; discriminate|].
    symmetry. apply extension_text. right. assumption.
Qed.

Lemma media_without_extension_witness :
  exists media,
    fst (list_media_files (extensions_of [Sample.photo "README" NoFault;
                                           Sample.photo "notes." NoFault])
           (mkWorld [Sample.photo "README" NoFault; Sample.photo "notes." NoFault] []))
    = Ret media
    /\ In "README" media.
Proof.
  destruct (media_without_extension
              (mkWorld [Sample.photo "README" NoFault; Sample.photo "notes." NoFault] [])
              "README")
    as (exts & media & Hext & Hrun & Hiff).
  - simpl. auto.
  - reflexivity.
  - exists media. split.
    + rewrite get_non_csv_extensions_world in Hext. injection Hext as <-. exact Hrun.
    + apply Hiff. exists "notes.". split; [simpl; auto|reflexivity].
Defined.

(** ** The loaded table *)

Lemma Forall2_lengths {A B : Type} (R : A -> B -> Prop) (l : list A) (m : list B) :
  Forall2 R l m -> List.length l = List.length m.
Proof. intros H. induction H; cbn; [reflexivity|f_equal; assumption]. Qed.

Lemma flat_map_length_sum {A B : Type} (g : A -> list B) (l : list A) :
  List.length (flat_map g l) = list_sum (map (fun x => List.length (g x)) l).
Proof.
  induction l as [|x l IH]; [reflexivity|].
  cbn [flat_map map list_sum]. rewrite length_app, IH. reflexivity.
Qed.

(** X4.  When [load_metadata] returns a table, it has printed exactly one
    line and left the folder alone; the line gives the number of entries
    whose name ends in [.csv] as the number of files, and as the number of
    records the sum of the row counts of their tables, whose rows the
    returned table holds in listing order.  When it raises, nothing has
    been printed. *)
Theorem load_metadata_reports_what_it_read (f : folder) (o : list event) :
  (forall df w',
      load_metadata (mkWorld f o) = (Ret df, w') ->
      csv_names f <> []
      /\ exists frames,
           Forall2 (fun n d => csv_of f n = Ret d) (csv_names f) frames
           /\ rows df = flat_map rows frames
           /\ w' = mkWorld f (o ++ [EvLoaded (list_sum (map len frames))
                                            (List.length (csv_names f))]))
  /\ (forall e w', load_metadata (mkWorld f o) = (Raise e, w') -> w' = mkWorld f o).
Proof.
  split.
  - intros df w'. rewrite load_metadata_cases. cbn [fs].
    destruct (for_each (map name f) load_one [] (mkWorld f o)) as [[frames|e] w1]
      eqn:Hrun; cbn [fst]; [|discriminate].
    destruct (load_loop_ret _ _ _ _ _ Hrun) as (more & -> & Hmore).
    cbn [app fs] in *. fold (csv_names f) in Hmore.
    destruct more as [|d more]; [discriminate|].
    intros H. injection H as <- <-. split.
    + intros E. rewrite E in Hmore. inversion Hmore.
    + exists (d :: more). split; [assumption|]. split; [reflexivity|].
      unfold say. cbn [fs out]. do 3 f_equal.
      change (EvLoaded (List.length (flat_map rows (d :: more)))
                       (List.length (d :: more))
              = EvLoaded (list_sum (map (fun x => List.length (rows x)) (d :: more)))
                         (List.length (csv_names f))).
      rewrite flat_map_length_sum, (Forall2_lengths _ _ _ Hmore). reflexivity.
  - intros e w'. rewrite load_metadata_cases. cbn [fs].
    destruct (fst (for_each (map name f) load_one [] (mkWorld f o))) as [[|d frames]|x];
      intros H; try discriminate; injection H as _ <-; reflexivity.
Qed.

Lemma load_metadata_reports_what_it_read_witness :
  csv_names Sample.twice <> [].
Proof.
  apply (proj1 (proj1 (load_metadata_reports_what_it_read Sample.twice [])
                  (concat [Sample.table [("photo1.jpg", Sample.june)];
                           Sample.table [("photo1.jpg", Sample.january)]])
                  (mkWorld Sample.twice [EvLoaded 2 2])
                  ltac:(vm_compute; reflexivity))).
Defined.

Lemma union_In (acc l : list string) (x : string) :
  In x (union acc l) <-> In x acc \/ In x l.
Proof.
  revert acc. induction l as [|y l IH]; intros acc; cbn [union].
  - split; [auto|]. intros [H|[]]. assumption.
  - destruct (existsb (String.eqb y) acc) eqn:E.
    + rewrite IH. cbn [In]. apply existsb_eqb_In in E. split.
      * intros [H|H]; auto.
      * intros [H|[<-|H]]; auto.
    + rewrite IH, in_app_iff. cbn [In]. split.
      * intros [[H|[H|[]]]|H]; auto.
      * intros [H|[H|H]]; auto.
Qed.

Lemma concat_columns_In (frames : list DataFrame) (acc : list string) (x : string) :
  In x (fold_left union (map columns frames) acc)
  <-> In x acc \/ exists d, In d frames /\ In x (columns d).
Proof.
  revert acc. induction frames as [|d frames IH]; intros acc; cbn [map fold_left].
  - split; [auto|]. intros [H|(d & [] & _)]. assumption.
  - rewrite IH, union_In. split.
    + intros [[H|H]|(d' & Hd & H)]; auto.
      * right. exists d. split; [left; reflexivity|assumption].
      * right. exists d'. split; [right; assumption|assumption].
    + intros [H|(d' & [<-|Hd] & H)]; auto.
      right. exists d'. auto.
Qed.

Lemma has_column_concat (frames : list DataFrame) (col : string) :
  has_column (concat frames) col = true
  <-> exists d, In d frames /\ has_column d col = true.
Proof.
  unfold has_column. cbn [concat columns].
  rewrite existsb_eqb_In, concat_columns_In. cbn [In]. split.
  - intros [[]|(d & Hd & H)]. exists d. split; [assumption|].
    apply existsb_eqb_In. assumption.
  - intros (d & Hd & H). right. exists d. split; [assumption|].
    apply existsb_eqb_In. assumption.
Qed.

(** X5.  The merged table has a column exactly when one of the CSV tables
    has it.  So the lookup raises [KeyError] for [imgName] only when no
    table has that column, and as soon as some table has [imgName] and
    some table has [originalCreationDate] the lookup returns the dates of
    the matching rows of all tables, in concatenation order. *)
Theorem merged_table_columns (frames : list DataFrame) (filename : string) :
  (forall col,
      has_column (concat frames) col = true
      <-> exists d, In d frames /\ has_column d col = true)
  /\ ((forall d, In d frames -> has_column d "imgName" = false) ->
      lookup (concat frames) filename = Raise (KeyError "imgName"))
  /\ ((exists d, In d frames /\ has_column d "imgName" = true) ->
      (exists d, In d frames /\ has_column d "originalCreationDate" = true) ->
      lookup (concat frames) filename
      = Ret (map (row_get "originalCreationDate")
                 (filter (fun r => cell_eq filename (row_get "imgName" r))
                         (flat_map rows frames)))).
Proof.
  split; [intros col; apply has_column_concat|]. split.
  - intros Hnone. apply lookup_without_imgName.
    destruct (has_column (concat frames) "imgName") eqn:E; [|reflexivity].
    apply has_column_concat in E. destruct E as (d & Hd & H).
    rewrite (Hnone d Hd) in H. discriminate.
  - intros Hi Hd. apply has_column_concat in Hi. apply has_column_concat in Hd.
    rewrite lookup_columns by assumption. reflexivity.
Qed.

Lemma merged_table_columns_witness :
  lookup (concat [Sample.other_table; Sample.table [("photo1.jpg", Sample.june)]])
         "photo1.jpg"
  = Ret [CStr Sample.june].
Proof.
  refine (proj2 (proj2 (merged_table_columns
            [Sample.other_table; Sample.table [("photo1.jpg", Sample.june)]]
            "photo1.jpg")) _ _).
  - exists (Sample.table [("photo1.jpg", Sample.june)]).
    split; [simpl; auto|reflexivity].
  - exists (Sample.table [("photo1.jpg", Sample.june)]).
    split; [simpl; auto|reflexivity].
Defined.

(** ** Dates that are refused *)

(** X6.  A matched row whose date cell is not a usable text (a missing
    value, a number, or one of the texts pandas reads as missing such as
    the empty text) is not skipped: the iteration prints an error line
    with a [ValueError] for the file and counts one error, in preview and
    in a run that writes alike, and the folder is not touched. *)
Theorem missing_date_is_an_error (df : DataFrame) (dry_run : bool)
    (filename : string) (raw : cell) (rest : Series) (c : counters) (w : world) :
  is_csv filename = false ->
  lookup df filename = Ret (raw :: rest) ->
  (forall text, raw = CStr text -> In text Date.nat_strings) ->
  exists msg,
    process df dry_run filename c w
    = (Ret (mkCounters (success c) (errors c + 1)),
       mkWorld (fs w) (out w ++ [EvError filename (ValueError msg)])).
Proof.
  intros Hcsv Hl Hraw.
  assert (exists msg, date_string raw = Raise (ValueError msg)) as (msg & Hd).
  { unfold date_string, to_datetime, Date.to_datetime_str.
    destruct raw as [text| |n]; cbn [res_bind Date.strftime]; eauto.
    replace (existsb (String.eqb text) Date.nat_strings) with true.
    - cbn [res_bind Date.strftime]. eauto.
    - symmetry. apply existsb_eqb_In. apply Hraw. reflexivity. }
  exists msg. rewrite process_effect. unfold effect, verdict_of.
  rewrite Hcsv, Hl, Hd. reflexivity.
Qed.

Lemma missing_date_is_an_error_witness :
  exists msg,
    process (mkFrame ["imgName"; "originalCreationDate"]
                     [[("imgName", CStr "photo1.jpg")]])
            false "photo1.jpg" (mkCounters 0 0) (mkWorld Sample.one_photo [])
    = (Ret (mkCounters 0 1),
       mkWorld Sample.one_photo [EvError "photo1.jpg" (ValueError msg)]).
Proof.
  apply (missing_date_is_an_error
           (mkFrame ["imgName"; "originalCreationDate"]
                    [[("imgName", CStr "photo1.jpg")]])
           false "photo1.jpg" CNaN [] (mkCounters 0 0) (mkWorld Sample.one_photo [])).
  - reflexivity.
  - reflexivity.
  - intros text H. discriminate H.
Defined.

(** X7.  A date text of the right form whose day does not exist in its
    month (June 31st, February 29th of a common year) is refused with
    "day is out of range for month"; the script then reports an error for
    the file. *)
Theorem impossible_day_is_refused (w m d y h mi : nat) (pm : bool) :
  w < 7 -> 1 <= m <= 12 -> Date.days_in_month y m < d <= 31 ->
  1 <= y < 100 * 100 -> 1 <= h <= 12 -> mi < 60 ->
  date_string (CStr (icloud_text w m d y h mi pm))
  = Raise (ValueError "day is out of range for month").
Proof.
  intros Hw Hm Hd Hy Hh Hmi.
  unfold date_string, to_datetime, Date.to_datetime_str.
  rewrite not_nat_string by assumption.
  unfold Date.strptime. rewrite re_match_icloud_text by lia.
  cbn [String.eqb].
  replace (Date.valid_date _) with false;
    [cbn [Date.fields Date.g_Y Date.default Date.year];
     destruct (Nat.eqb_spec y 0); [lia|reflexivity]|].
  symmetry. unfold Date.valid_date, Date.fields.
  cbn [Date.g_Y Date.g_B Date.g_d Date.default Date.year Date.month Date.day].
  apply andb_false_intro2. apply Nat.leb_gt. lia.
Qed.

Lemma impossible_day_is_refused_witness :
  date_string (CStr "Saturday June 31,2023 09:15 AM GMT")
  = Raise (ValueError "day is out of range for month").
Proof.
  apply (impossible_day_is_refused 5 6 31 2023 9 15 false);
    try (cbn; lia).
Defined.

(** ** The output format loses nothing *)

Lemma dotted_fields (d1 d2 : Date.datetime) :
  dotted d1 = dotted d2 ->
  Str.pad2 (Date.day d1) = Str.pad2 (Date.day d2)
  /\ Str.pad2 (Date.month d1) = Str.pad2 (Date.month d2)
  /\ Str.decimal (Date.year d1) = Str.decimal (Date.year d2)
  /\ Str.pad2 (Date.hour d1) = Str.pad2 (Date.hour d2)
  /\ Str.pad2 (Date.minute d1) = Str.pad2 (Date.minute d2).
Proof.
  unfold dotted, Str.pad2. cbn [String.append].
  intros H. injection H. intros Hrest ? ? ? ?.
  apply (f_equal Filedate.digits) in Hrest.
  rewrite !digits_run in Hrest by (apply all_digits_decimal || reflexivity).
  injection Hrest. intros.
  repeat split; try assumption;
    (f_equal; [assumption|f_equal; assumption]).
Qed.

(** X8.  The date string determines the instant: two date cells for which
    the script computes the same string were parsed to the same year,
    month, day, hour and minute. *)
Theorem date_string_determines_instant (raw1 raw2 : cell) (date_str : string) :
  date_string raw1 = Ret date_str ->
  date_string raw2 = Ret date_str ->
  exists text1 text2 d,
    raw1 = CStr text1 /\ raw2 = CStr text2
    /\ Date.strptime DATE_FORMAT text1 = Ret d
    /\ Date.strptime DATE_FORMAT text2 = Ret d.
Proof.
  intros H1 H2.
  destruct (date_string_sound _ _ H1) as (text1 & d1 & -> & Hp1 & E1).
  destruct (date_string_sound _ _ H2) as (text2 & d2 & -> & Hp2 & E2).
  exists text1, text2, d1. repeat split; try assumption.
  rewrite Hp2. f_equal.
  destruct (strptime_sound _ _ _ Hp1) as (Y1 & M1 & D1 & Hh1 & Hm1).
  destruct (strptime_sound _ _ _ Hp2) as (Y2 & M2 & D2 & Hh2 & Hm2).
  pose proof (days_in_month_le (Date.year d1) (Date.month d1)).
  pose proof (days_in_month_le (Date.year d2) (Date.month d2)).
  rewrite E1 in E2. apply dotted_fields in E2.
  destruct E2 as (Ed & Em & Ey & Eh & Emi).
  apply (f_equal (Date.int_of 0)) in Ed, Em, Ey, Eh, Emi.
  rewrite !int_of_pad2 in Ed, Em, Eh, Emi by lia.
  rewrite !int_of_decimal in Ey.
  destruct d1, d2. cbn in *. congruence.
Qed.

Lemma date_string_determines_instant_witness :
  exists text1 text2 d,
    CStr "Sunday June 11,2023 09:15 AM GMT" = CStr text1
    /\ CStr "sunday june 11,2023 9:15 am gmt" = CStr text2
    /\ Date.strptime DATE_FORMAT text1 = Ret d
    /\ Date.strptime DATE_FORMAT text2 = Ret d.
Proof.
  apply (date_string_determines_instant
           (CStr "Sunday June 11,2023 09:15 AM GMT")
           (CStr "sunday june 11,2023 9:15 am gmt")
           "11.06.2023 09:15").
  - vm_compute. reflexivity.
  - vm_compute. reflexivity.
Defined.


(** ** Running again, and running among other files *)

Lemma effect_related (df : DataFrame) (dry_run : bool) (n : string)
    (o : list event) (c : counters) (w1 w2 : world) :
  (forall m, fault_of m (fs w1) = fault_of m (fs w2)) ->
  out w1 = o ++ out w2 ->
  fst (effect df dry_run n (c, w1)) = fst (effect df dry_run n (c, w2))
  /\ out (snd (effect df dry_run n (c, w1)))
     = o ++ out (snd (effect df dry_run n (c, w2)))
  /\ (fs w1 = fs w2 ->
      fs (snd (effect df dry_run n (c, w1))) = fs (snd (effect df dry_run n (c, w2)))).
Proof.
  intros Hf Ho. unfold effect. rewrite (Hf n).
  destruct (verdict_of df n); try destruct dry_run;
    try destruct (write_error (fault_of n (fs w2)));
    cbn [fst snd say fs out]; rewrite ?Ho, <- ?app_assoc;
    (split; [reflexivity|split; [reflexivity|]]); try (intros E; exact E);
    intros E; rewrite E; reflexivity.
Qed.

Lemma sweep_related (df : DataFrame) (dry_run : bool) (files : list string)
    (o : list event) (c : counters) (w1 w2 : world) :
  (forall m, fault_of m (fs w1) = fault_of m (fs w2)) ->
  out w1 = o ++ out w2 ->
  fst (sweep df dry_run files (c, w1)) = fst (sweep df dry_run files (c, w2))
  /\ out (snd (sweep df dry_run files (c, w1)))
     = o ++ out (snd (sweep df dry_run files (c, w2)))
  /\ (fs w1 = fs w2 ->
      fs (snd (sweep df dry_run files (c, w1)))
      = fs (snd (sweep df dry_run files (c, w2)))).
Proof.
  revert c w1 w2. induction files as [|n files IH]; intros c w1 w2 Hf Ho.
  - cbn. auto.
  - unfold sweep. cbn [fold_left].
    fold (sweep df dry_run files (effect df dry_run n (c, w1))).
    fold (sweep df dry_run files (effect df dry_run n (c, w2))).
    destruct (effect_related df dry_run n o c w1 w2 Hf Ho) as (Hc & Hout & Hfs).
    pose proof (effect_fault_of df dry_run) as Hkeep.
    destruct (effect df dry_run n (c, w1)) as [c1 v1] eqn:E1.
    destruct (effect df dry_run n (c, w2)) as [c2 v2] eqn:E2.
    cbn [fst snd] in Hc, Hout, Hfs. subst c2.
    destruct (IH c1 v1 v2) as (Hc' & Hout' & Hfs').
    + intros m.
      pose proof (Hkeep m n (c, w1)) as K1. rewrite E1 in K1.
      pose proof (Hkeep m n (c, w2)) as K2. rewrite E2 in K2.
      cbn [snd] in K1, K2. rewrite K1, K2. apply Hf.
    + assumption.
    + split; [assumption|]. split; [assumption|].
      intros E. apply Hfs'. apply Hfs. assumption.
Qed.



Lemma restored_twice (df : DataFrame) (f : folder) (e : entry) :
  restored df (map (restored df f) f) (restored df f e) = restored df f e.
Proof.
  unfold restored at 1. rewrite restored_name.
  rewrite fault_of_map
    by (intros x; split; [apply restored_name|apply restored_fault]).
  unfold restored.
  destruct (verdict_of df (name e)) as [| |date_str|]; try reflexivity.
  destruct (fault_of (name e) f) as [[| | | |]|]; try reflexivity;
    unfold stamp_both, stamp_created, stamp_modified;
    destruct (Filedate.read date_str) eqn:Hr; cbn [name kind created modified fault];
    rewrite ?Hr; reflexivity.
Qed.

(** X9.  Running the script a second time changes nothing more: the
    folder left by a run that writes is left as it is by another such run
    with the same table, and the second run prints the same lines and
    totals as the first. *)
Theorem second_run_changes_nothing (df : DataFrame) (f : folder) :
  fs (snd (run df false (fs (snd (run df false f))))) = fs (snd (run df false f))
  /\ out (snd (run df false (fs (snd (run df false f)))))
     = out (snd (run df false f)).
Proof.
  rewrite (run_fs df false f). split.
  - rewrite (run_fs df false (map (restored df f) f)).
    rewrite map_map. apply map_ext. intros e. apply restored_twice.
  - rewrite !run_out.
    assert (map name (map (restored df f) f) = map name f) as Hn.
    { rewrite map_map. apply map_ext. intros e. apply restored_name. }
    rewrite Hn.
    destruct (sweep_related df false (map name f) [] (mkCounters 0 0)
                (mkWorld (map (restored df f) f) []) (mkWorld f []))
      as (Hc & Hout & _).
    + intros m. cbn [fs]. apply fault_of_map.
      intros x. split; [apply restored_name|apply restored_fault].
    + reflexivity.
    + rewrite Hc, Hout. reflexivity.
Qed.






(** ** The lines of a run *)



(** ** Text after the date *)

Lemma string_append_assoc (a b c : string) :
  ((a ++ b) ++ c)%string = (a ++ (b ++ c))%string.
Proof. induction a as [|x a IH]; cbn; [reflexivity|rewrite IH; reflexivity]. Qed.

Lemma match_tail_then (f : Date.found) (pm : bool) (extra : string) :
  Date.re_match [Date.Blank; Date.Directive "p"; Date.Blank;
                 Date.Lit "G"; Date.Lit "M"; Date.Lit "T"] f
                (String " " ((if pm then "PM" else "AM")
                             ++ String " " (String "G" (String "M" (String "T" extra)))))
  = Some (Date.set_p f (if pm then 1 else 0), extra).
Proof. destruct pm; vm_compute; reflexivity. Qed.

Lemma re_match_icloud_text_then (w m d y h mi : nat) (pm : bool) (extra : string) :
  w < 7 -> 1 <= m <= 12 -> 1 <= d <= 31 -> y < 100 * 100 ->
  1 <= h <= 12 -> mi < 60 ->
  Date.re_match (Date.tokenize DATE_FORMAT) Date.no_groups
                (icloud_text w m d y h mi pm ++ extra)
  = Some (Date.mkFound (Some w) (Some m) (Some d) (Some y) (Some h) (Some mi)
                       (Some (if pm then 1 else 0)),
          extra).
Proof.
  intros Hw Hm Hd Hy Hh Hmi.
  change (Date.tokenize DATE_FORMAT)
    with [Date.Directive "A"; Date.Blank; Date.Directive "B"; Date.Blank;
          Date.Directive "d"; Date.Lit ","; Date.Directive "Y"; Date.Blank;
          Date.Directive "I"; Date.Lit ":"; Date.Directive "M"; Date.Blank;
          Date.Directive "p"; Date.Blank; Date.Lit "G"; Date.Lit "M"; Date.Lit "T"].
  unfold icloud_text. rewrite !string_append_assoc. cbn [String.append].
  rewrite match_weekday by assumption.
  rewrite match_blank_month by assumption.
  rewrite match_blank_day by assumption.
  rewrite match_year by assumption.
  rewrite match_blank_hour by assumption.
  rewrite match_minute by assumption.
  rewrite match_tail_then.
  reflexivity.
Qed.

(** X12.  The whole cell has to be the date: a well-formed date text
    followed by anything else is refused with "unconverted data remains",
    so the script reports an error for the file instead of using the
    leading date. *)
Theorem trailing_text_is_refused (w m d y h mi : nat) (pm : bool) (extra : string) :
  w < 7 -> 1 <= m <= 12 -> 1 <= d <= 31 -> y < 100 * 100 ->
  1 <= h <= 12 -> mi < 60 ->
  extra <> EmptyString ->
  date_string (CStr (icloud_text w m d y h mi pm ++ extra))
  = Raise (ValueError "unconverted data remains").
Proof.
  intros Hw Hm Hd Hy Hh Hmi Hextra.
  unfold date_string, to_datetime, Date.to_datetime_str.
  assert (existsb (String.eqb (icloud_text w m d y h mi pm ++ extra)) Date.nat_strings
          = false) as ->.
  { unfold icloud_text. do 7 (destruct w as [|w]; [reflexivity|]). lia. }
  unfold Date.strptime. rewrite re_match_icloud_text_then by assumption.
  destruct extra as [|c extra]; [contradiction|]. reflexivity.
Qed.

Lemma trailing_text_is_refused_witness :
  date_string (CStr "Sunday June 11,2023 09:15 AM GMT+2")
  = Raise (ValueError "unconverted data remains").
Proof.
  apply (trailing_text_is_refused 6 6 11 2023 9 15 false "+2");
    try (cbn; lia). discriminate.
Defined.

(** ** The console and the directory *)

(** X15.  On a directory that can be listed and whose non-CSV names are
    UTF-8, the script with [print] and [os.listdir] as they are does what
    the script proper does: [main] and [fix_dates] give the same result,
    the same folder and the same console. *)
Theorem refusals_apart_the_script_is_the_same (f : folder) (dry_run : bool) :
  (forall n, In n (candidates f) -> Str.utf8 n = true) ->
  Checked.main (Checked.Folder None f) dry_run = main (Some f) dry_run
  /\ (forall df o,
        Checked.fix_dates None df dry_run (mkWorld f o)
        = fix_dates df dry_run (mkWorld f o)).
Proof.
  intros H. pose proof (printable_names f H) as Hall. split.
  - apply checked_main_printable. exact Hall.
  - intros df o. apply checked_fix_dates_printable. exact Hall.
Qed.

Lemma refusals_apart_the_script_is_the_same_witness :
  Checked.main (Checked.Folder None Sample.one_photo) false
  = main (Some Sample.one_photo) false.
Proof.
  apply (proj1 (refusals_apart_the_script_is_the_same Sample.one_photo false
                  ltac:(simpl; intros n [<-|[]]; reflexivity))).
Defined.
